(** * Fireflies meeting analyzer

    A shallow embedding of the transcript model and the host/lead attribution
    ([fireflies_client.py]), of the response ingestion and aggregation
    ([ai_analyzer.py]) and of the Markdown export ([exporter.py]), with the
    properties the specification states about them. *)

From Stdlib Require Import ZArith NArith String Ascii SpecFloat DecimalString.
From stdpp Require Import base option list gmap sorting.

(** ** Python values *)

(** A Python [str] is a sequence of Unicode code points. *)
Abbreviation str := (list N).

(** ASCII literals of the source, as code points. *)
Definition u (s : string) : str := map N_of_ascii (list_ascii_of_string s).
Arguments u s%_string : simpl never.

(** [str.lower()].  Exact on code points below U+0100 (Basic Latin and
    Latin-1 Supplement: A-Z, and U+00C0-U+00DE without the multiplication
    sign, move up by 32); code points from U+0100 on are left as they are,
    so texts in other scripts are outside what this function models. *)
Definition lower_cp (c : N) : N :=
  if ((65 <=? c) && (c <=? 90) ||
      (192 <=? c) && (c <=? 222) && negb (c =? 215))%N
  then (c + 32)%N else c.

Definition lower (s : str) : str := map lower_cp s.

(** [p in s] for two strings: [p] occurs in [s] as a contiguous run. *)
Fixpoint starts_with (p s : str) : bool :=
  match p, s with
  | [], _ => true
  | _ :: _, [] => false
  | a :: p', b :: s' => (a =? b)%N && starts_with p' s'
  end.

Fixpoint str_in (p s : str) : bool :=
  starts_with p s || match s with [] => false | _ :: s' => str_in p s' end.

(** The values [json.loads] can return: [None], [bool], [int], [float]
    (binary64), [str], [list], and [dict] with [str] keys in insertion
    order. *)
#[warnings="-register-all"]
Inductive pyval :=
| PNone
| PBool (b : bool)
| PInt (z : Z)
| PFloat (f : spec_float)
| PStr (s : str)
| PList (l : list pyval)
| PDict (d : list (str * pyval)).

(** Truth value of a decoded value ([if v:], [v or w]). *)
Definition truthy (v : pyval) : bool :=
  match v with
  | PNone => false
  | PBool b => b
  | PInt z => negb (z =? 0)%Z
  | PFloat (S754_zero _) => false
  | PFloat _ => true
  | PStr s => negb (bool_decide (s = []))
  | PList l => negb (bool_decide (length l = 0))
  | PDict d => negb (bool_decide (length d = 0))
  end.

Definition py_or (v w : pyval) : pyval := if truthy v then v else w.

(** ** Outcomes

    A call returns, raises, or leaves the typed model: the dataclasses
    declare their field types but Python does not check them when a record
    is constructed, so a decoded value of another type would be stored as it
    is.  The records below keep the declared types; [Untyped] marks the runs
    in which such a value reaches a typed field, and nothing is stated about
    what Python does after that point. *)
Inductive exn :=
| TypeError | AttributeError | ValueError | OverflowError | OSError
| RecursionError | JSONDecodeError.

Inductive outcome (A : Type) :=
| Ok (a : A)
| Raise (e : exn)
| Untyped.
Arguments Ok {A} a.
Arguments Raise {A} e.
Arguments Untyped {A}.

#[global] Instance outcome_ret : MRet outcome := @Ok.
#[global] Instance outcome_bind : MBind outcome := fun A B f m =>
  match m with
  | Ok a => f a
  | Raise e => Raise e
  | Untyped => Untyped
  end.

(** A library call returns or raises. *)
Inductive result (A : Type) :=
| Returned (a : A)
| Raised (e : exn).
Arguments Returned {A} a.
Arguments Raised {A} e.

Definition called {A} (r : result A) : outcome A :=
  match r with Returned a => Ok a | Raised e => Raise e end.

(** [for x in l: ys.append(f(x))], stopping at the first failure. *)
Fixpoint for_each {A B} (f : A → outcome B) (l : list A) : outcome (list B) :=
  match l with
  | [] => Ok []
  | x :: l' => y ← f x; ys ← for_each f l'; Ok (y :: ys)
  end.

(** [for x in v]: a list yields its elements, a dict its keys, a str its
    characters; the other decoded values are not iterable. *)
Definition py_iter (v : pyval) : outcome (list pyval) :=
  match v with
  | PList l => Ok l
  | PDict d => Ok (map (λ kv, PStr kv.1) d)
  | PStr s => Ok (map (λ c, PStr [c]) s)
  | PNone | PBool _ | PInt _ | PFloat _ => Raise TypeError
  end.

(** [d[k]] on the pairs of a dict, [None] when the key is missing. *)
Fixpoint dict_get {V} (d : list (str * V)) (k : str) : option V :=
  match d with
  | [] => None
  | (k', v) :: d' => if decide (k' = k) then Some v else dict_get d' k
  end.

(** [v.get(k, dflt)]: only a dict has the method. *)
Definition py_get (v : pyval) (k : str) (dflt : pyval) : outcome pyval :=
  match v with
  | PDict d => Ok (default dflt (dict_get d k))
  | _ => Raise AttributeError
  end.

(** Readers into the declared field types. *)
Definition as_str (v : pyval) : outcome str :=
  match v with PStr s => Ok s | _ => Untyped end.

Definition as_opt_str (v : pyval) : outcome (option str) :=
  match v with PNone => Ok None | PStr s => Ok (Some s) | _ => Untyped end.

Definition as_number (v : pyval) : outcome pyval :=
  match v with PBool _ | PInt _ | PFloat _ => Ok v | _ => Untyped end.

Definition as_list {A} (f : pyval → outcome A) (v : pyval) : outcome (list A) :=
  match v with PList l => for_each f l | _ => Untyped end.

Definition as_dict_str (v : pyval) : outcome (list (str * str)) :=
  match v with
  | PDict d => for_each (λ kv, s ← as_str kv.2; Ok (kv.1, s)) d
  | _ => Untyped
  end.

(** ** Transcript model ([fireflies_client.py]) *)

Record datetime := {
  year : Z; month : Z; day : Z;
  hour : Z; minute : Z; second : Z; microsecond : Z;
  utcoffset : option Z
}.

Module Speaker.
Record t := mk {
  id : str;
  name : option str;      (* declared [str]; the code guards against [None] *)
  email : option str;
  duration : pyval;       (* a number *)
  word_count : pyval;     (* a number *)
  is_host : bool
}.
End Speaker.

Module Sentence.
Record t := mk {
  index : pyval;          (* a number *)
  text : str;
  speaker_id : str;
  speaker_name : str;
  start_time : pyval;     (* a number *)
  end_time : pyval;       (* a number *)
  raw_text : option str
}.
End Sentence.

Module MeetingSummary.
Record t := mk {
  keywords : list str;
  action_items : list str;
  outline : list str;
  meeting_type : option str;
  questions : list str
}.
End MeetingSummary.

Module Meeting.
Record t := mk {
  id : str;
  title : str;
  date : datetime;
  duration : pyval;       (* a number, in minutes *)
  host_email : option str;
  organizer_email : option str;
  speakers : list Speaker.t;
  sentences : list Sentence.t;
  summary : MeetingSummary.t;
  transcript_url : option str;
  participants : list str
}.
End Meeting.

(** ** Host/lead attribution: [Meeting.get_lead_statements] *)

(** [x.lower() if x else ""] for an optional string. *)
Definition lower_or_empty (x : option str) : str :=
  match x with
  | Some (c :: s) => lower (c :: s)
  | _ => []
  end.

(** [if x: markers.add(x.lower())]. *)
Definition add_lowered (x : option str) (markers : gset str) : gset str :=
  match x with
  | Some (c :: s) => {[ lower (c :: s) ]} ∪ markers
  | _ => markers
  end.

Definition host_markers (self : Meeting.t) (host_identifiers : option (list str))
  : gset str :=
  let host_identifiers := default [] host_identifiers in
  let host_markers := list_to_set host_identifiers in
  let host_markers := add_lowered (Meeting.host_email self) host_markers in
  add_lowered (Meeting.organizer_email self) host_markers.

(** [any(marker in speaker_lower or marker in email_lower
         for marker in host_markers if marker)]. *)
Definition any_marker (host_markers : gset str) (speaker_lower email_lower : str)
  : bool :=
  existsb (λ marker, str_in marker speaker_lower || str_in marker email_lower)
          (filter (λ marker, marker ≠ []) (elements host_markers)).

(** One round of the loop over [self.speakers]. *)
Definition add_host_speaker (host_markers : gset str)
    (host_speaker_ids : gset str) (speaker : Speaker.t) : gset str :=
  let speaker_lower := lower_or_empty (Speaker.name speaker) in
  let email_lower := lower_or_empty (Speaker.email speaker) in
  if Speaker.is_host speaker then {[ Speaker.id speaker ]} ∪ host_speaker_ids
  else if any_marker host_markers speaker_lower email_lower
       then {[ Speaker.id speaker ]} ∪ host_speaker_ids
       else host_speaker_ids.

Definition host_speaker_ids (self : Meeting.t) (host_identifiers : option (list str))
  : gset str :=
  foldl (add_host_speaker (host_markers self host_identifiers)) ∅
        (Meeting.speakers self).

Definition get_lead_statements (self : Meeting.t)
    (host_identifiers : option (list str)) : list Sentence.t :=
  filter (λ sentence,
            Sentence.speaker_id sentence ∉ host_speaker_ids self host_identifiers)
         (Meeting.sentences self).

(** ** What the program takes from Python's library

    [json.loads], the clock and the [datetime] conversions.  Every
    statement below holds for whatever these functions do. *)
Class PyLib := {
  json_loads : str → result pyval;
  datetime_now : datetime;
  (* [datetime.fromtimestamp(v / 1000)] for a number [v] *)
  datetime_fromtimestamp_ms : pyval → result datetime;
  datetime_fromisoformat : str → result datetime;
  strftime : datetime → str → str
}.

(** [str(n)] for an [int]. *)
Definition str_of_Z (z : Z) : str := u (NilZero.string_of_int (Z.to_int z)).

(** [sep.join(lines)]. *)
Fixpoint join (sep : str) (lines : list str) : str :=
  match lines with
  | [] => []
  | [l] => l
  | l :: rest => l ++ sep ++ join sep rest
  end.

(** ** Result records ([ai_analyzer.py]) *)

Module CustomerProfile.
Record t := mk {
  company_name : str;
  industry : str;
  company_size : str;
  decision_maker_role : str;
  purchasing_authority : str;
  business_context : str;
  current_solutions : list str;
  budget_indicators : str;
  timeline_urgency : str;
  supporting_quotes : list (list (str * str))
}.
End CustomerProfile.

Module PainPoint.
Record t := mk {
  category : str;
  description : str;
  direct_quote : str;
  speaker : str;
  impact_level : str;
  context : str;
  desired_outcome : str;
  impact_statement : str
}.
End PainPoint.

Module Question.
Record t := mk {
  text : str;
  speaker : str;
  category : str;
  underlying_concern : str;
  context : str
}.
End Question.

Module Objection.
Record t := mk {
  objection_text : str;
  direct_quote : str;
  speaker : str;
  emotional_undertone : str;
  root_cause : str;
  resolution_pathway : str;
  conversion_trigger : str
}.
End Objection.

Module LanguagePattern.
Record t := mk {
  category : str;
  phrase : str;
  context : str;
  speaker : str;
  usage_count : Z
}.
End LanguagePattern.

Module AnalysisResult.
Record t := mk {
  timestamp : datetime;
  meetings_analyzed : Z;
  total_lead_statements : Z;
  customer_profiles : list CustomerProfile.t;
  pain_points : list PainPoint.t;
  questions : list Question.t;
  objections : list Objection.t;
  language_patterns : list LanguagePattern.t;
  top_pain_categories : gmap str Z;
  common_questions : list str;
  conversion_triggers : list str;
  value_propositions : list (list (str * str));
  marketing_recommendations : list (list (str * str));
  messaging_guidelines : list (list (str * str))
}.
End AnalysisResult.

(** ** Response ingestion: [AIAnalyzer._parse_response] *)

(** The text from its first ['{'] on. *)
Fixpoint from_first_open (s : str) : option str :=
  match s with
  | [] => None
  | c :: s' => if (c =? 123)%N then Some s else from_first_open s'
  end.

(** The text up to and including its last [c]. *)
Fixpoint upto_last (c : N) (s : str) : option str :=
  match s with
  | [] => None
  | x :: s' =>
      match upto_last c s' with
      | Some p => Some (x :: p)
      | None => if (x =? c)%N then Some [x] else None
      end
  end.

(** [re.search(r'\{[\s\S]*\}', response)] and [.group()]: the leftmost
    ['{'] that has a ['}'] after it, extended to the last ['}'] of the text.
    When the first ['{'] has no ['}'] after it, no later one has. *)
Definition re_search_braces (response : str) : option str :=
  match from_first_open response with
  | Some (open :: rest) =>
      match upto_last 125 rest with
      | Some body => Some (open :: body)
      | None => None
      end
  | _ => None
  end.

(** [except json.JSONDecodeError: pass] lets any other exception of the
    decoder through. *)
Definition _parse_response `{PyLib} (response : str) : result pyval :=
  match json_loads response with
  | Raised JSONDecodeError =>
      match re_search_braces response with
      | Some json_match =>
          match json_loads json_match with
          | Raised JSONDecodeError => Returned (PDict [])
          | r => r
          end
      | None => Returned (PDict [])
      end
  | r => r
  end.

(** ** Field mapping and aggregation: [AIAnalyzer._build_result] *)

(** [as_str(v.get(k, dflt))] with literals of the source. *)
Definition get_str (v : pyval) (k dflt : string) : outcome str :=
  x ← py_get v (u k) (PStr (u dflt)); as_str x.

(** [for x in data.get(k, []): out.append(f(x))]. *)
Definition records {A} (f : pyval → outcome A) (data : pyval) (k : string)
  : outcome (list A) :=
  l ← py_get data (u k) (PList []);
  items ← py_iter l;
  for_each f items.

(** [result.k = data.get(k, [])] into a field declared as a list. *)
Definition passthrough {A} (f : pyval → outcome A) (data : pyval) (k : string)
  : outcome (list A) :=
  l ← py_get data (u k) (PList []); as_list f l.

Definition build_customer_profile (cp : pyval) : outcome CustomerProfile.t :=
  company_name ← get_str cp "company_name" "";
  industry ← get_str cp "industry" "";
  company_size ← get_str cp "company_size" "";
  decision_maker_role ← get_str cp "decision_maker_role" "";
  purchasing_authority ← get_str cp "purchasing_authority" "";
  business_context ← get_str cp "business_context" "";
  current_solutions ← passthrough as_str cp "current_solutions";
  budget_indicators ← get_str cp "budget_indicators" "";
  timeline_urgency ← get_str cp "timeline_urgency" "";
  supporting_quotes ← passthrough as_dict_str cp "supporting_quotes";
  Ok (CustomerProfile.mk company_name industry company_size decision_maker_role
        purchasing_authority business_context current_solutions
        budget_indicators timeline_urgency supporting_quotes).

Definition build_pain_point (pp : pyval) : outcome PainPoint.t :=
  category ← get_str pp "category" "Sonstiges";
  description ← get_str pp "description" "";
  direct_quote ← get_str pp "direct_quote" "";
  speaker ← get_str pp "speaker" "";
  impact_level ← get_str pp "impact_level" "Mittel";
  context ← get_str pp "context" "";
  desired_outcome ← get_str pp "desired_outcome" "";
  impact_statement ← get_str pp "impact_statement" "";
  Ok (PainPoint.mk category description direct_quote speaker impact_level
        context desired_outcome impact_statement).

Definition build_question (q : pyval) : outcome Question.t :=
  text ← get_str q "text" "";
  speaker ← get_str q "speaker" "";
  category ← get_str q "category" "Allgemein";
  underlying_concern ← get_str q "underlying_concern" "";
  context ← get_str q "context" "";
  Ok (Question.mk text speaker category underlying_concern context).

Definition build_objection (obj : pyval) : outcome Objection.t :=
  objection_text ← get_str obj "objection_text" "";
  direct_quote ← get_str obj "direct_quote" "";
  speaker ← get_str obj "speaker" "";
  emotional_undertone ← get_str obj "emotional_undertone" "";
  root_cause ← get_str obj "root_cause" "";
  resolution_pathway ← get_str obj "resolution_pathway" "";
  conversion_trigger ← get_str obj "conversion_trigger" "";
  Ok (Objection.mk objection_text direct_quote speaker emotional_undertone
        root_cause resolution_pathway conversion_trigger).

(** [usage_count] is not read from the element: the dataclass default 1. *)
Definition build_language_pattern (lp : pyval) : outcome LanguagePattern.t :=
  category ← get_str lp "category" "";
  phrase ← get_str lp "phrase" "";
  context ← get_str lp "context" "";
  speaker ← get_str lp "speaker" "";
  Ok (LanguagePattern.mk category phrase context speaker 1).

(** [top[cat] = top.get(cat, 0) + 1] over the pain points, from [{}]. *)
Definition count_category (top : gmap str Z) (pp : PainPoint.t) : gmap str Z :=
  let cat := PainPoint.category pp in
  <[ cat := (default 0 (top !! cat) + 1)%Z ]> top.

Definition count_categories (pain_points : list PainPoint.t) : gmap str Z :=
  foldl count_category ∅ pain_points.

(** [[q.text for q in questions[:10]]]. *)
Definition first_questions (questions : list Question.t) : list str :=
  map Question.text (take 10 questions).

Definition _build_result `{PyLib} (analysis_data : pyval)
    (meetings : list Meeting.t) (lead_statements : list Sentence.t)
  : outcome AnalysisResult.t :=
  customer_profiles ← records build_customer_profile analysis_data "customer_profiles";
  pain_points ← records build_pain_point analysis_data "pain_points";
  questions ← records build_question analysis_data "questions";
  objections ← records build_objection analysis_data "objections";
  language_patterns ← records build_language_pattern analysis_data "language_patterns";
  value_propositions ← passthrough as_dict_str analysis_data "value_propositions";
  marketing_recommendations ←
    passthrough as_dict_str analysis_data "marketing_recommendations";
  messaging_guidelines ← passthrough as_dict_str analysis_data "messaging_guidelines";
  conversion_triggers ← passthrough as_str analysis_data "conversion_triggers";
  Ok {|
    AnalysisResult.timestamp := datetime_now;
    AnalysisResult.meetings_analyzed := Z.of_nat (length meetings);
    AnalysisResult.total_lead_statements := Z.of_nat (length lead_statements);
    AnalysisResult.customer_profiles := customer_profiles;
    AnalysisResult.pain_points := pain_points;
    AnalysisResult.questions := questions;
    AnalysisResult.objections := objections;
    AnalysisResult.language_patterns := language_patterns;
    AnalysisResult.top_pain_categories := count_categories pain_points;
    AnalysisResult.common_questions := first_questions questions;
    AnalysisResult.conversion_triggers := conversion_triggers;
    AnalysisResult.value_propositions := value_propositions;
    AnalysisResult.marketing_recommendations := marketing_recommendations;
    AnalysisResult.messaging_guidelines := messaging_guidelines
  |}.

(** The end of [analyze_meetings] once the provider has answered with
    [response]:
    [try: analysis_data = self._parse_response(response)]
    [except Exception: analysis_data = {}]
    and then, outside the [try], [self._build_result(analysis_data, ...)]. *)
Definition ingest `{PyLib} (response : str)
    (meetings : list Meeting.t) (lead_statements : list Sentence.t)
  : outcome AnalysisResult.t :=
  let analysis_data :=
    match _parse_response response with
    | Returned v => v
    | Raised _ => PDict []
    end in
  _build_result analysis_data meetings lead_statements.

(** ** Prompt formatting: [AIAnalyzer._format_statements] *)

Definition nl : str := [10%N].

(** [f"[{stmt.speaker_name}]: {stmt.text}"]. *)
Definition statement_line (stmt : Sentence.t) : str :=
  u "[" ++ Sentence.speaker_name stmt ++ u "]: " ++ Sentence.text stmt.
Arguments statement_line : simpl never.

(** The loop, with the running [total_chars]; [break] ends it. *)
Fixpoint format_loop (max_chars total_chars : Z) (statements : list Sentence.t)
  : list str :=
  match statements with
  | [] => []
  | stmt :: rest =>
      let line := statement_line stmt in
      if (total_chars + Z.of_nat (length line) >? max_chars)%Z then []
      else line :: format_loop max_chars (total_chars + Z.of_nat (length line)) rest
  end.

Definition _format_statements (statements : list Sentence.t) (max_chars : Z) : str :=
  join nl (format_loop max_chars 0 statements).

(** The default of the [max_chars] parameter, which [analyze_meetings] uses. *)
Definition default_max_chars : Z := 50000.

(** ** Markdown export: [ReportExporter._build_markdown] *)

Definition dq : str := [34%N].            (* the double quote *)
Definition dash : str := [8212%N].        (* U+2014 *)
Definition a_uml : str := [228%N].
Definition o_uml : str := [246%N].
Definition u_uml : str := [252%N].

(** [if value: lines.append(f"{label}{value}")]. *)
Definition opt_line (label : str) (value : str) : list str :=
  match value with
  | [] => []
  | _ :: _ => [label ++ value]
  end.

(** [x or dflt] on strings. *)
Definition str_or (x dflt : str) : str :=
  match x with [] => dflt | _ :: _ => x end.

(** [d.get(k, dflt)] on a typed dict. *)
Definition get_or (d : list (str * str)) (k dflt : string) : str :=
  default (u dflt) (dict_get d (u k)).

(** [enumerate(l, i)]. *)
Fixpoint enumerate {A} (i : Z) (l : list A) : list (Z * A) :=
  match l with
  | [] => []
  | x :: l' => (i, x) :: enumerate (i + 1)%Z l'
  end.

(** [if cat not in by_category: by_category[cat] = []] and then
    [by_category[cat].append(x)], on a dict in insertion order. *)
Fixpoint group_add {A} (cat : str) (x : A) (by_category : list (str * list A))
  : list (str * list A) :=
  match by_category with
  | [] => [(cat, [x])]
  | (c, xs) :: rest =>
      if decide (c = cat) then (c, xs ++ [x]) :: rest
      else (c, xs) :: group_add cat x rest
  end.

Definition group_by {A} (key : A → str) (l : list A) : list (str * list A) :=
  foldl (λ by_category x, group_add (key x) x by_category) [] l.

Definition report_header `{PyLib} (result : AnalysisResult.t) : list str :=
  [ u "# Meeting-Analyse Report";
    [];
    u "**Erstellt:** " ++ strftime (AnalysisResult.timestamp result) (u "%d.%m.%Y %H:%M");
    u "**Analysierte Meetings:** " ++ str_of_Z (AnalysisResult.meetings_analyzed result);
    u "**Lead-Aussagen:** " ++ str_of_Z (AnalysisResult.total_lead_statements result);
    [];
    u "---";
    [] ].

Definition quote_lines (quote : list (str * str)) : list str :=
  (u "> " ++ dq ++ get_or quote "quote" "" ++ dq) ::
  match dict_get quote (u "context") with
  | Some (c :: s) => [u "> *" ++ (c :: s) ++ u "*"]
  | _ => []
  end.

Definition profile_lines (i : Z) (profile : CustomerProfile.t) : list str :=
  [u "### Profil " ++ str_of_Z i] ++
  opt_line (u "- **Unternehmen:** ") (CustomerProfile.company_name profile) ++
  opt_line (u "- **Branche:** ") (CustomerProfile.industry profile) ++
  opt_line (u "- **Entscheider-Rolle:** ") (CustomerProfile.decision_maker_role profile) ++
  opt_line (u "- **Gesch" ++ a_uml ++ u "ftskontext:** ")
           (CustomerProfile.business_context profile) ++
  opt_line (u "- **Dringlichkeit:** ") (CustomerProfile.timeline_urgency profile) ++
  match CustomerProfile.supporting_quotes profile with
  | [] => []
  | quotes => [ []; u "**Unterst" ++ u_uml ++ u "tzende Zitate:**" ] ++
              flat_map quote_lines quotes
  end ++
  [ [] ].

Definition h_profiles : str := u "## 1. Kunden-Insight-Profile".
Definition h_pain_points : str := u "## 2. Pain Point Matrix".
Definition h_questions : str := u "## 3. Lead-Fragen".
Definition h_objections : str := u "## 4. Einwand-Analyse".
Definition h_language : str := u "## 5. Sprachanalyse".
Definition h_value_propositions : str := u "## 6. Value Propositions".
Definition h_marketing : str := u "## 7. Marketing-Empfehlungen".
Definition h_messaging : str := u "## 8. Messaging-Leitfaden".
Definition h_triggers : str := u "## 9. Conversion Triggers".

(** [if records: lines.append(header); lines.append(""); body]. *)
Definition section {A} (records : list A) (header : str) (body : list str)
  : list str :=
  match records with
  | [] => []
  | _ :: _ => [header; []] ++ body
  end.

Definition pain_point_lines (pp : PainPoint.t) : list str :=
  [ u "**" ++ PainPoint.description pp ++ u "** (Priorit" ++ a_uml ++ u "t: " ++
      PainPoint.impact_level pp ++ u ")";
    [];
    u "> " ++ dq ++ PainPoint.direct_quote pp ++ dq;
    u "> " ++ dash ++ u " *" ++ PainPoint.speaker pp ++ u "*";
    [] ] ++
  opt_line (u "**Kontext:** ") (PainPoint.context pp) ++
  opt_line (u "**Gew" ++ u_uml ++ u "nschtes Ergebnis:** ") (PainPoint.desired_outcome pp) ++
  opt_line (u "**Auswirkung:** ") (PainPoint.impact_statement pp) ++
  [ [] ].

Definition question_lines (q : Question.t) : list str :=
  [ u "**Frage:** " ++ dq ++ Question.text q ++ dq;
    u "- *" ++ Question.speaker q ++ u "*" ] ++
  opt_line (u "- **Zugrundeliegende Sorge:** ") (Question.underlying_concern q) ++
  [ [] ].

(** [for category, items in by_category.items()]. *)
Definition grouped_lines {A} (item_lines : A → list str)
    (by_category : list (str * list A)) : list str :=
  flat_map (λ g, [u "### " ++ g.1; []] ++ flat_map item_lines g.2) by_category.

Definition objection_lines (obj : Objection.t) : list str :=
  [ u "### " ++ dq ++ Objection.objection_text obj ++ dq;
    [];
    u "> " ++ dq ++ Objection.direct_quote obj ++ dq;
    u "> " ++ dash ++ u " *" ++ Objection.speaker obj ++ u "*";
    [] ] ++
  opt_line (u "**Emotionale F" ++ a_uml ++ u "rbung:** ") (Objection.emotional_undertone obj) ++
  opt_line (u "**Ursache:** ") (Objection.root_cause obj) ++
  opt_line (u "**L" ++ o_uml ++ u "sungsweg:** ") (Objection.resolution_pathway obj) ++
  opt_line (u "**Conversion Trigger:** ") (Objection.conversion_trigger obj) ++
  [ [] ].

(** The [categories] dict of the language section, in its order. *)
Definition language_categories : list (str * str) :=
  [ (u "industry_term", u "Fachterminologie");
    (u "emotional", u "Emotionale Sprache");
    (u "power_word", u "Power Words");
    (u "metaphor", u "Metaphern & Analogien") ].

Definition pattern_lines (lp : LanguagePattern.t) : list str :=
  (u "- **" ++ dq ++ LanguagePattern.phrase lp ++ dq ++ u "** " ++ dash ++ u " " ++
     LanguagePattern.speaker lp) ::
  opt_line (u "  - Kontext: ") (LanguagePattern.context lp).

Definition language_category_lines (language_patterns : list LanguagePattern.t)
    (cat : str * str) : list str :=
  let patterns :=
    filter (λ lp, LanguagePattern.category lp = cat.1) language_patterns in
  match patterns with
  | [] => []
  | _ :: _ => [u "### " ++ cat.2; []] ++ flat_map pattern_lines patterns ++ [ [] ]
  end.

Definition value_proposition_lines (vp : list (str * str)) : list str :=
  [ u "**Kundenbed" ++ u_uml ++ u "rfnis:** " ++ get_or vp "customer_need" "";
    u "**L" ++ o_uml ++ u "sung:** " ++ get_or vp "solution_alignment" "";
    u "**Nutzenaussage:** " ++ get_or vp "benefit_statement" "";
    [] ].

(** [if d.get('customer_quote'): lines.append(f"> \"{...}\"")]. *)
Definition customer_quote_line (d : list (str * str)) : list str :=
  match dict_get d (u "customer_quote") with
  | Some (c :: s) => [u "> " ++ dq ++ (c :: s) ++ dq]
  | _ => []
  end.

Definition recommendation_lines (rec : list (str * str)) : list str :=
  [u "### " ++ get_or rec "section" "Allgemein"] ++
  customer_quote_line rec ++
  [ u "**Empfehlung:** " ++ get_or rec "recommended_message" ""; [] ].

Definition guideline_lines (msg : list (str * str)) : list str :=
  [u "**Begriff:** " ++ dq ++ get_or msg "effective_term" "" ++ dq] ++
  customer_quote_line msg ++
  [ u "**Empfehlung:** " ++ get_or msg "usage_recommendation" ""; [] ].

(** The [lines] list of [_build_markdown], section by section. *)
Definition markdown_sections (result : AnalysisResult.t) : list (list str) :=
  [ section (AnalysisResult.customer_profiles result) h_profiles
      (flat_map (λ ip, profile_lines ip.1 ip.2)
         (enumerate 1 (AnalysisResult.customer_profiles result)));
    section (AnalysisResult.pain_points result) h_pain_points
      (grouped_lines pain_point_lines
         (group_by (λ pp, str_or (PainPoint.category pp) (u "Sonstiges"))
            (AnalysisResult.pain_points result)));
    section (AnalysisResult.questions result) h_questions
      (grouped_lines question_lines
         (group_by (λ q, str_or (Question.category q) (u "Allgemein"))
            (AnalysisResult.questions result)));
    section (AnalysisResult.objections result) h_objections
      (flat_map objection_lines (AnalysisResult.objections result));
    section (AnalysisResult.language_patterns result) h_language
      (flat_map (language_category_lines (AnalysisResult.language_patterns result))
         language_categories);
    section (AnalysisResult.value_propositions result) h_value_propositions
      (flat_map value_proposition_lines (AnalysisResult.value_propositions result));
    section (AnalysisResult.marketing_recommendations result) h_marketing
      (flat_map recommendation_lines (AnalysisResult.marketing_recommendations result));
    section (AnalysisResult.messaging_guidelines result) h_messaging
      (flat_map guideline_lines (AnalysisResult.messaging_guidelines result));
    section (AnalysisResult.conversion_triggers result) h_triggers
      (map (λ trigger, u "- " ++ trigger) (AnalysisResult.conversion_triggers result)
         ++ [ [] ]) ].

Definition markdown_lines `{PyLib} (result : AnalysisResult.t) : list str :=
  report_header result ++ concat (markdown_sections result).

Definition _build_markdown `{PyLib} (result : AnalysisResult.t) : str :=
  join nl (markdown_lines result).

(** ** Transcript parsing: [FirefliesClient._parse_transcript] *)

Definition get_opt_str (v : pyval) (k : string) : outcome (option str) :=
  x ← py_get v (u k) PNone; as_opt_str x.

Definition get_number (v : pyval) (k : string) : outcome pyval :=
  x ← py_get v (u k) (PInt 0); as_number x.

(** [v.get(k, dflt) or dflt]. *)
Definition get_or_default (v : pyval) (k : string) (dflt : pyval) : outcome pyval :=
  x ← py_get v (u k) dflt; Ok (py_or x dflt).

(** [Speaker(id=..., name=..., email=..., duration=..., word_count=...)]:
    [is_host] is not passed and takes the dataclass default. *)
Definition parse_speaker (sp : pyval) : outcome Speaker.t :=
  id ← get_str sp "id" "";
  name ← (x ← py_get sp (u "name") (PStr (u "Unknown")); as_opt_str x);
  email ← get_opt_str sp "email";
  duration ← get_number sp "duration";
  word_count ← get_number sp "word_count";
  Ok (Speaker.mk id name email duration word_count false).

Definition parse_sentence (sent : pyval) : outcome Sentence.t :=
  index ← get_number sent "index";
  text ← get_str sent "text" "";
  speaker_id ← get_str sent "speaker_id" "";
  speaker_name ← get_str sent "speaker_name" "Unknown";
  start_time ← get_number sent "start_time";
  end_time ← get_number sent "end_time";
  raw_text ← get_opt_str sent "raw_text";
  Ok (Sentence.mk index text speaker_id speaker_name start_time end_time raw_text).

(** [s.replace("Z", "+00:00")]. *)
Definition replace_Z (s : str) : str :=
  flat_map (λ c, if (c =? 90)%N then u "+00:00" else [c]) s.

Definition parse_date `{PyLib} (date_value : pyval) : outcome datetime :=
  match date_value with
  | PBool _ | PInt _ | PFloat _ => called (datetime_fromtimestamp_ms date_value)
  | PStr s => called (datetime_fromisoformat (replace_Z s))
  | _ => Ok datetime_now
  end.

Definition _parse_transcript `{PyLib} (data : pyval) : outcome Meeting.t :=
  speakers ← records parse_speaker data "speakers";
  sentences ← records parse_sentence data "sentences";
  summary_data ← get_or_default data "summary" (PDict []);
  ai_filters ← get_or_default data "ai_filters" (PDict []);
  questions_data ← get_or_default ai_filters "questions" (PList []);
  keywords ← (x ← get_or_default summary_data "keywords" (PList []); as_list as_str x);
  action_items ←
    (x ← get_or_default summary_data "action_items" (PList []); as_list as_str x);
  outline ← (x ← get_or_default summary_data "outline" (PList []); as_list as_str x);
  meeting_type ← get_opt_str summary_data "meeting_type";
  questions ← (qs ← py_iter questions_data; for_each (λ q, get_str q "text" "") qs);
  date_value ← py_get data (u "date") PNone;
  meeting_date ← parse_date date_value;
  id ← get_str data "id" "";
  title ← get_str data "title" "Untitled Meeting";
  duration ← get_number data "duration";
  host_email ← get_opt_str data "host_email";
  organizer_email ← get_opt_str data "organizer_email";
  transcript_url ← get_opt_str data "transcript_url";
  participants ←
    (x ← get_or_default data "participants" (PList []); as_list as_str x);
  Ok {|
    Meeting.id := id;
    Meeting.title := title;
    Meeting.date := meeting_date;
    Meeting.duration := duration;
    Meeting.host_email := host_email;
    Meeting.organizer_email := organizer_email;
    Meeting.speakers := speakers;
    Meeting.sentences := sentences;
    Meeting.summary :=
      MeetingSummary.mk keywords action_items outline meeting_type questions;
    Meeting.transcript_url := transcript_url;
    Meeting.participants := participants
  |}.

(** ** A reference decoder

    The grammar [json.loads] accepts, as the interpreter's scanner reads
    it, including [NaN], [Infinity] and [-Infinity]; number literals with a
    fraction or an exponent are rounded to binary64 (nearest, ties to even).
    The interpreter's limits on recursion depth and on the digits of an
    integer literal are not modelled.  It instantiates [json_loads] in the
    closed examples only. *)
Module RefJson.

Definition is_ws (c : N) : bool :=
  ((c =? 32) || (c =? 9) || (c =? 10) || (c =? 13))%N.

Fixpoint skip_ws (s : str) : str :=
  match s with
  | c :: r => if is_ws c then skip_ws r else s
  | [] => []
  end.

Definition is_digit (c : N) : bool := ((48 <=? c) && (c <=? 57))%N.

Fixpoint digits (s : str) : str * str :=
  match s with
  | c :: r =>
      if is_digit c then let '(d, r') := digits r in (c :: d, r') else ([], s)
  | [] => ([], [])
  end.

Definition decimal_value (ds : str) : Z :=
  foldl (λ acc c, acc * 10 + Z.of_N (c - 48))%Z 0%Z ds.

Definition hex_value (c : N) : option N :=
  if is_digit c then Some (c - 48)%N
  else if ((97 <=? c) && (c <=? 102))%N then Some (c - 87)%N
  else if ((65 <=? c) && (c <=? 70))%N then Some (c - 55)%N
  else None.

Definition hex4 (s : str) : option (N * str) :=
  match s with
  | a :: b :: c :: d :: r =>
      a ← hex_value a; b ← hex_value b; c ← hex_value c; d ← hex_value d;
      Some ((((a * 16 + b) * 16 + c) * 16 + d)%N, r)
  | _ => None
  end.

Definition escape (e : N) : option N :=
  if (e =? 34)%N then Some 34%N          (* quote *)
  else if (e =? 92)%N then Some 92%N     (* backslash *)
  else if (e =? 47)%N then Some 47%N     (* slash *)
  else if (e =? 98)%N then Some 8%N      (* b *)
  else if (e =? 102)%N then Some 12%N    (* f *)
  else if (e =? 110)%N then Some 10%N    (* n *)
  else if (e =? 114)%N then Some 13%N    (* r *)
  else if (e =? 116)%N then Some 9%N     (* t *)
  else None.

(** The characters after an opening quote, up to the closing one. *)
Fixpoint scan_string (fuel : nat) (s acc : str) : option (str * str) :=
  match fuel with
  | O => None
  | S n =>
      match s with
      | [] => None
      | c :: r =>
          if (c =? 34)%N then Some (reverse acc, r)
          else if (c =? 92)%N then
            match r with
            | [] => None
            | e :: r' =>
                if (e =? 117)%N then
                  '(uni, r1) ← hex4 r';
                  if ((55296 <=? uni) && (uni <=? 56319))%N then
                    match r1 with
                    | 92%N :: 117%N :: r2 =>
                        '(uni2, r3) ← hex4 r2;
                        if ((56320 <=? uni2) && (uni2 <=? 57343))%N
                        then scan_string n r3
                               ((65536 + ((uni - 55296) * 1024 + (uni2 - 56320)))%N :: acc)
                        else scan_string n r1 (uni :: acc)
                    | _ => scan_string n r1 (uni :: acc)
                    end
                  else scan_string n r1 (uni :: acc)
                else x ← escape e; scan_string n r' (x :: acc)
            end
          else if (c <? 32)%N then None
          else scan_string n r (c :: acc)
      end
  end.

(** [float(text)] for a literal with mantissa digits [m] and decimal
    exponent [e10]. *)
Definition float_of_decimal (neg : bool) (m : Z) (e10 : Z) : spec_float :=
  match m with
  | Zpos p =>
      if (0 <=? e10)%Z
      then binary_normalize 53 1024 ((if neg then - m else m) * 10 ^ e10)%Z 0 false
      else SFdiv 53 1024 (S754_finite neg p 0)
             (S754_finite false (Z.to_pos (10 ^ (- e10))) 0)
  | _ => S754_zero neg
  end.

(** A number literal: an optional minus sign; [0], or a non-zero digit
    and more digits; then an optional fraction (a dot and one digit or
    more) and an optional exponent ([e] or [E], an optional sign, one
    digit or more). *)
Definition scan_number (s : str) : option (pyval * str) :=
  let '(neg, s1) := match s with 45%N :: r => (true, r) | _ => (false, s) end in
  '(ip, s2) ← match s1 with
              | 48%N :: r => Some ([48%N], r)
              | c :: _ => if is_digit c then Some (digits s1) else None
              | [] => None
              end;
  let '(frac, s3) :=
    match s2 with
    | 46%N :: r =>
        match digits r with
        | ([], _) => ([], s2)
        | (d, r') => (d, r')
        end
    | _ => ([], s2)
    end in
  let '(ex, s4) :=
    match s3 with
    | e :: r =>
        if ((e =? 101) || (e =? 69))%N then
          let '(eneg, r1, signed) :=
            match r with
            | 45%N :: r1 => (true, r1, true)
            | 43%N :: r1 => (false, r1, true)
            | _ => (false, r, false)
            end in
          match digits r1 with
          | ([], _) => (None, s3)
          | (d, r2) =>
              (Some (if eneg then - decimal_value d else decimal_value d)%Z, r2)
          end
        else (None, s3)
    | [] => (None, s3)
    end in
  match frac, ex with
  | [], None =>
      Some (PInt (if neg then - decimal_value ip else decimal_value ip)%Z, s4)
  | _, _ =>
      Some (PFloat (float_of_decimal neg (decimal_value (ip ++ frac))
                      (default 0%Z ex - Z.of_nat (length frac))%Z), s4)
  end.

(** [d[k] = v] on a dict in insertion order. *)
Fixpoint dict_set {V} (k : str) (v : V) (d : list (str * V)) : list (str * V) :=
  match d with
  | [] => [(k, v)]
  | (k', v') :: d' =>
      if decide (k' = k) then (k', v) :: d' else (k', v') :: dict_set k v d'
  end.

Definition word (w : string) (v : pyval) (s : str) : option (pyval * str) :=
  if starts_with (u w) s then Some (v, drop (length (u w)) s) else None.

Fixpoint decode (fuel : nat) (s : str) : option (pyval * str) :=
  match fuel with
  | O => None
  | S n =>
      match s with
      | [] => None
      | c :: r =>
          if (c =? 34)%N then
            '(x, r') ← scan_string (S (length r)) r []; Some (PStr x, r')
          else if (c =? 123)%N then
            match skip_ws r with
            | 125%N :: r' => Some (PDict [], r')
            | r0 =>
                (fix members (k : nat) (s : str) (acc : list (str * pyval)) :=
                   match k with
                   | O => None
                   | S k' =>
                       match s with
                       | 34%N :: r1 =>
                           '(key, r2) ← scan_string (S (length r1)) r1 [];
                           match skip_ws r2 with
                           | 58%N :: r3 =>
                               '(v, r4) ← decode n (skip_ws r3);
                               let acc' := dict_set key v acc in
                               match skip_ws r4 with
                               | 44%N :: r5 => members k' (skip_ws r5) acc'
                               | 125%N :: r5 => Some (PDict acc', r5)
                               | _ => None
                               end
                           | _ => None
                           end
                       | _ => None
                       end
                   end) (S (length r0)) r0 []
            end
          else if (c =? 91)%N then
            match skip_ws r with
            | 93%N :: r' => Some (PList [], r')
            | r0 =>
                (fix elements (k : nat) (s : str) (acc : list pyval) :=
                   match k with
                   | O => None
                   | S k' =>
                       '(v, r1) ← decode n s;
                       match skip_ws r1 with
                       | 44%N :: r2 => elements k' (skip_ws r2) (v :: acc)
                       | 93%N :: r2 => Some (PList (reverse (v :: acc)), r2)
                       | _ => None
                       end
                   end) (S (length r0)) r0 []
            end
          else
            match word "null" PNone s with Some x => Some x | None =>
            match word "true" (PBool true) s with Some x => Some x | None =>
            match word "false" (PBool false) s with Some x => Some x | None =>
            match word "NaN" (PFloat S754_nan) s with Some x => Some x | None =>
            match word "Infinity" (PFloat (S754_infinity false)) s with
            | Some x => Some x | None =>
            match word "-Infinity" (PFloat (S754_infinity true)) s with
            | Some x => Some x | None => scan_number s
            end end end end end end
      end
  end.

Definition loads (s : str) : result pyval :=
  match s with
  | 65279%N :: _ => Raised JSONDecodeError
  | _ =>
      match decode (S (length s)) (skip_ws s) with
      | Some (v, r) =>
          match skip_ws r with
          | [] => Returned v
          | _ :: _ => Raised JSONDecodeError
          end
      | None => Raised JSONDecodeError
      end
  end.

End RefJson.

(** The instance of the closed examples: the reference decoder, a fixed
    clock, and [datetime] functions whose values the examples do not read. *)
Definition epoch : datetime :=
  {| year := 1970; month := 1; day := 1; hour := 0; minute := 0; second := 0;
     microsecond := 0; utcoffset := None |}.

#[global] Instance ref_lib : PyLib := {|
  json_loads := RefJson.loads;
  datetime_now := epoch;
  datetime_fromtimestamp_ms := (λ _, Returned epoch);
  datetime_fromisoformat := (λ _, Returned epoch);
  strftime := (λ _ _, [])
|}.

(** ** Vocabulary of the statements *)

(** [p] occurs in [s] as a contiguous run. *)
Definition occurs_in (p s : str) : Prop := ∃ pre post, s = pre ++ p ++ post.

(** Some non-empty marker occurs in the lowered name or the lowered email
    of the speaker. *)
Definition marker_matches (markers : gset str) (speaker : Speaker.t) : Prop :=
  ∃ marker, marker ∈ markers ∧ marker ≠ [] ∧
    (occurs_in marker (lower_or_empty (Speaker.name speaker)) ∨
     occurs_in marker (lower_or_empty (Speaker.email speaker))).

(** The branch condition of the loop over the speakers. *)
Definition classified_host (markers : gset str) (speaker : Speaker.t) : Prop :=
  Speaker.is_host speaker = true ∨ marker_matches markers speaker.

(** The five categories [_build_result] turns into typed records. *)
Definition record_keys : list string :=
  [ "customer_profiles"; "pain_points"; "questions"; "objections";
    "language_patterns" ]%string.

(** [None], booleans and numbers: the decoded values a [for] cannot iterate. *)
Definition not_iterable (v : pyval) : bool :=
  match v with
  | PNone | PBool _ | PInt _ | PFloat _ => true
  | PStr _ | PList _ | PDict _ => false
  end.

(** The four names of the language-pattern categories. *)
Definition pattern_categories : list str := map fst language_categories.

(** The number of pain points that carry the category [c]. *)
Definition carrying (c : str) (pain_points : list PainPoint.t) : nat :=
  length (filter (λ pp, PainPoint.category pp = c) pain_points).

(** The four lists [_build_result] copies from the response. *)
Definition copied_keys : list string :=
  [ "value_propositions"; "marketing_recommendations"; "messaging_guidelines";
    "conversion_triggers" ]%string.

(** The number of records a result holds for a category key. *)
Definition record_count (r : AnalysisResult.t) (k : string) : nat :=
  if String.eqb k "customer_profiles" then length (AnalysisResult.customer_profiles r)
  else if String.eqb k "pain_points" then length (AnalysisResult.pain_points r)
  else if String.eqb k "questions" then length (AnalysisResult.questions r)
  else if String.eqb k "objections" then length (AnalysisResult.objections r)
  else if String.eqb k "language_patterns" then length (AnalysisResult.language_patterns r)
  else if String.eqb k "value_propositions" then length (AnalysisResult.value_propositions r)
  else if String.eqb k "marketing_recommendations"
       then length (AnalysisResult.marketing_recommendations r)
  else if String.eqb k "messaging_guidelines"
       then length (AnalysisResult.messaging_guidelines r)
  else if String.eqb k "conversion_triggers"
       then length (AnalysisResult.conversion_triggers r)
  else 0.

(** The sum of the lengths of some lines. *)
Definition total_length (lines : list str) : Z :=
  foldr (λ line acc, Z.of_nat (length line) + acc)%Z 0%Z lines.

(** A line that opens with two hashes and a blank: a section header. *)
Definition is_h2 (line : str) : bool := starts_with (u "## ") line.

(** [s.split("\n")]: the lines of a document. *)
Fixpoint split_lines (s : str) : list str :=
  match s with
  | [] => [ [] ]
  | c :: s' =>
      if (c =? 10)%N then [] :: split_lines s'
      else match split_lines s' with
           | line :: lines => (c :: line) :: lines
           | [] => [ [c] ]
           end
  end.

(** *** The documented response schema ([ANALYSIS_PROMPT]) *)

Definition is_str (v : pyval) : bool :=
  match v with PStr _ => true | _ => false end.

Definition array_of (p : pyval → bool) (v : pyval) : bool :=
  match v with PList l => forallb p l | _ => false end.

(** An object all of whose values are strings. *)
Definition str_dict (v : pyval) : bool :=
  match v with PDict d => forallb (λ kv, is_str kv.2) d | _ => false end.

(** The value under [k], when there is one, passes [p]. *)
Definition field (p : pyval → bool) (d : list (str * pyval)) (k : string) : bool :=
  match dict_get d (u k) with Some x => p x | None => true end.

(** An object whose values under [names] are strings; other keys are free. *)
Definition str_fields (names : list string) (v : pyval) : bool :=
  match v with PDict d => forallb (field is_str d) names | _ => false end.

Definition profile_schema (v : pyval) : bool :=
  str_fields [ "company_name"; "industry"; "company_size"; "decision_maker_role";
               "purchasing_authority"; "business_context"; "budget_indicators";
               "timeline_urgency" ]%string v &&
  match v with
  | PDict d => field (array_of is_str) d "current_solutions" &&
               field (array_of str_dict) d "supporting_quotes"
  | _ => false
  end.

Definition pain_point_schema : pyval → bool :=
  str_fields [ "category"; "description"; "direct_quote"; "speaker"; "impact_level";
               "context"; "desired_outcome"; "impact_statement" ]%string.

Definition question_schema : pyval → bool :=
  str_fields [ "text"; "speaker"; "category"; "underlying_concern"; "context" ]%string.

Definition objection_schema : pyval → bool :=
  str_fields [ "objection_text"; "direct_quote"; "speaker"; "emotional_undertone";
               "root_cause"; "resolution_pathway"; "conversion_trigger" ]%string.

Definition pattern_schema : pyval → bool :=
  str_fields [ "category"; "phrase"; "context"; "speaker" ]%string.

(** A response object: each of the nine keys, when present, holds an array
    of elements of its kind. *)
Definition response_schema (d : list (str * pyval)) : bool :=
  field (array_of profile_schema) d "customer_profiles" &&
  field (array_of pain_point_schema) d "pain_points" &&
  field (array_of question_schema) d "questions" &&
  field (array_of objection_schema) d "objections" &&
  field (array_of pattern_schema) d "language_patterns" &&
  field (array_of str_dict) d "value_propositions" &&
  field (array_of str_dict) d "marketing_recommendations" &&
  field (array_of str_dict) d "messaging_guidelines" &&
  field (array_of is_str) d "conversion_triggers".

(** The length of the array under [k]; without the key there is no input. *)
Definition array_length (d : list (str * pyval)) (k : string) : nat :=
  match dict_get d (u k) with Some (PList l) => length l | _ => 0 end.

(** ** Data of the closed examples *)
Module Ex.

Definition no_summary : MeetingSummary.t := MeetingSummary.mk [] [] [] None [].

Definition speaker (id name : string) (is_host : bool) : Speaker.t :=
  Speaker.mk (u id) (Some (u name)) None (PInt 0) (PInt 0) is_host.

Definition sentence (i : Z) (speaker_id speaker_name text : string) : Sentence.t :=
  Sentence.mk (PInt i) (u text) (u speaker_id) (u speaker_name) (PInt 0) (PInt 0) None.

Definition meeting (speakers : list Speaker.t) (sentences : list Sentence.t)
  : Meeting.t :=
  Meeting.mk (u "m1") (u "Demo") epoch (PInt 30) None None
    speakers sentences no_summary None [].

(** Two speakers without host flag, one sentence each. *)
Definition alice : Speaker.t := speaker "s1" "Alice" false.
Definition bob : Speaker.t := speaker "s2" "Bob" false.
Definition welcome : Sentence.t := sentence 0 "s1" "Alice" "Welcome.".
Definition cost : Sentence.t := sentence 1 "s2" "Bob" "What does it cost?".
Definition alice_bob : Meeting.t := meeting [alice; bob] [welcome; cost].


(** A response object with one language pattern that has no keys. *)
Definition bare_pattern : pyval := PDict [(u "language_patterns", PList [PDict []])].

(** A text in which ['] stands for the double quote. *)
Definition js (s : string) : str :=
  map (λ c, if (c =? 39)%N then 34%N else c) (u s).

(** A reply with text around the object. *)
Definition reply : str :=
  js "Here is the analysis: {'pain_points': [{'category': 'Kosten'}, {}], 'questions': [{'text': 'Was kostet das?'}], 'conversion_triggers': ['Demo']} Done.".

Definition reply_object : list (str * pyval) :=
  [ (u "pain_points", PList [PDict [(u "category", PStr (u "Kosten"))]; PDict []]);
    (u "questions", PList [PDict [(u "text", PStr (u "Was kostet das?"))]]);
    (u "conversion_triggers", PList [PStr (u "Demo")]) ].

(** Three pain points with the categories of the specification's example. *)
Definition three_pains : pyval :=
  PDict [ (u "pain_points",
           PList [ PDict [(u "category", PStr (u "Technical"))];
                   PDict [(u "category", PStr (u "Technical"))];
                   PDict [(u "category", PStr (u "Cost"))] ]) ].

Definition pain (category : string) : PainPoint.t :=
  PainPoint.mk (u category) [] [] [] (u "Mittel") [] [] [].

Definition three_pains_result : AnalysisResult.t := {|
  AnalysisResult.timestamp := epoch;
  AnalysisResult.meetings_analyzed := 0;
  AnalysisResult.total_lead_statements := 0;
  AnalysisResult.customer_profiles := [];
  AnalysisResult.pain_points := [pain "Technical"; pain "Technical"; pain "Cost"];
  AnalysisResult.questions := [];
  AnalysisResult.objections := [];
  AnalysisResult.language_patterns := [];
  AnalysisResult.top_pain_categories := {[ u "Technical" := 2%Z; u "Cost" := 1%Z ]};
  AnalysisResult.common_questions := [];
  AnalysisResult.conversion_triggers := [];
  AnalysisResult.value_propositions := [];
  AnalysisResult.marketing_recommendations := [];
  AnalysisResult.messaging_guidelines := []
|}.

(** The result of a run on a response without content. *)
Definition empty_result (meetings lead_statements : Z) : AnalysisResult.t := {|
  AnalysisResult.timestamp := epoch;
  AnalysisResult.meetings_analyzed := meetings;
  AnalysisResult.total_lead_statements := lead_statements;
  AnalysisResult.customer_profiles := [];
  AnalysisResult.pain_points := [];
  AnalysisResult.questions := [];
  AnalysisResult.objections := [];
  AnalysisResult.language_patterns := [];
  AnalysisResult.top_pain_categories := ∅;
  AnalysisResult.common_questions := [];
  AnalysisResult.conversion_triggers := [];
  AnalysisResult.value_propositions := [];
  AnalysisResult.marketing_recommendations := [];
  AnalysisResult.messaging_guidelines := []
|}.

Definition bare_pattern_result : AnalysisResult.t := {|
  AnalysisResult.timestamp := epoch;
  AnalysisResult.meetings_analyzed := 0;
  AnalysisResult.total_lead_statements := 0;
  AnalysisResult.customer_profiles := [];
  AnalysisResult.pain_points := [];
  AnalysisResult.questions := [];
  AnalysisResult.objections := [];
  AnalysisResult.language_patterns := [LanguagePattern.mk [] [] [] [] 1];
  AnalysisResult.top_pain_categories := ∅;
  AnalysisResult.common_questions := [];
  AnalysisResult.conversion_triggers := [];
  AnalysisResult.value_propositions := [];
  AnalysisResult.marketing_recommendations := [];
  AnalysisResult.messaging_guidelines := []
|}.

(** A statement whose line has 25000 characters: 4 for the brackets, the
    colon and the blank, 24996 of text. *)
Definition long_statement : Sentence.t :=
  Sentence.mk (PInt 0) (replicate (Z.to_nat 24996) 120%N) (u "s2") [] (PInt 0) (PInt 0) None.

(** The reply of the transcript source for one meeting. *)
Definition transcript : pyval :=
  PDict [ (u "id", PStr (u "t1"));
          (u "title", PStr (u "Demo"));
          (u "date", PInt 1700000000000);
          (u "duration", PInt 30);
          (u "host_email", PStr (u "Ann@Example.com"));
          (u "organizer_email", PNone);
          (u "speakers",
           PList [ PDict [ (u "id", PStr (u "s1")); (u "name", PStr (u "Ann"));
                           (u "email", PStr (u "ann@example.com")) ];
                   PDict [ (u "id", PStr (u "s2")); (u "name", PStr (u "Bob")) ] ]);
          (u "sentences",
           PList [ PDict [ (u "index", PInt 0); (u "text", PStr (u "Welcome."));
                           (u "speaker_id", PStr (u "s1"));
                           (u "speaker_name", PStr (u "Ann")) ];
                   PDict [ (u "index", PInt 1); (u "text", PStr (u "What does it cost?"));
                           (u "speaker_id", PStr (u "s2"));
                           (u "speaker_name", PStr (u "Bob")) ] ]);
          (u "summary", PNone) ].

Definition transcript_meeting : Meeting.t :=
  Meeting.mk (u "t1") (u "Demo") epoch (PInt 30) (Some (u "Ann@Example.com")) None
    [ Speaker.mk (u "s1") (Some (u "Ann")) (Some (u "ann@example.com"))
        (PInt 0) (PInt 0) false;
      Speaker.mk (u "s2") (Some (u "Bob")) None (PInt 0) (PInt 0) false ]
    [ Sentence.mk (PInt 0) (u "Welcome.") (u "s1") (u "Ann") (PInt 0) (PInt 0) None;
      Sentence.mk (PInt 1) (u "What does it cost?") (u "s2") (u "Bob")
        (PInt 0) (PInt 0) None ]
    no_summary None [].

(** A result with one objection and nothing else. *)
Definition price_objection : Objection.t :=
  Objection.mk (u "Too expensive") (u "That is a lot of money.") (u "Bob")
    [] [] [] [].

Definition one_objection : AnalysisResult.t := {|
  AnalysisResult.timestamp := epoch;
  AnalysisResult.meetings_analyzed := 1;
  AnalysisResult.total_lead_statements := 2;
  AnalysisResult.customer_profiles := [];
  AnalysisResult.pain_points := [];
  AnalysisResult.questions := [];
  AnalysisResult.objections := [price_objection];
  AnalysisResult.language_patterns := [];
  AnalysisResult.top_pain_categories := ∅;
  AnalysisResult.common_questions := [];
  AnalysisResult.conversion_triggers := [];
  AnalysisResult.value_propositions := [];
  AnalysisResult.marketing_recommendations := [];
  AnalysisResult.messaging_guidelines := []
|}.

(** The end-to-end scenario of the specification: Alice carries the host
    flag, Bob is a lead; Bob speaks twice, Alice once. *)
Definition alice_host : Speaker.t := speaker "s1" "Alice" true.
Definition budget : Sentence.t := sentence 2 "s2" "Bob" "We have no budget.".
Definition call : Meeting.t := meeting [alice_host; bob] [cost; welcome; budget].

(** A speaker whose name contains the marker, and one without name and
    email. *)
Definition john_host : Speaker.t := speaker "s3" "John Host" false.
Definition nameless : Speaker.t :=
  Speaker.mk (u "s4") (Some []) (Some []) (PInt 0) (PInt 0) false.
Definition hello : Sentence.t := sentence 0 "s3" "John Host" "Hello.".
Definition hm : Sentence.t := sentence 1 "s4" "" "Hm.".
Definition john_call : Meeting.t := meeting [john_host; nameless] [hello; hm].

(** The tolerance example of the specification. *)
Definition noisy_reply : str := js "some preamble... {'pain_points': []} trailing notes".

(** Fifteen questions, numbered. *)
Definition question (i : Z) : pyval := PDict [(u "text", PStr (u "q" ++ str_of_Z i))].
Definition fifteen_questions : pyval :=
  PDict [(u "questions", PList (map question (seqZ 1 15)))].

(** A response object with one language pattern of a category that is
    none of the four. *)
Definition slang_pattern : pyval :=
  PDict [(u "language_patterns", PList [PDict [(u "category", PStr (u "slang"))]])].

Definition slang_pattern_result : AnalysisResult.t := {|
  AnalysisResult.timestamp := epoch;
  AnalysisResult.meetings_analyzed := 0;
  AnalysisResult.total_lead_statements := 0;
  AnalysisResult.customer_profiles := [];
  AnalysisResult.pain_points := [];
  AnalysisResult.questions := [];
  AnalysisResult.objections := [];
  AnalysisResult.language_patterns := [LanguagePattern.mk (u "slang") [] [] [] 1];
  AnalysisResult.top_pain_categories := ∅;
  AnalysisResult.common_questions := [];
  AnalysisResult.conversion_triggers := [];
  AnalysisResult.value_propositions := [];
  AnalysisResult.marketing_recommendations := [];
  AnalysisResult.messaging_guidelines := []
|}.

End Ex.

(** ** Further functions: questions, analysis runs, configuration, client *)

(** *** [Meeting.get_lead_questions] *)

Definition get_lead_questions (self : Meeting.t)
    (host_identifiers : option (list str)) : list Sentence.t :=
  let lead_statements := get_lead_statements self host_identifiers in
  filter (λ s, str_in (u "?") (Sentence.text s) = true) lead_statements.

(** *** [AIAnalyzer.analyze_meetings] *)

(** [AnalysisResult(meetings_analyzed=..., total_lead_statements=...)]: the
    other fields take their defaults. *)
Definition new_result `{PyLib} (meetings_analyzed total_lead_statements : Z)
  : AnalysisResult.t := {|
  AnalysisResult.timestamp := datetime_now;
  AnalysisResult.meetings_analyzed := meetings_analyzed;
  AnalysisResult.total_lead_statements := total_lead_statements;
  AnalysisResult.customer_profiles := [];
  AnalysisResult.pain_points := [];
  AnalysisResult.questions := [];
  AnalysisResult.objections := [];
  AnalysisResult.language_patterns := [];
  AnalysisResult.top_pain_categories := ∅;
  AnalysisResult.common_questions := [];
  AnalysisResult.conversion_triggers := [];
  AnalysisResult.value_propositions := [];
  AnalysisResult.marketing_recommendations := [];
  AnalysisResult.messaging_guidelines := []
|}.

(** The loop that [extend]s [all_lead_statements]. *)
Definition all_lead_statements (meetings : list Meeting.t)
    (host_identifiers : option (list str)) : list Sentence.t :=
  flat_map (λ meeting, get_lead_statements meeting host_identifiers) meetings.

(** [analyze_meetings].  The prompts are built from the meetings and the
    formatted statements and go to the provider only; [reply] is what
    [self._call_ai(system_prompt, user_prompt)] did, a text or an exception,
    and is read only when there are lead statements. *)
Definition analyze_meetings `{PyLib} (reply : result str)
    (meetings : list Meeting.t) (host_identifiers : option (list str))
  : outcome AnalysisResult.t :=
  match meetings with
  | [] => Ok (new_result 0 0)
  | _ :: _ =>
      let all_lead_statements := all_lead_statements meetings host_identifiers in
      match all_lead_statements with
      | [] => Ok (new_result (Z.of_nat (length meetings)) 0)
      | _ :: _ =>
          let analysis_data :=
            match reply with
            | Returned response =>
                match _parse_response response with
                | Returned v => v
                | Raised _ => PDict []
                end
            | Raised _ => PDict []
            end in
          _build_result analysis_data meetings all_lead_statements
      end
  end.

(** *** [Settings] ([config.py]) and the identifiers of the front ends *)

(** [c.isspace()]: the characters [str.strip()] removes at both ends. *)
Definition is_space (c : N) : bool :=
  ((9 <=? c) && (c <=? 13) || (28 <=? c) && (c <=? 32) || (c =? 133) || (c =? 160)
   || (c =? 5760) || (8192 <=? c) && (c <=? 8202) || (c =? 8232) || (c =? 8233)
   || (c =? 8239) || (c =? 8287) || (c =? 12288))%N.

Fixpoint lstrip (s : str) : str :=
  match s with
  | c :: s' => if is_space c then lstrip s' else s
  | [] => []
  end.

Definition rstrip (s : str) : str := reverse (lstrip (reverse s)).

(** [s.strip()]. *)
Definition strip (s : str) : str := rstrip (lstrip s).

(** [s.split(sep)] for a separator of one character: one piece more than
    there are separators, and [[""]] for the empty string. *)
Fixpoint split (sep : N) (s : str) : list str :=
  match s with
  | [] => [ [] ]
  | c :: s' =>
      if (c =? sep)%N then [] :: split sep s'
      else match split sep s' with
           | piece :: pieces => (c :: piece) :: pieces
           | [] => [ [c] ]
           end
  end.

(** [[h.strip() for h in parts if h.strip()]]. *)
Definition stripped (parts : list str) : list str :=
  flat_map (λ h, match strip h with [] => [] | e => [e] end) parts.

Module Settings.
Record t := mk {
  fireflies_api_key : str;
  fireflies_api_url : str;
  ai_provider : str;
  anthropic_api_key : str;
  openai_api_key : str;
  dashboard_language : str;
  cache_duration_hours : Z;
  max_meetings_per_request : Z;
  export_dir : str;
  company_name : str;
  host_emails_raw : str
}.
End Settings.

(** The [host_emails] property. *)
Definition host_emails (self : Settings.t) : list str :=
  match Settings.host_emails_raw self with
  | [] => []
  | _ :: _ => stripped (split 44 (Settings.host_emails_raw self))
  end.

(** The [status] dict of [validate_config]. *)
Module Status.
Record t := mk {
  fireflies_api : bool;
  ai_provider : bool;
  ready : bool;
  messages : list str
}.
End Status.

(** [bool(s)] for a string. *)
Definition nonempty (s : str) : bool :=
  match s with [] => false | _ :: _ => true end.

(** [if not key: status["messages"].append(message)]. *)
Definition missing (key message : str) : list str :=
  if nonempty key then [] else [message].

Definition validate_config (self : Settings.t) : Status.t :=
  let fireflies_api := nonempty (Settings.fireflies_api_key self) in
  let messages :=
    missing (Settings.fireflies_api_key self)
      (u "Fireflies API Key fehlt. Bitte in .env konfigurieren.") in
  let '(ai_provider, messages) :=
    if decide (Settings.ai_provider self = u "anthropic") then
      (nonempty (Settings.anthropic_api_key self),
       messages ++ missing (Settings.anthropic_api_key self)
                     (u "Anthropic API Key fehlt. Bitte in .env konfigurieren."))
    else if decide (Settings.ai_provider self = u "openai") then
      (nonempty (Settings.openai_api_key self),
       messages ++ missing (Settings.openai_api_key self)
                     (u "OpenAI API Key fehlt. Bitte in .env konfigurieren."))
    else
      (false, messages ++ [u "Unbekannter AI Provider: " ++ Settings.ai_provider self]) in
  {| Status.fireflies_api := fireflies_api;
     Status.ai_provider := ai_provider;
     Status.ready := fireflies_api && ai_provider;
     Status.messages := messages |}.

(** [cli.py], [analyze]:
    [host_identifiers = [h.strip() for h in exclude_hosts.split(",") if h.strip()]]
    and [host_identifiers.extend(settings.host_emails)]. *)
Definition cli_host_identifiers (exclude_hosts : str) (settings : Settings.t)
  : list str :=
  stripped (split 44 exclude_hosts) ++ host_emails settings.

(** [app.py], [render_sidebar]: the default text of the text area,
    ["\n".join(settings.host_emails)], and the list read from its text. *)
Definition sidebar_default (settings : Settings.t) : str :=
  join nl (host_emails settings).

Definition host_id_list (host_identifiers : str) : list str :=
  stripped (split 10 host_identifiers).

(** *** [FirefliesClient]: requests *)

(** What a [FirefliesAPIError] reports.  The message of the exception is
    formatted from these parts:
    [f"API-Fehler: {response.status_code} - {response.text}"],
    [f"GraphQL-Fehler: {data['errors']}"] and
    [f"Transkript nicht gefunden: {transcript_id}"]. *)
Inductive api_error :=
| HTTPStatus (status_code : Z) (text : str)
| GraphQLErrors (errors : pyval)
| NotFound (transcript_id : str).

(** How a call of the client ends when it does not return: with a
    [FirefliesAPIError], with one of the Python exceptions above, with an
    exception of [httpx] out of [self.client.post], or outside the typed
    model. *)
Inductive failure :=
| FirefliesAPIError (e : api_error)
| Exception (e : exn)
| HTTPError
| UntypedValue.

Inductive fetched (A : Type) :=
| Fetched (a : A)
| Failed (f : failure).
Arguments Fetched {A} a.
Arguments Failed {A} f.

#[global] Instance fetched_ret : MRet fetched := @Fetched.
#[global] Instance fetched_bind : MBind fetched := fun A B f m =>
  match m with
  | Fetched a => f a
  | Failed e => Failed e
  end.

Definition lift {A} (o : outcome A) : fetched A :=
  match o with
  | Ok a => Fetched a
  | Raise e => Failed (Exception e)
  | Untyped => Failed UntypedValue
  end.

(** An [httpx.Response] as far as the client reads it; [json] is what
    [response.json()] does. *)
Module Response.
Record t := mk {
  status_code : Z;
  text : str;
  json : result pyval
}.
End Response.

(** [_make_request]; [post] is what [self.client.post(...)] did, [None]
    when it raised.  On a decoded value that is not a dict
    ["errors" in data] is a search in a list or a string and raises on the
    other values; [data['errors']] and [data.get] then raise. *)
Definition _make_request (post : option Response.t) : fetched pyval :=
  match post with
  | None => Failed HTTPError
  | Some response =>
      if negb (Response.status_code response =? 200)%Z then
        Failed (FirefliesAPIError
                  (HTTPStatus (Response.status_code response) (Response.text response)))
      else
        data ← lift (called (Response.json response));
        match data with
        | PDict d =>
            match dict_get d (u "errors") with
            | Some errors => Failed (FirefliesAPIError (GraphQLErrors errors))
            | None => Fetched (default (PDict []) (dict_get d (u "data")))
            end
        | PList l =>
            if existsb (λ x, match x with
                             | PStr s => bool_decide (s = u "errors")
                             | _ => false
                             end) l
            then Failed (Exception TypeError)
            else Failed (Exception AttributeError)
        | PStr s =>
            if str_in (u "errors") s then Failed (Exception TypeError)
            else Failed (Exception AttributeError)
        | PNone | PBool _ | PInt _ | PFloat _ => Failed (Exception TypeError)
        end
  end.

(** The [TIME_PERIODS] of [config.py]: [days] and [label] of each key. *)
Definition TIME_PERIODS : list (str * (Z * str)) :=
  [ (u "heute", (0%Z, u "Heute"));
    (u "letzte_woche", (7%Z, u "Letzte Woche"));
    (u "letzter_monat", (30%Z, u "Letzter Monat"));
    (u "letzte_3_monate", (90%Z, u "Letzte 3 Monate")) ].

(** The date arithmetic [get_transcripts] takes from the library. *)
Class Calendar := {
  (* [d - timedelta(days=n)] *)
  minus_days : datetime → Z → datetime;
  (* [int(d.timestamp() * 1000)] *)
  timestamp_ms : datetime → result Z
}.

(** [d.replace(hour=0, minute=0, second=0, microsecond=0)]. *)
Definition start_of_day (d : datetime) : datetime :=
  {| year := year d; month := month d; day := day d;
     hour := 0; minute := 0; second := 0; microsecond := 0;
     utcoffset := utcoffset d |}.

(** The [variables] of the transcripts query; [date] and [hostEmail] are
    keys the dict has or has not. *)
Module Variables.
Record t := mk {
  limit : Z;
  date : option Z;
  hostEmail : option str;
  skip : Z
}.
End Variables.

(** The time filter: a known [time_period] replaces [from_date]. *)
Definition transcripts_date `{PyLib} `{Calendar}
    (time_period : option str) (from_date : option datetime) : fetched (option Z) :=
  let from_date :=
    match time_period with
    | Some (c :: tp) =>
        match dict_get TIME_PERIODS (c :: tp) with
        | Some (days, _) =>
            Some (if (days =? 0)%Z then start_of_day datetime_now
                  else minus_days datetime_now days)
        | None => from_date
        end
    | _ => from_date
    end in
  match from_date with
  | Some d => ms ← lift (called (timestamp_ms d)); Fetched (Some ms)
  | None => Fetched None
  end.

(** The [while True] loop of [get_transcripts]; [post variables] is the
    reply to the request with these variables.  [None]: the loop has not
    ended within [fuel] requests. *)
Fixpoint transcripts_loop (fuel : nat) (post : Variables.t → option Response.t)
    (limit : Z) (date : option Z) (hostEmail : option str)
    (skip : Z) (all_transcripts : list pyval) : option (fetched (list pyval)) :=
  match fuel with
  | O => None
  | S fuel =>
      match _make_request (post (Variables.mk limit date hostEmail skip)) with
      | Failed f => Some (Failed f)
      | Fetched data =>
          match lift (py_get data (u "transcripts") (PList [])) with
          | Failed f => Some (Failed f)
          | Fetched transcripts =>
              if negb (truthy transcripts) then Some (Fetched all_transcripts)
              else
                match lift (py_iter transcripts) with
                | Failed f => Some (Failed f)
                | Fetched items =>
                    let all_transcripts := all_transcripts ++ items in
                    if (Z.of_nat (length items) <? limit)%Z
                    then Some (Fetched all_transcripts)
                    else transcripts_loop fuel post limit date hostEmail
                           (skip + Z.of_nat (length items))%Z all_transcripts
                end
          end
      end
  end.

Definition get_transcripts `{PyLib} `{Calendar} (fuel : nat) (settings : Settings.t)
    (post : Variables.t → option Response.t)
    (time_period : option str) (host_email : option str)
    (from_date : option datetime) (limit : option Z)
  : option (fetched (list pyval)) :=
  let limit :=
    match limit with
    | Some l => if (l =? 0)%Z then Settings.max_meetings_per_request settings else l
    | None => Settings.max_meetings_per_request settings
    end in
  match transcripts_date time_period from_date with
  | Failed f => Some (Failed f)
  | Fetched date =>
      let hostEmail :=
        match host_email with
        | Some (c :: e) => Some (c :: e)
        | _ => None
        end in
      transcripts_loop fuel post limit date hostEmail 0 []
  end.

(** [get_transcript_detail]; [post] is the reply to the detail query. *)
Definition get_transcript_detail `{PyLib} (post : option Response.t)
    (transcript_id : str) : fetched Meeting.t :=
  data ← _make_request post;
  transcript ← lift (py_get data (u "transcript") (PDict []));
  if negb (truthy transcript)
  then Failed (FirefliesAPIError (NotFound transcript_id))
  else lift (_parse_transcript transcript).

(** *** [FirefliesClient.get_all_hosts] *)

(** [if t.get(k): hosts.add(t[k])]: a list or a dict cannot be hashed; a
    number would make the result a list that is not one of strings. *)
Definition add_host (t : pyval) (k : string) (hosts : gset str) : outcome (gset str) :=
  v ← py_get t (u k) PNone;
  if truthy v then
    match v with
    | PStr s => Ok ({[ s ]} ∪ hosts)
    | PList _ | PDict _ => Raise TypeError
    | _ => Untyped
    end
  else Ok hosts.

Fixpoint collect_hosts (transcripts : list pyval) (hosts : gset str)
  : outcome (gset str) :=
  match transcripts with
  | [] => Ok hosts
  | t :: rest =>
      hosts ← add_host t "host_email" hosts;
      hosts ← add_host t "organizer_email" hosts;
      collect_hosts rest hosts
  end.

(** [a <= b] for two strings: by code points, a prefix first. *)
Fixpoint str_leb (a b : str) : bool :=
  match a, b with
  | [], _ => true
  | _ :: _, [] => false
  | x :: a', y :: b' => (x <? y)%N || ((x =? y)%N && str_leb a' b')
  end.

Definition str_le (a b : str) : Prop := str_leb a b = true.

#[global] Instance str_le_dec a b : Decision (str_le a b).
Proof. unfold str_le. apply _. Defined.

(** [sorted(list(hosts))]. *)
Definition sorted (hosts : gset str) : list str :=
  merge_sort str_le (elements hosts).

Definition get_all_hosts `{PyLib} `{Calendar} (fuel : nat) (settings : Settings.t)
    (post : Variables.t → option Response.t) (time_period : str)
  : option (fetched (list str)) :=
  match get_transcripts fuel settings post (Some time_period) None None None with
  | None => None
  | Some (Failed f) => Some (Failed f)
  | Some (Fetched transcripts) =>
      Some (hosts ← lift (collect_hosts transcripts ∅); Fetched (sorted hosts))
  end.

(** *** Vocabulary and examples for the client *)

(** The page a source that holds the transcripts [L] returns for the
    variables [v]: at most [limit] of them from position [skip] on. *)
Definition page_of (L : list pyval) (v : Variables.t) : list pyval :=
  take (Z.to_nat (Variables.limit v)) (drop (Z.to_nat (Variables.skip v)) L).

(** Every request is answered, without errors, with the page asked for. *)
Definition serves (post : Variables.t → option Response.t) (L : list pyval) : Prop :=
  ∀ v, ∃ d, _make_request (post v) = Fetched (PDict d) ∧
            dict_get d (u "transcripts") = Some (PList (page_of L v)).

Definition str_lt (a b : str) : Prop := str_le a b ∧ a ≠ b.

(** The host emails a listed transcript contributes. *)
Definition names_host (t : pyval) (e : str) : Prop :=
  ∃ d, t = PDict d ∧
       (dict_get d (u "host_email") = Some (PStr e) ∨
        dict_get d (u "organizer_email") = Some (PStr e)).

(** The calendar of the closed examples, whose values they do not read. *)
#[global] Instance ref_calendar : Calendar := {|
  minus_days := (λ d _, d);
  timestamp_ms := (λ _, Returned 0%Z)
|}.

Module ExClient.

Definition listed (id host : string) : pyval :=
  PDict [ (u "id", PStr (u id)); (u "host_email", PStr (u host));
          (u "organizer_email", PNone) ].

Definition listing : list pyval :=
  [ listed "t1" "zoe@example.com"; listed "t2" "ann@example.com";
    listed "t3" "zoe@example.com" ].

Definition reply (data : pyval) : Response.t :=
  Response.mk 200 [] (Returned (PDict [(u "data", data)])).

(** A source that holds [listing] and answers page by page. *)
Definition server (v : Variables.t) : option Response.t :=
  Some (reply (PDict [(u "transcripts", PList (page_of listing v))])).

(** Settings with pages of two transcripts. *)
Definition settings : Settings.t :=
  Settings.mk (u "key") (u "https://api.fireflies.ai/graphql") (u "anthropic")
    (u "key") [] (u "de") 1 2 (u "./exports") (u "CopeCart") [].

(** A reply that carries both data and an [errors] key. *)
Definition partial_reply : Response.t :=
  Response.mk 200 []
    (Returned (PDict [ (u "data", PDict [(u "transcript", Ex.transcript)]);
                       (u "errors", PList []) ])).

End ExClient.

(** *** Vocabulary of the further properties *)

(** The sum of the counts of a category map. *)
Definition total_count (top : gmap str Z) : Z :=
  map_fold (λ _ n acc, (n + acc)%Z) 0%Z top.

(** The pattern has one of the four categories of the report. *)
Definition known_category (lp : LanguagePattern.t) : Prop :=
  LanguagePattern.category lp ∈ language_categories.*1.

#[global] Instance known_category_dec lp : Decision (known_category lp).
Proof. unfold known_category. apply _. Defined.

(** The result [result] with the language patterns [patterns] in place of
    its own. *)
Definition with_language_patterns (result : AnalysisResult.t)
    (patterns : list LanguagePattern.t) : AnalysisResult.t := {|
  AnalysisResult.timestamp := AnalysisResult.timestamp result;
  AnalysisResult.meetings_analyzed := AnalysisResult.meetings_analyzed result;
  AnalysisResult.total_lead_statements := AnalysisResult.total_lead_statements result;
  AnalysisResult.customer_profiles := AnalysisResult.customer_profiles result;
  AnalysisResult.pain_points := AnalysisResult.pain_points result;
  AnalysisResult.questions := AnalysisResult.questions result;
  AnalysisResult.objections := AnalysisResult.objections result;
  AnalysisResult.language_patterns := patterns;
  AnalysisResult.top_pain_categories := AnalysisResult.top_pain_categories result;
  AnalysisResult.common_questions := AnalysisResult.common_questions result;
  AnalysisResult.conversion_triggers := AnalysisResult.conversion_triggers result;
  AnalysisResult.value_propositions := AnalysisResult.value_propositions result;
  AnalysisResult.marketing_recommendations :=
    AnalysisResult.marketing_recommendations result;
  AnalysisResult.messaging_guidelines := AnalysisResult.messaging_guidelines result
|}.

(** The identifier holds one of the letters A to Z. *)
Definition has_capital (marker : str) : Prop := ∃ c, c ∈ marker ∧ (65 ≤ c ≤ 90)%N.

(** An entry without a blank at either end. *)
Definition no_outer_space (e : str) : Prop :=
  (∀ c, head e = Some c → is_space c = false) ∧
  (∀ c, last e = Some c → is_space c = false).

(** A non-empty entry without [sep] and without a blank at either end. *)
Definition clean (sep : N) (e : str) : Prop :=
  e ≠ [] ∧ (sep ∉ e) ∧ no_outer_space e.

(** The settings with another [HOST_EMAILS]. *)
Definition with_host_emails_raw (settings : Settings.t) (raw : str) : Settings.t :=
  Settings.mk (Settings.fireflies_api_key settings) (Settings.fireflies_api_url settings)
    (Settings.ai_provider settings) (Settings.anthropic_api_key settings)
    (Settings.openai_api_key settings) (Settings.dashboard_language settings)
    (Settings.cache_duration_hours settings) (Settings.max_meetings_per_request settings)
    (Settings.export_dir settings) (Settings.company_name settings) raw.

(** *** Texts and results with braces and line breaks *)

Module ExText.

(** A schema object, and the same object followed by words with braces. *)
Definition object_text : str := Ex.js "{'pain_points': [{}]}".
Definition annotated : str := object_text ++ u " (see {notes})".
Definition one_pain_point : list (str * pyval) :=
  [(u "pain_points", PList [PDict []])].

(** A response whose only pain point has a context of two lines, the
    second of which reads as the header of the objections section. *)
Definition two_line_context : pyval :=
  PDict [ (u "pain_points",
           PList [ PDict [ (u "category", PStr (u "Kosten"));
                           (u "context",
                            PStr (u "siehe unten" ++ nl ++ u "## 4. Einwand-Analyse")) ] ]) ].

Definition two_line_result : AnalysisResult.t := {|
  AnalysisResult.timestamp := epoch;
  AnalysisResult.meetings_analyzed := 0;
  AnalysisResult.total_lead_statements := 0;
  AnalysisResult.customer_profiles := [];
  AnalysisResult.pain_points :=
    [ PainPoint.mk (u "Kosten") [] [] [] (u "Mittel")
        (u "siehe unten" ++ nl ++ u "## 4. Einwand-Analyse") [] [] ];
  AnalysisResult.questions := [];
  AnalysisResult.objections := [];
  AnalysisResult.language_patterns := [];
  AnalysisResult.top_pain_categories := {[ u "Kosten" := 1%Z ]};
  AnalysisResult.common_questions := [];
  AnalysisResult.conversion_triggers := [];
  AnalysisResult.value_propositions := [];
  AnalysisResult.marketing_recommendations := [];
  AnalysisResult.messaging_guidelines := []
|}.

End ExText.

(** *** Texts of one line *)

(** The text holds no line break. *)
Definition one_line (s : str) : Prop := 10%N ∉ s.

(** The value of the dict under [k], when there is one, is of one line. *)
Definition one_line_at (d : list (str * str)) (k : string) : Prop :=
  ∀ v, dict_get d (u k) = Some v → one_line v.

(** The fields of a record that the report prints are of one line. *)
Definition profile_one_line (p : CustomerProfile.t) : Prop :=
  one_line (CustomerProfile.company_name p) ∧
  one_line (CustomerProfile.industry p) ∧
  one_line (CustomerProfile.decision_maker_role p) ∧
  one_line (CustomerProfile.business_context p) ∧
  one_line (CustomerProfile.timeline_urgency p) ∧
  Forall (λ quote, one_line_at quote "quote" ∧ one_line_at quote "context")
    (CustomerProfile.supporting_quotes p).

Definition pain_point_one_line (pp : PainPoint.t) : Prop :=
  one_line (PainPoint.category pp) ∧
  one_line (PainPoint.description pp) ∧
  one_line (PainPoint.direct_quote pp) ∧
  one_line (PainPoint.speaker pp) ∧
  one_line (PainPoint.impact_level pp) ∧
  one_line (PainPoint.context pp) ∧
  one_line (PainPoint.desired_outcome pp) ∧
  one_line (PainPoint.impact_statement pp).

Definition question_one_line (q : Question.t) : Prop :=
  one_line (Question.text q) ∧
  one_line (Question.speaker q) ∧
  one_line (Question.category q) ∧
  one_line (Question.underlying_concern q).

Definition objection_one_line (obj : Objection.t) : Prop :=
  one_line (Objection.objection_text obj) ∧
  one_line (Objection.direct_quote obj) ∧
  one_line (Objection.speaker obj) ∧
  one_line (Objection.emotional_undertone obj) ∧
  one_line (Objection.root_cause obj) ∧
  one_line (Objection.resolution_pathway obj) ∧
  one_line (Objection.conversion_trigger obj).

Definition pattern_one_line (lp : LanguagePattern.t) : Prop :=
  one_line (LanguagePattern.phrase lp) ∧
  one_line (LanguagePattern.context lp) ∧
  one_line (LanguagePattern.speaker lp).

(** No text the report prints of the result holds a line break: the
    formatted time stamp, the printed fields of the records, and the values
    of the dicts under the keys the report reads. *)
Definition no_line_breaks `{PyLib} (r : AnalysisResult.t) : Prop :=
  one_line (strftime (AnalysisResult.timestamp r) (u "%d.%m.%Y %H:%M")) ∧
  Forall profile_one_line (AnalysisResult.customer_profiles r) ∧
  Forall pain_point_one_line (AnalysisResult.pain_points r) ∧
  Forall question_one_line (AnalysisResult.questions r) ∧
  Forall objection_one_line (AnalysisResult.objections r) ∧
  Forall pattern_one_line (AnalysisResult.language_patterns r) ∧
  Forall (λ vp, one_line_at vp "customer_need" ∧ one_line_at vp "solution_alignment" ∧
                one_line_at vp "benefit_statement")
    (AnalysisResult.value_propositions r) ∧
  Forall (λ rec, one_line_at rec "section" ∧ one_line_at rec "customer_quote" ∧
                 one_line_at rec "recommended_message")
    (AnalysisResult.marketing_recommendations r) ∧
  Forall (λ msg, one_line_at msg "effective_term" ∧ one_line_at msg "customer_quote" ∧
                 one_line_at msg "usage_recommendation")
    (AnalysisResult.messaging_guidelines r) ∧
  Forall one_line (AnalysisResult.conversion_triggers r).

(** * Properties *)

(** ** Strings *)

Lemma starts_with_spec (p s : str) :
  starts_with p s = true ↔ ∃ post, s = p ++ post.
Proof.
  revert s. induction p as [|a p IH]; intros s; simpl.
  - split; [eauto | done].
  - destruct s as [|b s].
    + split; [done | intros [post Hp]; discriminate].
    + rewrite andb_true_iff, N.eqb_eq, IH. split.
      * intros [-> [post ->]]. eauto.
      * intros [post Hp]. injection Hp as -> ->. eauto.
Qed.

Lemma str_in_spec (p s : str) : str_in p s = true ↔ occurs_in p s.
Proof.
  unfold occurs_in. induction s as [|b s IH]; simpl.
  - rewrite orb_false_r, starts_with_spec. split.
    + intros [post Hp]. exists [], post. done.
    + intros (pre & post & Hs). symmetry in Hs.
      apply app_eq_nil in Hs as [-> Hs]. apply app_eq_nil in Hs as [-> ->].
      exists []. done.
  - rewrite orb_true_iff, starts_with_spec, IH. split.
    + intros [[post Hp] | (pre & post & ->)].
      * exists [], post. done.
      * exists (b :: pre), post. done.
    + intros (pre & post & Hs). destruct pre as [|c pre].
      * left. exists post. done.
      * right. injection Hs as -> ->. eauto.
Qed.

(** ** Attribution *)

Lemma any_marker_spec (markers : gset str) (a b : str) :
  any_marker markers a b = true ↔
  ∃ marker, marker ∈ markers ∧ marker ≠ [] ∧ (occurs_in marker a ∨ occurs_in marker b).
Proof.
  unfold any_marker. rewrite existsb_exists. split.
  - intros (marker & Hin & Hm). apply list_elem_of_In, list_elem_of_filter in Hin.
    destruct Hin as [Hne Hel]. apply elem_of_elements in Hel.
    apply orb_true_iff in Hm. rewrite !str_in_spec in Hm. eauto.
  - intros (marker & Hel & Hne & Hm). exists marker. split.
    + apply list_elem_of_In, list_elem_of_filter. split; [done|].
      by apply elem_of_elements.
    + apply orb_true_iff. by rewrite !str_in_spec.
Qed.

Lemma add_host_speaker_spec markers ids speaker x :
  x ∈ add_host_speaker markers ids speaker ↔
  x ∈ ids ∨ (Speaker.id speaker = x ∧ classified_host markers speaker).
Proof.
  unfold add_host_speaker, classified_host.
  destruct (Speaker.is_host speaker) eqn:Hh.
  - rewrite elem_of_union, elem_of_singleton. intuition.
  - destruct (any_marker _ _ _) eqn:Ha.
    + apply any_marker_spec in Ha.
      rewrite elem_of_union, elem_of_singleton. unfold marker_matches. intuition.
    + split; [by left|]. intros [Hx | [_ [? | Hm]]]; [done | done |].
      apply any_marker_spec in Hm. congruence.
Qed.

Lemma foldl_add_host_speaker markers speakers ids x :
  x ∈ foldl (add_host_speaker markers) ids speakers ↔
  x ∈ ids ∨ ∃ speaker, speaker ∈ speakers ∧ Speaker.id speaker = x ∧
                       classified_host markers speaker.
Proof.
  revert ids. induction speakers as [|sp speakers IH]; intros ids; simpl.
  - split; [by left|]. intros [Hx | (sp & Hsp & _)]; [done|]. by apply elem_of_nil in Hsp.
  - rewrite IH, add_host_speaker_spec. split.
    + intros [[Hx | [Hid Hc]] | (sp' & Hin & Hid & Hc)].
      * by left.
      * right. exists sp. split; [apply list_elem_of_here | done].
      * right. exists sp'. split; [by apply list_elem_of_further | done].
    + intros [Hx | (sp' & Hin & Hid & Hc)]; [by left; left|].
      apply elem_of_cons in Hin as [-> | Hin]; [left; right; done|].
      right. eauto.
Qed.

Lemma host_speaker_ids_spec (M : Meeting.t) (H : option (list str)) (x : str) :
  x ∈ host_speaker_ids M H ↔
  ∃ speaker, speaker ∈ Meeting.speakers M ∧ Speaker.id speaker = x ∧
             classified_host (host_markers M H) speaker.
Proof.
  unfold host_speaker_ids. rewrite foldl_add_host_speaker.
  split; [|by right]. intros [Hx | Hx]; [|done]. by apply not_elem_of_empty in Hx.
Qed.

(** C1.  For every meeting and every list of host identifiers (also when
    none is passed), [get_lead_statements] returns a subsequence of the
    meeting's sentences in their order; it keeps exactly the sentences whose
    [speaker_id] is outside the computed host-speaker-id set; and an id is in
    that set iff it is the id of a speaker whose host flag is set or whose
    lowered name or email contains a non-empty marker. *)
Theorem lead_statements_sublist_without_hosts
    (M : Meeting.t) (H : option (list str)) :
  get_lead_statements M H `sublist_of` Meeting.sentences M ∧
  (∀ s, s ∈ get_lead_statements M H ↔
        s ∈ Meeting.sentences M ∧ Sentence.speaker_id s ∉ host_speaker_ids M H) ∧
  (∀ x, x ∈ host_speaker_ids M H ↔
        ∃ speaker, speaker ∈ Meeting.speakers M ∧ Speaker.id speaker = x ∧
                   classified_host (host_markers M H) speaker).
Proof.
  split; [apply sublist_filter|]. split.
  - intros s. unfold get_lead_statements. rewrite list_elem_of_filter. tauto.
  - apply host_speaker_ids_spec.
Qed.

(** [lower] changes nothing in a lowered string. *)
Lemma lower_cp_idem (c : N) : lower_cp (lower_cp c) = lower_cp c.
Proof.
  unfold lower_cp.
  destruct (N.leb_spec 65 c), (N.leb_spec c 90), (N.leb_spec 192 c),
    (N.leb_spec c 222), (N.eqb_spec c 215); simpl; try lia;
  repeat match goal with
         | |- context [(?a <=? ?b)%N] => destruct (N.leb_spec a b); simpl; try lia
         | |- context [(?a =? ?b)%N] => destruct (N.eqb_spec a b); simpl; try lia
         end.
Qed.

Lemma lower_idem (s : str) : lower (lower s) = lower s.
Proof.
  unfold lower. rewrite map_map. apply map_ext. intros c. apply lower_cp_idem.
Qed.

Lemma lower_or_empty_lower (x : option str) : lower_or_empty x = lower (default [] x).
Proof. by destruct x as [[|c s]|]. Qed.

(** Every marker the meeting itself contributes is lowered; a marker of
    the caller is in the set as the caller wrote it. *)
Lemma host_markers_spec (M : Meeting.t) (H : option (list str)) (marker : str) :
  marker ∈ host_markers M H ↔
  marker ∈ default [] H ∨
  (marker ≠ [] ∧ (Some marker = lower <$> Meeting.host_email M ∨
                  Some marker = lower <$> Meeting.organizer_email M)).
Proof.
  unfold host_markers, add_lowered.
  destruct (Meeting.host_email M) as [[|c s]|], (Meeting.organizer_email M) as [[|c' s']|];
    simpl; rewrite ?elem_of_union, ?elem_of_singleton, elem_of_list_to_set;
    split; intros Hm;
    repeat match goal with
           | H : _ ∨ _ |- _ => destruct H
           | H : _ ∧ _ |- _ => destruct H
           | H : Some _ = Some _ |- _ => injection H as H
           | H : Some _ = None |- _ => discriminate H
           end; subst; auto; try done.
  all: try (right; split; [done | auto]).
Qed.

(** When the caller writes the identifiers in lower case, matching is
    case-insensitive: a speaker without the flag is classified as host iff
    some non-empty marker, lowered, occurs in the lowered name or email. *)
Lemma lowered_identifiers_match_any_case
    (M : Meeting.t) (H : list str) (speaker : Speaker.t) :
  Forall (λ h, lower h = h) H →
  marker_matches (host_markers M (Some H)) speaker ↔
  ∃ marker, marker ∈ host_markers M (Some H) ∧ marker ≠ [] ∧
    (occurs_in (lower marker) (lower (default [] (Speaker.name speaker))) ∨
     occurs_in (lower marker) (lower (default [] (Speaker.email speaker)))).
Proof.
  intros Hlow. unfold marker_matches. rewrite !lower_or_empty_lower.
  assert (∀ marker, marker ∈ host_markers M (Some H) → lower marker = marker) as Hm.
  { intros marker Hin. apply host_markers_spec in Hin as [Hin | [_ [He | He]]].
    - simpl in Hin. rewrite Forall_forall in Hlow. by apply Hlow.
    - destruct (Meeting.host_email M) as [e|]; [|done]. injection He as ->.
      apply lower_idem.
    - destruct (Meeting.organizer_email M) as [e|]; [|done]. injection He as ->.
      apply lower_idem. }
  split; intros (marker & Hin & Hne & Ho); exists marker;
    (split; [done|]); (split; [done|]).
  - by rewrite (Hm _ Hin).
  - by rewrite (Hm _ Hin) in Ho.
Qed.

(** C2.  The caller's identifiers enter the marker set as they are, and are
    looked up in the lowered name and email.  With the identifier ["Alice"]
    and a speaker named ["Alice"] (no host flag), the marker is a
    case-insensitive substring of the name, yet the speaker is not classified
    as host and the speaker's sentence is kept; only the lower-case spelling
    of the identifier excludes it. *)
Theorem caller_marker_compared_verbatim :
  str_in (lower (u "Alice")) (lower (u "Alice")) = true ∧
  Speaker.is_host Ex.alice = false ∧
  (Speaker.id Ex.alice ∉ host_speaker_ids Ex.alice_bob (Some [u "Alice"])) ∧
  get_lead_statements Ex.alice_bob (Some [u "Alice"]) = [Ex.welcome; Ex.cost] ∧
  get_lead_statements Ex.alice_bob (Some [u "alice"]) = [Ex.cost].
Proof.
  split; [reflexivity|]. split; [reflexivity|]. split; [|split].
  - vm_compute. done.
  - vm_compute. reflexivity.
  - vm_compute. reflexivity.
Qed.

(** ** The outcome monad *)

Lemma bind_Ok {A B} (m : outcome A) (k : A → outcome B) (b : B) :
  m ≫= k = Ok b → ∃ a, m = Ok a ∧ k a = Ok b.
Proof. destruct m as [a| |]; simpl; [eauto | done | done]. Qed.

Ltac inv_bind H :=
  repeat (let a := fresh "a" in let E := fresh "E" in
          apply bind_Ok in H as (a & E & H)).

Lemma for_each_Forall2 {A B} (f : A → outcome B) (l : list A) (ys : list B) :
  for_each f l = Ok ys → Forall2 (λ x y, f x = Ok y) l ys.
Proof.
  revert ys. induction l as [|x l IH]; intros ys Hf; simpl in Hf.
  - injection Hf as <-. constructor.
  - inv_bind Hf. injection Hf as <-. constructor; auto.
Qed.

Lemma for_each_length {A B} (f : A → outcome B) (l : list A) (ys : list B) :
  for_each f l = Ok ys → length ys = length l.
Proof. intros Hf. symmetry. eapply Forall2_length, for_each_Forall2, Hf. Qed.

Lemma for_each_total {A B} (f : A → outcome B) (l : list A) :
  Forall (λ x, ∃ y, f x = Ok y) l → ∃ ys, for_each f l = Ok ys.
Proof.
  induction 1 as [|x l [y Hy] _ [ys Hys]]; simpl; [eauto|].
  rewrite Hy; simpl. rewrite Hys; simpl. eauto.
Qed.

(** ** Ingestion *)



Lemma records_not_iterable {A} (f : pyval → outcome A) d (k : string) v :
  dict_get d (u k) = Some v → not_iterable v = true →
  records f (PDict d) k = Raise TypeError.
Proof.
  unfold records. simpl. intros -> Hv. simpl. by destruct v.
Qed.

(** The nine reads of [_build_result], in their order. *)
Lemma build_result_Ok `{PyLib} data ms ss r :
  _build_result data ms ss = Ok r →
  records build_customer_profile data "customer_profiles"
    = Ok (AnalysisResult.customer_profiles r) ∧
  records build_pain_point data "pain_points" = Ok (AnalysisResult.pain_points r) ∧
  records build_question data "questions" = Ok (AnalysisResult.questions r) ∧
  records build_objection data "objections" = Ok (AnalysisResult.objections r) ∧
  records build_language_pattern data "language_patterns"
    = Ok (AnalysisResult.language_patterns r) ∧
  passthrough as_dict_str data "value_propositions"
    = Ok (AnalysisResult.value_propositions r) ∧
  passthrough as_dict_str data "marketing_recommendations"
    = Ok (AnalysisResult.marketing_recommendations r) ∧
  passthrough as_dict_str data "messaging_guidelines"
    = Ok (AnalysisResult.messaging_guidelines r) ∧
  passthrough as_str data "conversion_triggers"
    = Ok (AnalysisResult.conversion_triggers r) ∧
  AnalysisResult.top_pain_categories r = count_categories (AnalysisResult.pain_points r) ∧
  AnalysisResult.common_questions r = first_questions (AnalysisResult.questions r) ∧
  AnalysisResult.meetings_analyzed r = Z.of_nat (length ms) ∧
  AnalysisResult.total_lead_statements r = Z.of_nat (length ss).
Proof.
  unfold _build_result. intros Hb. inv_bind Hb. injection Hb as <-. simpl.
  repeat split; assumption.
Qed.

(** *** Schema-conforming input is built without failure *)

Lemma get_str_total d (k dflt : string) :
  field is_str d k = true → ∃ x, get_str (PDict d) k dflt = Ok x.
Proof.
  unfold field, get_str. simpl. destruct (dict_get d (u k)) as [[]|]; simpl; eauto; done.
Qed.

Lemma as_list_total {A} (p : pyval → bool) (f : pyval → outcome A) v :
  (∀ x, p x = true → ∃ y, f x = Ok y) →
  array_of p v = true → ∃ l ys, v = PList l ∧ as_list f v = Ok ys ∧ length ys = length l.
Proof.
  intros Hf Hv. destruct v as [| | | | |l|]; try done. simpl in *.
  destruct (for_each_total f l) as [ys Hys].
  - apply Forall_forall. intros x Hx. apply Hf.
    rewrite forallb_forall in Hv. apply Hv. by apply list_elem_of_In.
  - exists l, ys. split; [done|]. split; [done|]. by eapply for_each_length.
Qed.

Lemma as_str_total x : is_str x = true → ∃ y, as_str x = Ok y.
Proof. destruct x; simpl; eauto; done. Qed.

Lemma as_dict_str_total x : str_dict x = true → ∃ y, as_dict_str x = Ok y.
Proof.
  destruct x as [| | | | | |d]; try done. simpl. intros Hd.
  apply for_each_total, Forall_forall. intros [k v] Hkv.
  rewrite forallb_forall in Hd. apply list_elem_of_In, Hd in Hkv. simpl in *.
  destruct (as_str_total v Hkv) as [y ->]. simpl. eauto.
Qed.

Lemma passthrough_total {A} (p : pyval → bool) (f : pyval → outcome A) d (k : string) :
  (∀ x, p x = true → ∃ y, f x = Ok y) →
  field (array_of p) d k = true →
  ∃ ys, passthrough f (PDict d) k = Ok ys ∧ length ys = array_length d k.
Proof.
  intros Hf. unfold field, passthrough, array_length. simpl.
  destruct (dict_get d (u k)) as [v|]; simpl; [|eauto].
  intros Hv. destruct (as_list_total p f v Hf Hv) as (l & ys & -> & Hys & Hlen). eauto.
Qed.

Lemma records_total {A} (p : pyval → bool) (f : pyval → outcome A) d (k : string) :
  (∀ x, p x = true → ∃ y, f x = Ok y) →
  field (array_of p) d k = true →
  ∃ ys, records f (PDict d) k = Ok ys ∧ length ys = array_length d k.
Proof.
  intros Hf. unfold field, records, array_length. simpl.
  destruct (dict_get d (u k)) as [v|]; simpl; [|eauto].
  intros Hv. destruct (as_list_total p f v Hf Hv) as (l & ys & -> & Hys & Hlen).
  simpl in *. eauto.
Qed.

(** Splits a conjunction of field checks and runs the reads they cover. *)
Ltac split_checks H :=
  simpl in H; repeat (apply andb_true_iff in H as [? H]).

Ltac read_str Hf k dflt :=
  let x := fresh "x" in let E := fresh "E" in
  destruct (get_str_total _ k dflt Hf) as [x E]; rewrite E; simpl; clear E.

Lemma build_pain_point_total x :
  pain_point_schema x = true → ∃ y, build_pain_point x = Ok y.
Proof.
  destruct x as [| | | | | |d]; try done. intros Hs. split_checks Hs.
  unfold build_pain_point.
  repeat match goal with
         | Hf : field is_str d ?k = true |- context [get_str (PDict d) ?k ?dflt] =>
             read_str Hf k dflt
         end.
  eauto.
Qed.

Lemma build_question_total x :
  question_schema x = true → ∃ y, build_question x = Ok y.
Proof.
  destruct x as [| | | | | |d]; try done. intros Hs. split_checks Hs.
  unfold build_question.
  repeat match goal with
         | Hf : field is_str d ?k = true |- context [get_str (PDict d) ?k ?dflt] =>
             read_str Hf k dflt
         end.
  eauto.
Qed.

Lemma build_objection_total x :
  objection_schema x = true → ∃ y, build_objection x = Ok y.
Proof.
  destruct x as [| | | | | |d]; try done. intros Hs. split_checks Hs.
  unfold build_objection.
  repeat match goal with
         | Hf : field is_str d ?k = true |- context [get_str (PDict d) ?k ?dflt] =>
             read_str Hf k dflt
         end.
  eauto.
Qed.

Lemma build_language_pattern_total x :
  pattern_schema x = true → ∃ y, build_language_pattern x = Ok y.
Proof.
  destruct x as [| | | | | |d]; try done. intros Hs. split_checks Hs.
  unfold build_language_pattern.
  repeat match goal with
         | Hf : field is_str d ?k = true |- context [get_str (PDict d) ?k ?dflt] =>
             read_str Hf k dflt
         end.
  eauto.
Qed.

Lemma build_customer_profile_total x :
  profile_schema x = true → ∃ y, build_customer_profile x = Ok y.
Proof.
  destruct x as [| | | | | |d]; try done. intros Hs.
  unfold profile_schema in Hs. apply andb_true_iff in Hs as [Hs Hl].
  apply andb_true_iff in Hl as [Hsol Hquo]. split_checks Hs.
  destruct (passthrough_total is_str as_str d "current_solutions" as_str_total Hsol)
    as (sol & Esol & _).
  destruct (passthrough_total str_dict as_dict_str d "supporting_quotes"
              as_dict_str_total Hquo) as (quo & Equo & _).
  unfold build_customer_profile.
  repeat match goal with
         | Hf : field is_str d ?k = true |- context [get_str (PDict d) ?k ?dflt] =>
             read_str Hf k dflt
         | |- context [passthrough as_str (PDict d) "current_solutions"] =>
             rewrite Esol; simpl
         | |- context [passthrough as_dict_str (PDict d) "supporting_quotes"] =>
             rewrite Equo; simpl
         end.
  eauto.
Qed.

Lemma build_result_total `{PyLib} d ms ss :
  response_schema d = true →
  ∃ r, _build_result (PDict d) ms ss = Ok r ∧
       ∀ k, k ∈ record_keys ++ copied_keys → record_count r k = array_length d k.
Proof.
  intros Hs. unfold response_schema in Hs.
  repeat (apply andb_true_iff in Hs as [Hs ?]).
  destruct (records_total _ build_customer_profile d "customer_profiles"
              build_customer_profile_total) as (l1 & E1 & L1); [done|].
  destruct (records_total _ build_pain_point d "pain_points"
              build_pain_point_total) as (l2 & E2 & L2); [done|].
  destruct (records_total _ build_question d "questions"
              build_question_total) as (l3 & E3 & L3); [done|].
  destruct (records_total _ build_objection d "objections"
              build_objection_total) as (l4 & E4 & L4); [done|].
  destruct (records_total _ build_language_pattern d "language_patterns"
              build_language_pattern_total) as (l5 & E5 & L5); [done|].
  destruct (passthrough_total _ as_dict_str d "value_propositions"
              as_dict_str_total) as (l6 & E6 & L6); [done|].
  destruct (passthrough_total _ as_dict_str d "marketing_recommendations"
              as_dict_str_total) as (l7 & E7 & L7); [done|].
  destruct (passthrough_total _ as_dict_str d "messaging_guidelines"
              as_dict_str_total) as (l8 & E8 & L8); [done|].
  destruct (passthrough_total _ as_str d "conversion_triggers"
              as_str_total) as (l9 & E9 & L9); [done|].
  unfold _build_result. rewrite E1, E2, E3, E4, E5, E6, E7, E8, E9. simpl.
  eexists. split; [reflexivity|]. intros k Hk.
  repeat (apply elem_of_cons in Hk as [-> | Hk]; [simpl; assumption|]).
  by apply elem_of_nil in Hk.
Qed.

(** When [_parse_response] hands an object of the documented schema to
    [_build_result], the result holds, for each of the nine categories, as
    many records as the array of that category has elements (none when the
    object has no such key). *)
Lemma ingest_counts_of_parsed `{PyLib} (response : str) (d : list (str * pyval))
    (ms : list Meeting.t) (ss : list Sentence.t) :
  _parse_response response = Returned (PDict d) →
  response_schema d = true →
  ∃ r, ingest response ms ss = Ok r ∧
       ∀ k, k ∈ record_keys ++ copied_keys → record_count r k = array_length d k.
Proof.
  intros Hp Hs. unfold ingest. rewrite Hp. by apply build_result_total.
Qed.

(** *** Aggregation *)

Lemma carrying_cons c pp l :
  carrying c (pp :: l) =
  if decide (PainPoint.category pp = c) then S (carrying c l) else carrying c l.
Proof. unfold carrying. rewrite filter_cons. by case_decide. Qed.

Lemma foldl_count_category (l : list PainPoint.t) (m : gmap str Z) (c : str) :
  foldl count_category m l !! c =
  match carrying c l with
  | O => m !! c
  | S n => Some (default 0 (m !! c) + Z.of_nat (S n))%Z
  end.
Proof.
  revert m. induction l as [|pp l IH]; intros m; [done|].
  simpl foldl. rewrite IH, carrying_cons. unfold count_category.
  case_decide as Hc.
  - subst c. rewrite lookup_insert_eq. simpl.
    destruct (carrying _ l); f_equal; lia.
  - by rewrite lookup_insert_ne.
Qed.

Lemma count_categories_lookup (l : list PainPoint.t) (c : str) :
  count_categories l !! c =
  match carrying c l with O => None | S n => Some (Z.of_nat (S n)) end.
Proof.
  unfold count_categories. rewrite foldl_count_category, lookup_empty.
  destruct (carrying c l); [done|]. simpl. f_equal.
Qed.

Lemma carrying_pos c l :
  carrying c l ≠ 0 ↔ ∃ pp, pp ∈ l ∧ PainPoint.category pp = c.
Proof.
  unfold carrying. split.
  - intros Hn. destruct (filter _ l) as [|pp l'] eqn:Hf; [done|].
    exists pp. assert (pp ∈ filter (λ pp, PainPoint.category pp = c) l) as Hin
      by (rewrite Hf; left).
    apply list_elem_of_filter in Hin. tauto.
  - intros (pp & Hin & Hc) Hz. apply length_zero_iff_nil in Hz.
    assert (pp ∈ filter (λ pp, PainPoint.category pp = c) l) as Hin'
      by (by apply list_elem_of_filter).
    rewrite Hz in Hin'. by apply elem_of_nil in Hin'.
Qed.

(** C6.  In every result [_build_result] returns, [top_pain_categories]
    maps a category to the number of pain points that carry it, its keys are
    the categories that occur among the pain points and no others, and
    [common_questions] is the list of the [text] fields of the first ten
    questions in their order (of all of them when there are fewer). *)
Theorem aggregation_postcondition `{PyLib} (data : pyval)
    (ms : list Meeting.t) (ss : list Sentence.t) (r : AnalysisResult.t) :
  _build_result data ms ss = Ok r →
  (∀ c n, AnalysisResult.top_pain_categories r !! c = Some n ↔
          n = Z.of_nat (carrying c (AnalysisResult.pain_points r)) ∧
          ∃ pp, pp ∈ AnalysisResult.pain_points r ∧ PainPoint.category pp = c) ∧
  (∀ c, AnalysisResult.top_pain_categories r !! c = None ↔
        ∀ pp, pp ∈ AnalysisResult.pain_points r → PainPoint.category pp ≠ c) ∧
  AnalysisResult.common_questions r =
    map Question.text (take 10 (AnalysisResult.questions r)) ∧
  (length (AnalysisResult.questions r) ≤ 10 →
   AnalysisResult.common_questions r = map Question.text (AnalysisResult.questions r)).
Proof.
  intros Hb. apply build_result_Ok in Hb.
  destruct Hb as (_ & _ & _ & _ & _ & _ & _ & _ & _ & -> & -> & _).
  split; [|split; [|split]].
  - intros c n. rewrite count_categories_lookup, <- carrying_pos.
    destruct (carrying c _); split.
    + done.
    + intros [_ Hn]. done.
    + intros [= <-]. done.
    + intros [-> _]. done.
  - intros c. rewrite count_categories_lookup.
    pose proof (carrying_pos c (AnalysisResult.pain_points r)) as Hp.
    destruct (carrying c _); split.
    + intros _ pp Hin Hc. apply (proj2 Hp); eauto.
    + done.
    + done.
    + intros Hno. exfalso. destruct (proj1 Hp) as (pp & Hin & Hc); [done|].
      by apply (Hno pp).
  - done.
  - intros Hlen. unfold first_questions. by rewrite take_ge.
Qed.

Lemma aggregation_postcondition_witness :
  _build_result Ex.three_pains [] [] = Ok Ex.three_pains_result ∧
  AnalysisResult.top_pain_categories Ex.three_pains_result !! u "Technical" = Some 2%Z ∧
  AnalysisResult.top_pain_categories Ex.three_pains_result !! u "Cost" = Some 1%Z ∧
  AnalysisResult.top_pain_categories Ex.three_pains_result !! u "Support" = None.
Proof.
  assert (_build_result Ex.three_pains [] [] = Ok Ex.three_pains_result) as Hb
    by (vm_compute; reflexivity).
  split; [exact Hb|].
  destruct (aggregation_postcondition Ex.three_pains [] [] _ Hb) as (Hsome & Hnone & _).
  split; [|split].
  - apply Hsome. split; [vm_compute; reflexivity|]. exists (Ex.pain "Technical").
    split; [left | reflexivity].
  - apply Hsome. split; [vm_compute; reflexivity|]. exists (Ex.pain "Cost").
    split; [do 2 right; left | reflexivity].
  - apply Hnone. intros pp Hin.
    repeat (apply elem_of_cons in Hin as [-> | Hin]; [vm_compute; discriminate|]).
    by apply elem_of_nil in Hin.
Defined.

(** *** Missing and malformed categories *)





(** A string or an object under a record key is iterated: its characters
    or its keys are strings, and the first [.get] on one raises; only the
    empty ones yield zero records. *)
Lemma lone_category_text_raises `{PyLib} ms ss (k : string) c text :
  k ∈ record_keys →
  _build_result (PDict [(u k, PStr (c :: text))]) ms ss = Raise AttributeError.
Proof.
  intros Hk.
  repeat (apply elem_of_cons in Hk as [-> | Hk]; [reflexivity|]).
  by apply elem_of_nil in Hk.
Qed.



(** *** Language patterns *)

(** C7, as the specification states it, fails: an element without a
    [category] key becomes a pattern whose category is the empty string, and
    an element with the category ["slang"] becomes a pattern of that
    category; neither is one of the four names. *)
Lemma pattern_category_outside_names :
  _build_result Ex.bare_pattern [] [] = Ok Ex.bare_pattern_result ∧
  ¬ Forall (λ lp, LanguagePattern.category lp ∈ pattern_categories)
           (AnalysisResult.language_patterns Ex.bare_pattern_result) ∧
  _build_result Ex.slang_pattern [] [] = Ok Ex.slang_pattern_result ∧
  ¬ Forall (λ lp, LanguagePattern.category lp ∈ pattern_categories)
           (AnalysisResult.language_patterns Ex.slang_pattern_result).
Proof.
  split; [vm_compute; reflexivity|]. split; [|split; [vm_compute; reflexivity|]].
  - intros Hall. apply Forall_cons_1 in Hall as [Hin _].
    apply (bool_decide_pack _) in Hin. vm_compute in Hin. exact Hin.
  - intros Hall. apply Forall_cons_1 in Hall as [Hin _].
    apply (bool_decide_pack _) in Hin. vm_compute in Hin. exact Hin.
Qed.

(** C7, amended.  Every pattern a returned result holds has [usage_count]
    1, hence at least 1, and its [category] is the string its element gives
    under ["category"], the empty string when the element has no such key;
    the patterns are the elements' images, in order.  Membership in the four
    names is not checked. *)
Theorem language_pattern_fields `{PyLib} (data : pyval)
    (ms : list Meeting.t) (ss : list Sentence.t) (r : AnalysisResult.t) :
  _build_result data ms ss = Ok r →
  ∃ items,
    (l ← py_get data (u "language_patterns") (PList []); py_iter l) = Ok items ∧
    Forall2 (λ item lp,
               LanguagePattern.usage_count lp = 1%Z ∧
               py_get item (u "category") (PStr [])
                 = Ok (PStr (LanguagePattern.category lp)))
            items (AnalysisResult.language_patterns r) ∧
    Forall (λ lp, (1 ≤ LanguagePattern.usage_count lp)%Z)
           (AnalysisResult.language_patterns r).
Proof.
  intros Hb. apply build_result_Ok in Hb.
  destruct Hb as (_ & _ & _ & _ & E5 & _). unfold records in E5.
  apply bind_Ok in E5 as (l & El & E5). apply bind_Ok in E5 as (items & Ei & E5).
  exists items. rewrite El. simpl. split; [done|].
  apply for_each_Forall2 in E5.
  assert (Forall2 (λ item lp,
             LanguagePattern.usage_count lp = 1%Z ∧
             py_get item (u "category") (PStr [])
               = Ok (PStr (LanguagePattern.category lp)))
            items (AnalysisResult.language_patterns r)) as HF.
  { eapply Forall2_impl; [exact E5|]. intros item lp Hlp. simpl in Hlp.
    unfold build_language_pattern, get_str in Hlp. inv_bind Hlp.
    injection Hlp as <-. simpl. split; [done|].
    match goal with
    | E : py_get item (u "category") _ ≫= _ = Ok _ |- _ =>
        apply bind_Ok in E as (x & Ec & Es);
        destruct x; try discriminate Es; injection Es as <-; exact Ec
    end. }
  split; [exact HF|].
  clear -HF. induction HF as [|item lp items lps [Hc _] _ IH]; constructor; [|done].
  rewrite Hc. done.
Qed.

Lemma language_pattern_fields_witness :
  _build_result Ex.bare_pattern [] [] = Ok Ex.bare_pattern_result ∧
  ∃ items,
    (l ← py_get Ex.bare_pattern (u "language_patterns") (PList []); py_iter l)
      = Ok items ∧
    Forall2 (λ item lp,
               LanguagePattern.usage_count lp = 1%Z ∧
               py_get item (u "category") (PStr [])
                 = Ok (PStr (LanguagePattern.category lp)))
            items (AnalysisResult.language_patterns Ex.bare_pattern_result) ∧
    Forall (λ lp, (1 ≤ LanguagePattern.usage_count lp)%Z)
           (AnalysisResult.language_patterns Ex.bare_pattern_result).
Proof.
  split; [vm_compute; reflexivity|].
  apply (language_pattern_fields Ex.bare_pattern [] []). vm_compute. reflexivity.
Defined.

(** *** Extraction: [_parse_response] *)

Lemma from_first_open_spec (s r : str) :
  from_first_open s = Some r ↔
  ∃ pre rest, s = pre ++ 123%N :: rest ∧ (123%N ∉ pre) ∧ r = 123%N :: rest.
Proof.
  induction s as [|c s IH]; simpl.
  - split; [done|]. intros (pre & rest & Hs & _). by destruct pre.
  - destruct (N.eqb_spec c 123) as [-> | Hc].
    + split.
      * intros [= <-]. exists [], s. split; [done|]. split; [apply not_elem_of_nil | done].
      * intros (pre & rest & Hs & Hpre & ->). destruct pre as [|c pre].
        -- by injection Hs as <-.
        -- injection Hs as <- _. exfalso. apply Hpre. left.
    + rewrite IH. split.
      * intros (pre & rest & -> & Hpre & ->). exists (c :: pre), rest.
        split; [done|]. split; [|done]. rewrite elem_of_cons. intros [? | ?]; [congruence | done].
      * intros (pre & rest & Hs & Hpre & ->). destruct pre as [|c' pre].
        -- injection Hs as -> _. done.
        -- injection Hs as <- ->. exists pre, rest. split; [done|]. split; [|done].
           intros Hin. apply Hpre. by right.
Qed.

Lemma upto_last_elem (c : N) (s : str) : c ∈ s → upto_last c s ≠ None.
Proof.
  intros Hin. apply list_elem_of_split in Hin as (l1 & l2 & ->).
  induction l1 as [|y l1 IH]; simpl.
  - destruct (upto_last c l2); [done|]. by rewrite N.eqb_refl.
  - by destruct (upto_last c (l1 ++ c :: l2)).
Qed.

Lemma upto_last_spec (c : N) (s p : str) :
  upto_last c s = Some p ↔
  ∃ body post, s = body ++ c :: post ∧ (c ∉ post) ∧ p = body ++ [c].
Proof.
  revert p. induction s as [|x s IH]; intros p; simpl.
  - split; [done|]. intros (body & post & Hs & _). by destruct body.
  - destruct (upto_last c s) as [q|] eqn:Hq.
    + split.
      * intros [= <-].
        destruct (proj1 (IH q) eq_refl) as (body & post & -> & Hpost & ->).
        exists (x :: body), post. done.
      * intros (body' & post' & Hs & Hpost' & ->). destruct body' as [|y body'].
        -- injection Hs as -> ->.
           destruct (proj1 (IH q) eq_refl) as (body & post & Hs & _).
           exfalso. apply Hpost'. rewrite Hs. apply elem_of_app. right. left.
        -- injection Hs as <- ->. simpl. do 2 f_equal.
           assert (Some q = Some (body' ++ [c])) as Hq' by (apply IH; eauto).
           congruence.
    + assert (c ∉ s) as Hs.
      { intros Hin. by apply upto_last_elem in Hin. }
      destruct (N.eqb_spec x c) as [-> | Hx]; split.
      * intros [= <-]. exists [], s. done.
      * intros (body & post & Hbp & Hpost & ->). destruct body as [|y body].
        -- done.
        -- injection Hbp as <- ->. exfalso. apply Hs, elem_of_app. right. left.
      * done.
      * intros (body & post & Hbp & Hpost & ->). destruct body as [|y body].
        -- injection Hbp as -> _. done.
        -- injection Hbp as <- ->. exfalso. apply Hs, elem_of_app. right. left.
Qed.

(** The match of the pattern is the span from the first ['{'] of the text
    to its last ['}']; there is none when no ['}'] follows the first ['{']. *)
Lemma re_search_braces_spec (response span : str) :
  re_search_braces response = Some span ↔
  ∃ pre body post,
    response = pre ++ [123%N] ++ body ++ [125%N] ++ post ∧
    (123%N ∉ pre) ∧ (125%N ∉ post) ∧ span = [123%N] ++ body ++ [125%N].
Proof.
  unfold re_search_braces. split.
  - destruct (from_first_open response) as [[|open rest]|] eqn:Hf; try done.
    apply from_first_open_spec in Hf as (pre & rest' & -> & Hpre & [= -> ->]).
    destruct (upto_last 125 rest') as [p|] eqn:Hu; [|done].
    apply upto_last_spec in Hu as (body & post & -> & Hpost & ->).
    intros [= <-]. exists pre, body, post. done.
  - intros (pre & body & post & -> & Hpre & Hpost & ->).
    assert (from_first_open (pre ++ [123%N] ++ body ++ [125%N] ++ post)
            = Some (123%N :: body ++ [125%N] ++ post)) as ->.
    { apply from_first_open_spec. exists pre, (body ++ [125%N] ++ post). done. }
    assert (upto_last 125 (body ++ [125%N] ++ post) = Some (body ++ [125%N])) as ->.
    { apply upto_last_spec. exists body, post. done. }
    done.
Qed.

(** The two attempts and the fallback. *)
Lemma parse_response_whole `{PyLib} response v :
  json_loads response = Returned v → _parse_response response = Returned v.
Proof. unfold _parse_response. by intros ->. Qed.

Lemma parse_response_span `{PyLib} response span :
  json_loads response = Raised JSONDecodeError →
  re_search_braces response = Some span →
  _parse_response response =
    match json_loads span with
    | Raised JSONDecodeError => Returned (PDict [])
    | r => r
    end.
Proof. unfold _parse_response. by intros -> ->. Qed.

Lemma parse_response_no_span `{PyLib} response :
  json_loads response = Raised JSONDecodeError →
  re_search_braces response = None →
  _parse_response response = Returned (PDict []).
Proof. unfold _parse_response. by intros -> ->. Qed.

(** When both attempts fail the run ends with a result without records. *)
Lemma ingest_fallback `{PyLib} response ms ss :
  json_loads response = Raised JSONDecodeError →
  (∀ span, re_search_braces response = Some span →
           json_loads span = Raised JSONDecodeError) →
  ∃ r, ingest response ms ss = Ok r ∧
       ∀ k, k ∈ record_keys ++ copied_keys → record_count r k = 0.
Proof.
  intros Hw Hs. unfold ingest.
  assert (_parse_response response = Returned (PDict [])) as ->.
  { destruct (re_search_braces response) as [span|] eqn:Hr.
    - rewrite (parse_response_span _ _ Hw Hr), (Hs span eq_refl). done.
    - by apply parse_response_no_span. }
  destruct (build_result_total [] ms ss eq_refl) as (r & Hr & Hc). eauto.
Qed.

(** A decoded value that is not an object goes to [_build_result] as it
    is, and its first [.get] raises. *)
Lemma ingest_non_object `{PyLib} response v ms ss :
  _parse_response response = Returned v → (∀ d, v ≠ PDict d) →
  ingest response ms ss = Raise AttributeError.
Proof.
  intros Hp Hv. unfold ingest. rewrite Hp. destruct v; try done. by destruct (Hv d).
Qed.

(** C5, as the specification states it, fails: the text holds a JSON
    object of the schema whose [pain_points] array has one element,
    followed by words that hold braces.  The whole text is no JSON, the part
    from its first opening to its last closing brace is none either, and
    ingestion returns a result without pain points. *)
Lemma schema_object_before_braces_is_lost :
  ExText.annotated = ExText.object_text ++ u " (see {notes})" ∧
  json_loads ExText.object_text = Returned (PDict ExText.one_pain_point) ∧
  response_schema ExText.one_pain_point = true ∧
  array_length ExText.one_pain_point "pain_points" = 1 ∧
  re_search_braces ExText.annotated
    = Some (ExText.object_text ++ u " (see {notes}") ∧
  ingest ExText.annotated [] [] = Ok (Ex.empty_result 0 0) ∧
  record_count (Ex.empty_result 0 0) "pain_points" = 0.
Proof. repeat split; vm_compute; reflexivity. Qed.

(** C5, amended.  When the text is a JSON object of the documented schema,
    or is no JSON and its part from the first opening brace to the last
    closing brace is such an object, ingestion returns a result that holds,
    for each of the nine categories, as many records as the array of that
    category has elements (none when the object has no such key). *)
Theorem ingest_record_counts `{PyLib} (response : str) (d : list (str * pyval))
    (ms : list Meeting.t) (ss : list Sentence.t) :
  json_loads response = Returned (PDict d) ∨
  (json_loads response = Raised JSONDecodeError ∧
   ∃ pre body post,
     response = pre ++ [123%N] ++ body ++ [125%N] ++ post ∧
     (123%N ∉ pre) ∧ (125%N ∉ post) ∧
     json_loads ([123%N] ++ body ++ [125%N]) = Returned (PDict d)) →
  response_schema d = true →
  ∃ r, ingest response ms ss = Ok r ∧
       ∀ k, k ∈ record_keys ++ copied_keys → record_count r k = array_length d k.
Proof.
  intros Hd Hs. apply ingest_counts_of_parsed; [|done].
  destruct Hd as [Hw | (Hw & pre & body & post & Hr & Hpre & Hpost & Hspan)].
  - by apply parse_response_whole.
  - rewrite (parse_response_span response ([123%N] ++ body ++ [125%N]) Hw), Hspan; [done|].
    apply re_search_braces_spec. by exists pre, body, post.
Qed.

Lemma ingest_record_counts_witness :
  json_loads Ex.reply = Raised JSONDecodeError ∧
  response_schema Ex.reply_object = true ∧
  ∃ r, ingest Ex.reply [] [] = Ok r ∧
       ∀ k, k ∈ record_keys ++ copied_keys →
            record_count r k = array_length Ex.reply_object k.
Proof.
  assert (json_loads Ex.reply = Raised JSONDecodeError) as Hw
    by (vm_compute; reflexivity).
  split; [exact Hw|]. split; [vm_compute; reflexivity|].
  apply (ingest_record_counts Ex.reply Ex.reply_object [] []).
  - right. split; [exact Hw|].
    exists (u "Here is the analysis: "),
      (Ex.js "'pain_points': [{'category': 'Kosten'}, {}], 'questions': [{'text': 'Was kostet das?'}], 'conversion_triggers': ['Demo']"),
      (u " Done.").
    split; [vm_compute; reflexivity|].
    split; [apply (bool_decide_unpack _); vm_compute; exact I|].
    split; [apply (bool_decide_unpack _); vm_compute; exact I|].
    vm_compute. reflexivity.
  - vm_compute. reflexivity.
Defined.

(** C3.  Ingestion does raise on some texts: the text [[]] is valid JSON,
    [_parse_response] returns the list it decodes to, and [_build_result],
    which runs outside the [try], raises [AttributeError] on it; the same
    happens for a text that is one JSON string.  A text without JSON, as in
    the specification's example, does end in a result without records. *)
Theorem ingest_raises_on_non_object_json :
  _parse_response (u "[]") = Returned (PList []) ∧
  ingest (u "[]") [] [] = Raise AttributeError ∧
  ingest (Ex.js "'not json at all'") [] [] = Raise AttributeError ∧
  ingest (u "not json at all") [] [] = Ok (Ex.empty_result 0 0).
Proof. repeat split; vm_compute; reflexivity. Qed.

(** ** Prompt formatting *)

Lemma length_join (sep : str) (lines : list str) :
  Z.of_nat (length (join sep lines)) =
  (total_length lines + Z.of_nat (length sep) * Z.max 0 (Z.of_nat (length lines) - 1))%Z.
Proof.
  induction lines as [|l lines IH]; [simpl; lia|].
  destruct lines as [|l' lines].
  - simpl. lia.
  - change (join sep (l :: l' :: lines)) with (l ++ sep ++ join sep (l' :: lines)).
    rewrite !length_app, !Nat2Z.inj_add, IH.
    change (total_length (l :: l' :: lines))
      with (Z.of_nat (length l) + total_length (l' :: lines))%Z.
    simpl length. lia.
Qed.

Lemma format_loop_cons max_chars total_chars stmt rest :
  format_loop max_chars total_chars (stmt :: rest) =
  if (total_chars + Z.of_nat (length (statement_line stmt)) >? max_chars)%Z then []
  else statement_line stmt
         :: format_loop max_chars
              (total_chars + Z.of_nat (length (statement_line stmt))) rest.
Proof. reflexivity. Qed.

Lemma total_length_cons line lines :
  total_length (line :: lines) = (Z.of_nat (length line) + total_length lines)%Z.
Proof. reflexivity. Qed.

Lemma format_loop_prefix max_chars total_chars statements :
  format_loop max_chars total_chars statements
    `prefix_of` map statement_line statements.
Proof.
  revert total_chars. induction statements as [|stmt rest IH]; intros t.
  - done.
  - rewrite format_loop_cons, map_cons.
    destruct (_ >? _)%Z; [apply prefix_nil|]. apply prefix_cons, IH.
Qed.

Lemma format_loop_total max_chars total_chars statements :
  (total_chars ≤ max_chars)%Z →
  (total_chars + total_length (format_loop max_chars total_chars statements)
     ≤ max_chars)%Z.
Proof.
  revert total_chars. induction statements as [|stmt rest IH]; intros t Ht.
  - change (t + 0 ≤ max_chars)%Z. lia.
  - rewrite format_loop_cons.
    destruct (Z.gtb_spec (t + Z.of_nat (length (statement_line stmt))) max_chars)
      as [Hgt | Hle].
    + change (t + 0 ≤ max_chars)%Z. lia.
    + rewrite total_length_cons. specialize (IH _ Hle). lia.
Qed.

Lemma format_loop_stops max_chars total_chars statements next :
  (format_loop max_chars total_chars statements ++ [next])
    `prefix_of` map statement_line statements →
  (max_chars <
   total_chars + total_length (format_loop max_chars total_chars statements)
     + Z.of_nat (length next))%Z.
Proof.
  revert total_chars. induction statements as [|stmt rest IH]; intros t.
  - intros [k Hk]. by destruct k.
  - rewrite format_loop_cons, map_cons.
    destruct (Z.gtb_spec (t + Z.of_nat (length (statement_line stmt))) max_chars)
      as [Hgt | Hle].
    + intros [k Hk]. injection Hk as <- _. change (total_length []) with 0%Z. lia.
    + intros Hp. rewrite <- app_comm_cons in Hp. apply prefix_cons_inv_2 in Hp.
      rewrite total_length_cons. specialize (IH _ Hp). lia.
Qed.

(** C9, as the specification states it, fails: two statements whose lines
    have 25000 characters each fit the budget of 50000 that the loop checks,
    and the newline that joins them makes the string 50001 characters long. *)
Lemma prompt_statements_exceed_budget :
  Z.of_nat (length (_format_statements [Ex.long_statement; Ex.long_statement]
                      default_max_chars)) = 50001%Z ∧
  ¬ (Z.of_nat (length (_format_statements [Ex.long_statement; Ex.long_statement]
                         default_max_chars)) ≤ default_max_chars)%Z.
Proof.
  assert (Z.of_nat (length (_format_statements [Ex.long_statement; Ex.long_statement]
                              default_max_chars)) = 50001%Z) as E
    by (vm_compute; reflexivity).
  split; [exact E|]. rewrite E. unfold default_max_chars. lia.
Qed.

(** C9, amended.  For every list of statements and every budget that is not
    negative, the lines that are kept are a prefix of the statements' lines
    in their order, the sum of their lengths is at most the budget, the line
    after the kept ones, when there is one, would exceed it, and the string
    put into the prompt is these lines joined by newlines: its length is
    that sum plus one for each line after the first. *)
Theorem format_statements_budget (statements : list Sentence.t) (max_chars : Z) :
  (0 ≤ max_chars)%Z →
  ∃ kept,
    _format_statements statements max_chars = join nl kept ∧
    kept `prefix_of` map statement_line statements ∧
    (total_length kept ≤ max_chars)%Z ∧
    (∀ next, (kept ++ [next]) `prefix_of` map statement_line statements →
             (max_chars < total_length kept + Z.of_nat (length next))%Z) ∧
    Z.of_nat (length (_format_statements statements max_chars)) =
      (total_length kept + Z.max 0 (Z.of_nat (length kept) - 1))%Z.
Proof.
  intros Hmax. exists (format_loop max_chars 0 statements).
  split; [done|]. split; [apply format_loop_prefix|]. split; [|split].
  - pose proof (format_loop_total max_chars 0 statements Hmax). lia.
  - intros next Hp. pose proof (format_loop_stops max_chars 0 statements next Hp). lia.
  - unfold _format_statements. rewrite length_join. simpl length. lia.
Qed.

Lemma format_statements_budget_witness :
  (0 ≤ default_max_chars)%Z ∧
  ∃ kept,
    _format_statements [Ex.welcome; Ex.cost] default_max_chars = join nl kept ∧
    kept `prefix_of` map statement_line [Ex.welcome; Ex.cost] ∧
    (total_length kept ≤ default_max_chars)%Z ∧
    (∀ next, (kept ++ [next]) `prefix_of` map statement_line [Ex.welcome; Ex.cost] →
             (default_max_chars < total_length kept + Z.of_nat (length next))%Z) ∧
    Z.of_nat (length (_format_statements [Ex.welcome; Ex.cost] default_max_chars)) =
      (total_length kept + Z.max 0 (Z.of_nat (length kept) - 1))%Z.
Proof.
  split; [unfold default_max_chars; lia|].
  apply (format_statements_budget [Ex.welcome; Ex.cost] default_max_chars).
  unfold default_max_chars. lia.
Defined.

(** ** Transcript parsing *)

Lemma parse_speaker_not_host sp speaker :
  parse_speaker sp = Ok speaker → Speaker.is_host speaker = false.
Proof.
  unfold parse_speaker. intros Hp. inv_bind Hp. by injection Hp as <-.
Qed.

Lemma parse_transcript_speakers `{PyLib} data m :
  _parse_transcript data = Ok m →
  records parse_speaker data "speakers" = Ok (Meeting.speakers m).
Proof.
  unfold _parse_transcript. intros Hp.
  apply bind_Ok in Hp as (speakers & Es & Hp). inv_bind Hp.
  by injection Hp as <-.
Qed.

(** C10.  Every meeting [_parse_transcript] returns has [is_host = False]
    on each of its speakers; an id is therefore in the host-speaker-id set
    of such a meeting iff it is the id of a speaker whose lowered name or
    email contains a non-empty marker: the host flag never decides. *)
Theorem parsed_meeting_hosts_by_markers_only `{PyLib} (data : pyval) (m : Meeting.t) :
  _parse_transcript data = Ok m →
  Forall (λ speaker, Speaker.is_host speaker = false) (Meeting.speakers m) ∧
  ∀ (H : option (list str)) (x : str),
    x ∈ host_speaker_ids m H ↔
    ∃ speaker, speaker ∈ Meeting.speakers m ∧ Speaker.id speaker = x ∧
               marker_matches (host_markers m H) speaker.
Proof.
  intros Hp. apply parse_transcript_speakers in Hp. unfold records in Hp.
  inv_bind Hp. apply for_each_Forall2 in Hp.
  assert (Forall (λ speaker, Speaker.is_host speaker = false) (Meeting.speakers m))
    as Hall.
  { clear -Hp. induction Hp as [|sp speaker sps speakers Hsp _ IH]; constructor;
      [by eapply parse_speaker_not_host | done]. }
  split; [exact Hall|]. intros H0 x. rewrite host_speaker_ids_spec.
  rewrite Forall_forall in Hall. split.
  - intros (speaker & Hin & Hid & [Hflag | Hm]); [|eauto].
    rewrite (Hall _ Hin) in Hflag. done.
  - intros (speaker & Hin & Hid & Hm). exists speaker. split; [done|].
    split; [done|]. by right.
Qed.

Lemma parsed_meeting_hosts_by_markers_only_witness :
  _parse_transcript Ex.transcript = Ok Ex.transcript_meeting ∧
  Forall (λ speaker, Speaker.is_host speaker = false)
         (Meeting.speakers Ex.transcript_meeting) ∧
  ∀ (H : option (list str)) (x : str),
    x ∈ host_speaker_ids Ex.transcript_meeting H ↔
    ∃ speaker, speaker ∈ Meeting.speakers Ex.transcript_meeting ∧
               Speaker.id speaker = x ∧
               marker_matches (host_markers Ex.transcript_meeting H) speaker.
Proof.
  split; [vm_compute; reflexivity|].
  apply (parsed_meeting_hosts_by_markers_only Ex.transcript Ex.transcript_meeting).
  vm_compute. reflexivity.
Defined.

(** ** Markdown export *)

Abbreviation no_h2 := (Forall (λ line, is_h2 line = false)).

Lemma no_h2_opt_line label value :
  (∀ v, is_h2 (label ++ v) = false) → no_h2 (opt_line label value).
Proof. intros Hl. destruct value; simpl; [constructor|]. constructor; [apply Hl | constructor]. Qed.

Lemma no_h2_flat_map {A} (f : A → list str) (l : list A) :
  (∀ x, no_h2 (f x)) → no_h2 (flat_map f l).
Proof.
  intros Hf. induction l as [|x l IH]; simpl; [constructor|].
  apply Forall_app_2; [apply Hf | apply IH].
Qed.

Create HintDb md discriminated.

Ltac no_h2_tac :=
  repeat first
    [ apply Forall_nil_2
    | solve [auto with md nocore]
    | apply no_h2_flat_map; intros
    | apply no_h2_opt_line; intros; reflexivity
    | apply Forall_app_2
    | apply Forall_cons_2; [reflexivity|] ].

Lemma no_h2_report_header `{PyLib} r : no_h2 (report_header r).
Proof. unfold report_header. no_h2_tac. Qed.

Lemma no_h2_quote_lines quote : no_h2 (quote_lines quote).
Proof.
  unfold quote_lines. destruct (dict_get quote (u "context")) as [[|c s]|]; no_h2_tac.
Qed.
#[local] Hint Resolve no_h2_quote_lines : md.

Lemma no_h2_profile_lines i profile : no_h2 (profile_lines i profile).
Proof.
  unfold profile_lines.
  destruct (CustomerProfile.supporting_quotes profile); no_h2_tac.
Qed.

Lemma no_h2_pain_point_lines pp : no_h2 (pain_point_lines pp).
Proof. unfold pain_point_lines. no_h2_tac. Qed.

Lemma no_h2_question_lines q : no_h2 (question_lines q).
Proof. unfold question_lines. no_h2_tac. Qed.

Lemma no_h2_grouped_lines {A} (item_lines : A → list str) by_category :
  (∀ x, no_h2 (item_lines x)) → no_h2 (grouped_lines item_lines by_category).
Proof. intros Hi. unfold grouped_lines. no_h2_tac. Qed.

Lemma no_h2_objection_lines obj : no_h2 (objection_lines obj).
Proof. unfold objection_lines. no_h2_tac. Qed.

Lemma no_h2_pattern_lines lp : no_h2 (pattern_lines lp).
Proof. unfold pattern_lines. no_h2_tac. Qed.
#[local] Hint Resolve no_h2_pattern_lines : md.

Lemma no_h2_language_category_lines patterns cat :
  no_h2 (language_category_lines patterns cat).
Proof.
  unfold language_category_lines. destruct (filter _ patterns); no_h2_tac.
Qed.

Lemma no_h2_value_proposition_lines vp : no_h2 (value_proposition_lines vp).
Proof. unfold value_proposition_lines. no_h2_tac. Qed.

Lemma no_h2_customer_quote_line d : no_h2 (customer_quote_line d).
Proof.
  unfold customer_quote_line.
  destruct (dict_get d (u "customer_quote")) as [[|c s]|]; no_h2_tac.
Qed.
#[local] Hint Resolve no_h2_customer_quote_line : md.

Lemma no_h2_recommendation_lines rec : no_h2 (recommendation_lines rec).
Proof. unfold recommendation_lines. no_h2_tac. Qed.

Lemma no_h2_guideline_lines msg : no_h2 (guideline_lines msg).
Proof. unfold guideline_lines. no_h2_tac. Qed.

Lemma no_h2_trigger_lines triggers :
  no_h2 (map (λ trigger, u "- " ++ trigger) triggers ++ [ [] ]).
Proof.
  apply Forall_app_2; [|no_h2_tac].
  induction triggers; simpl; constructor; [reflexivity | done].
Qed.

Lemma not_h2_elem h lines : is_h2 h = true → no_h2 lines → h ∉ lines.
Proof.
  intros Hh Hl Hin. rewrite Forall_forall in Hl. specialize (Hl _ Hin). congruence.
Qed.

(** A header is among the lines of a section iff the section is that
    header's and its list of records is not empty. *)
Lemma section_elem {A} (records : list A) (header : str) (body : list str) (h : str) :
  is_h2 h = true → no_h2 body →
  (h ∈ section records header body ↔ records ≠ [] ∧ h = header).
Proof.
  intros Hh Hb. destruct records as [|x records]; simpl.
  - split; [intros Hin; by apply elem_of_nil in Hin | intros [? _]; done].
  - rewrite !elem_of_cons. split.
    + intros [-> | [-> | Hin]]; [done | done |]. by apply not_h2_elem in Hin.
    + intros [_ ->]. by left.
Qed.

Lemma elem_of_flat_map {A B} (f : A → list B) (l : list A) (y : B) :
  y ∈ flat_map f l ↔ ∃ x, x ∈ l ∧ y ∈ f x.
Proof.
  rewrite list_elem_of_In, in_flat_map. split.
  - intros (x & Hx & Hy). exists x. by rewrite !list_elem_of_In.
  - intros (x & Hx & Hy). exists x. by rewrite <- !list_elem_of_In.
Qed.

(** Where a header line can come from. *)
Lemma header_in_markdown `{PyLib} (r : AnalysisResult.t) (h : str) :
  is_h2 h = true →
  h ∈ markdown_lines r ↔
    (AnalysisResult.customer_profiles r ≠ [] ∧ h = h_profiles) ∨
    (AnalysisResult.pain_points r ≠ [] ∧ h = h_pain_points) ∨
    (AnalysisResult.questions r ≠ [] ∧ h = h_questions) ∨
    (AnalysisResult.objections r ≠ [] ∧ h = h_objections) ∨
    (AnalysisResult.language_patterns r ≠ [] ∧ h = h_language) ∨
    (AnalysisResult.value_propositions r ≠ [] ∧ h = h_value_propositions) ∨
    (AnalysisResult.marketing_recommendations r ≠ [] ∧ h = h_marketing) ∨
    (AnalysisResult.messaging_guidelines r ≠ [] ∧ h = h_messaging) ∨
    (AnalysisResult.conversion_triggers r ≠ [] ∧ h = h_triggers).
Proof.
  intros Hh. unfold markdown_lines, markdown_sections.
  cbn [concat]. rewrite !elem_of_app.
  rewrite !(section_elem _ _ _ h Hh).
  - pose proof (not_h2_elem h _ Hh (no_h2_report_header r)) as Hhead.
    pose proof (not_elem_of_nil h) as Hnil. tauto.
  - apply no_h2_trigger_lines.
  - apply no_h2_flat_map, no_h2_guideline_lines.
  - apply no_h2_flat_map, no_h2_recommendation_lines.
  - apply no_h2_flat_map, no_h2_value_proposition_lines.
  - apply no_h2_flat_map, no_h2_language_category_lines.
  - apply no_h2_flat_map, no_h2_objection_lines.
  - apply no_h2_grouped_lines, no_h2_question_lines.
  - apply no_h2_grouped_lines, no_h2_pain_point_lines.
  - apply no_h2_flat_map. intros ip. apply no_h2_profile_lines.
Qed.

Lemma objection_quote_in_markdown `{PyLib} (r : AnalysisResult.t) (obj : Objection.t) :
  obj ∈ AnalysisResult.objections r →
  (u "> " ++ dq ++ Objection.direct_quote obj ++ dq) ∈ markdown_lines r.
Proof.
  intros Hin. unfold markdown_lines, markdown_sections. cbn [concat].
  apply elem_of_app. right. do 3 (apply elem_of_app; right). apply elem_of_app. left.
  destruct (AnalysisResult.objections r) as [|o objs] eqn:Ho;
    [by apply elem_of_nil in Hin|].
  unfold section. do 2 apply list_elem_of_further.
  apply elem_of_flat_map. exists obj. split; [done|].
  unfold objection_lines. apply elem_of_app. left.
  do 2 apply list_elem_of_further. apply list_elem_of_here.
Qed.

Ltac header_case Hh :=
  rewrite (header_in_markdown _ _ Hh); split;
  [ intros Hc;
    repeat (destruct Hc as [[Hne He] | Hc];
            [first [exact Hne | vm_compute in He; discriminate He]|]);
    destruct Hc as [Hne He];
    first [exact Hne | vm_compute in He; discriminate He]
  | intros Hne; tauto ].

(** [split_lines] undoes [join nl] on lines without a line break. *)
Lemma split_lines_cons (line rest : str) :
  10%N ∉ line → split_lines (line ++ 10%N :: rest) = line :: split_lines rest.
Proof.
  induction line as [|c line IH]; intros Hl; simpl.
  - done.
  - destruct (N.eqb_spec c 10) as [-> | Hc]; [exfalso; apply Hl; left|].
    rewrite IH; [done|]. intros Hin. apply Hl. by right.
Qed.

Lemma split_lines_single (line : str) : 10%N ∉ line → split_lines line = [line].
Proof.
  induction line as [|c line IH]; intros Hl; simpl.
  - done.
  - destruct (N.eqb_spec c 10) as [-> | Hc]; [exfalso; apply Hl; left|].
    rewrite IH; [done|]. intros Hin. apply Hl. by right.
Qed.

Lemma split_lines_join (lines : list str) :
  lines ≠ [] → Forall (λ line, 10%N ∉ line) lines →
  split_lines (join nl lines) = lines.
Proof.
  intros Hne Hall. induction Hall as [|line lines Hl Hall IH]; [done|].
  destruct lines as [|line' lines].
  - by apply split_lines_single.
  - change (join nl (line :: line' :: lines))
      with (line ++ 10%N :: join nl (line' :: lines)).
    rewrite split_lines_cons; [|done]. by rewrite IH.
Qed.

(** Of the texts [_build_markdown] joins, the header of a section is one
    iff the list of that section is not empty, for each of the nine
    sections, and every objection has its quote among them. *)
Lemma markdown_lines_headers `{PyLib} (r : AnalysisResult.t) :
  _build_markdown r = join nl (markdown_lines r) ∧
  (Forall (λ line, 10%N ∉ line) (markdown_lines r) →
   split_lines (_build_markdown r) = markdown_lines r) ∧
  (h_profiles ∈ markdown_lines r ↔ AnalysisResult.customer_profiles r ≠ []) ∧
  (h_pain_points ∈ markdown_lines r ↔ AnalysisResult.pain_points r ≠ []) ∧
  (h_questions ∈ markdown_lines r ↔ AnalysisResult.questions r ≠ []) ∧
  (h_objections ∈ markdown_lines r ↔ AnalysisResult.objections r ≠ []) ∧
  (h_language ∈ markdown_lines r ↔ AnalysisResult.language_patterns r ≠ []) ∧
  (h_value_propositions ∈ markdown_lines r ↔
     AnalysisResult.value_propositions r ≠ []) ∧
  (h_marketing ∈ markdown_lines r ↔ AnalysisResult.marketing_recommendations r ≠ []) ∧
  (h_messaging ∈ markdown_lines r ↔ AnalysisResult.messaging_guidelines r ≠ []) ∧
  (h_triggers ∈ markdown_lines r ↔ AnalysisResult.conversion_triggers r ≠ []) ∧
  (∀ obj, obj ∈ AnalysisResult.objections r →
          (u "> " ++ dq ++ Objection.direct_quote obj ++ dq) ∈ markdown_lines r).
Proof.
  split; [reflexivity|].
  split; [intros Hall; by apply split_lines_join|].
  assert (is_h2 h_profiles = true) as H1 by reflexivity.
  assert (is_h2 h_pain_points = true) as H2 by reflexivity.
  assert (is_h2 h_questions = true) as H3 by reflexivity.
  assert (is_h2 h_objections = true) as H4 by reflexivity.
  assert (is_h2 h_language = true) as H5 by reflexivity.
  assert (is_h2 h_value_propositions = true) as H6 by reflexivity.
  assert (is_h2 h_marketing = true) as H7 by reflexivity.
  assert (is_h2 h_messaging = true) as H8 by reflexivity.
  assert (is_h2 h_triggers = true) as H9 by reflexivity.
  split; [header_case H1|]. split; [header_case H2|]. split; [header_case H3|].
  split; [header_case H4|]. split; [header_case H5|]. split; [header_case H6|].
  split; [header_case H7|]. split; [header_case H8|]. split; [header_case H9|].
  intros obj. apply objection_quote_in_markdown.
Qed.

(** ** The reference decoder on some texts *)

Example loads_values :
  RefJson.loads (Ex.js " {'a': [1, -2, true, null, {}], 'b': 'x\u00e4\n'} ") =
  Returned (PDict [ (u "a", PList [PInt 1; PInt (-2); PBool true; PNone; PDict []]);
                    (u "b", PStr (u "x" ++ a_uml ++ nl)) ]).
Proof. vm_compute. reflexivity. Qed.

Example loads_floats :
  RefJson.loads (u "[0.1, 1e2, 5e-324, 1e309, -0.0]") =
  Returned (PList [ PFloat (S754_finite false 7205759403792794 (-56));
                    PFloat (S754_finite false 7036874417766400 (-46));
                    PFloat (S754_finite false 1 (-1074));
                    PFloat (S754_infinity false);
                    PFloat (S754_zero true) ]).
Proof. vm_compute. reflexivity. Qed.

Example loads_last_duplicate_wins :
  RefJson.loads (Ex.js "{'a': 1, 'b': 2, 'a': 3}") =
  Returned (PDict [(u "a", PInt 3); (u "b", PInt 2)]).
Proof. vm_compute. reflexivity. Qed.

Example loads_rejects :
  RefJson.loads (u "[1,]") = Raised JSONDecodeError ∧
  RefJson.loads (u "01") = Raised JSONDecodeError ∧
  RefJson.loads (u "1.") = Raised JSONDecodeError ∧
  RefJson.loads (u "{} x") = Raised JSONDecodeError ∧
  RefJson.loads (u "") = Raised JSONDecodeError.
Proof. repeat split; vm_compute; reflexivity. Qed.

(** ** The examples of the specification *)

Example str_of_Z_decimal :
  str_of_Z 0 = u "0" ∧ str_of_Z 15 = u "15" ∧ str_of_Z (-7) = u "-7".
Proof. repeat split; vm_compute; reflexivity. Qed.

(** Alice carries the host flag: exactly Bob's two sentences are returned,
    in their order. *)
Example attribution_end_to_end :
  get_lead_statements Ex.call None = [Ex.cost; Ex.budget].
Proof. vm_compute. reflexivity. Qed.

(** ["John Host"] is excluded by the marker ["host"]; a speaker without
    name and email is not excluded by any marker. *)
Example attribution_substring_marker :
  get_lead_statements Ex.john_call (Some [u "host"; u "s4"; u "hm"]) = [Ex.hm].
Proof. vm_compute. reflexivity. Qed.

(** Text around the object is tolerated. *)
Example ingestion_tolerance :
  ingest Ex.noisy_reply [] [] = Ok (Ex.empty_result 0 0).
Proof. vm_compute. reflexivity. Qed.

(** Of fifteen questions the first ten texts are kept, in their order. *)
Example common_questions_first_ten :
  AnalysisResult.common_questions <$>
    (match _build_result Ex.fifteen_questions [] [] with
     | Ok r => Some r
     | _ => None
     end)
  = Some (map (λ i, u "q" ++ str_of_Z i) (seqZ 1 10)).
Proof. vm_compute. reflexivity. Qed.

(** * Further properties *)

(** ** Attribution *)

Lemma filter_sublist_impl {A} (P Q : A → Prop)
    `{!∀ x, Decision (P x)} `{!∀ x, Decision (Q x)} (l : list A) :
  (∀ x, x ∈ l → P x → Q x) → filter P l `sublist_of` filter Q l.
Proof.
  induction l as [|x l IH]; intros Himp; [done|].
  rewrite !filter_cons.
  assert (filter P l `sublist_of` filter Q l) as IH'
    by (apply IH; intros y Hy; apply Himp; by right).
  destruct (decide (P x)) as [HP | HP].
  - rewrite decide_True by (apply Himp; [left | done]). by apply sublist_skip.
  - destruct (decide (Q x)); [by apply sublist_cons | done].
Qed.

Lemma filter_all {A} (P : A → Prop) `{!∀ x, Decision (P x)} (l : list A) :
  (∀ x, x ∈ l → P x) → filter P l = l.
Proof.
  induction l as [|x l IH]; intros Hall; [done|].
  rewrite filter_cons, decide_True by (apply Hall; left).
  f_equal. apply IH. intros y Hy. apply Hall. by right.
Qed.

Lemma occurs_in_singleton (c : N) (s : str) : occurs_in [c] s ↔ c ∈ s.
Proof.
  unfold occurs_in. split.
  - intros (pre & post & ->). apply elem_of_app. right. left.
  - intros Hin. apply list_elem_of_split in Hin as (pre & post & ->). by exists pre, post.
Qed.

(** X1.  The lead questions are the lead statements that hold a question
    mark, in their order: the sentences of the meeting whose speaker is not
    a host and whose text contains ['?']. *)
Theorem lead_questions_are_lead_statements_with_mark
    (M : Meeting.t) (H : option (list str)) :
  get_lead_questions M H `sublist_of` get_lead_statements M H ∧
  get_lead_questions M H `sublist_of` Meeting.sentences M ∧
  ∀ s, s ∈ get_lead_questions M H ↔
       s ∈ Meeting.sentences M ∧
       (Sentence.speaker_id s ∉ host_speaker_ids M H) ∧
       63%N ∈ Sentence.text s.
Proof.
  unfold get_lead_questions. split; [apply sublist_filter|]. split.
  - etrans; [apply sublist_filter|]. apply sublist_filter.
  - intros s. change (u "?") with [63%N].
    rewrite list_elem_of_filter, str_in_spec, occurs_in_singleton.
    unfold get_lead_statements. rewrite list_elem_of_filter. tauto.
Qed.

Lemma marker_matches_mono (markers markers' : gset str) (speaker : Speaker.t) :
  (∀ m, m ∈ markers → m ≠ [] → m ∈ markers') →
  marker_matches markers speaker → marker_matches markers' speaker.
Proof.
  intros Hsub (m & Hin & Hne & Ho). exists m. split; [by apply Hsub|]. done.
Qed.

Lemma host_markers_mono (M : Meeting.t) (H H' : list str) (m : str) :
  (∀ h, h ∈ H → h ≠ [] → h ∈ H') →
  m ∈ host_markers M (Some H) → m ≠ [] → m ∈ host_markers M (Some H').
Proof.
  intros Hsub Hin Hne. apply host_markers_spec. apply host_markers_spec in Hin.
  destruct Hin as [Hin | Hin]; [left; by apply Hsub | by right].
Qed.

Lemma host_speaker_ids_mono (M : Meeting.t) (H H' : list str) (x : str) :
  (∀ h, h ∈ H → h ≠ [] → h ∈ H') →
  x ∈ host_speaker_ids M (Some H) → x ∈ host_speaker_ids M (Some H').
Proof.
  intros Hsub. rewrite !host_speaker_ids_spec.
  intros (sp & Hin & Hid & [Hflag | Hm]); exists sp; (split; [done|]); (split; [done|]).
  - by left.
  - right. eapply marker_matches_mono; [|exact Hm].
    intros m. by apply host_markers_mono.
Qed.

(** X2.  More identifiers never bring a sentence back: when every
    non-empty identifier of [H] is among those of [H'], the lead statements
    for [H'] are a subsequence of those for [H].  Two lists with the same
    non-empty identifiers, in any order and with any repetitions or empty
    strings, give the same lead statements. *)
Theorem more_identifiers_fewer_lead_statements (M : Meeting.t) (H H' : list str) :
  ((∀ h, h ∈ H → h ≠ [] → h ∈ H') →
   get_lead_statements M (Some H') `sublist_of` get_lead_statements M (Some H)) ∧
  ((∀ h, h ≠ [] → h ∈ H ↔ h ∈ H') →
   get_lead_statements M (Some H') = get_lead_statements M (Some H)).
Proof.
  split.
  - intros Hsub. unfold get_lead_statements. apply filter_sublist_impl.
    intros s _ Hs Hin. apply Hs. by apply (host_speaker_ids_mono M H H').
  - intros Heq. unfold get_lead_statements. apply list_filter_iff. intros s.
    split; intros Hs Hin; apply Hs.
    + apply (host_speaker_ids_mono M H H'); [|done]. intros h Hh Hne. by apply Heq.
    + apply (host_speaker_ids_mono M H' H); [|done]. intros h Hh Hne. by apply Heq.
Qed.

Lemma more_identifiers_fewer_lead_statements_witness :
  (∀ h, h ∈ [u "alice"] → h ≠ [] → h ∈ [[]; u "bob"; u "alice"]) ∧
  get_lead_statements Ex.alice_bob (Some [[]; u "bob"; u "alice"])
    `sublist_of` get_lead_statements Ex.alice_bob (Some [u "alice"]).
Proof.
  assert (∀ h, h ∈ [u "alice"] → h ≠ [] → h ∈ [[]; u "bob"; u "alice"]) as Hsub.
  { intros h Hh _. apply list_elem_of_singleton in Hh as ->. do 2 right. left. }
  split; [exact Hsub|].
  by apply (more_identifiers_fewer_lead_statements Ex.alice_bob).
Defined.

(** X3.  A sentence whose [speaker_id] is the id of no speaker of the
    meeting is always a lead statement; a meeting without speakers returns
    all its sentences, whatever the identifiers. *)
Theorem unlisted_speakers_are_leads (M : Meeting.t) (H : option (list str)) :
  (∀ s, s ∈ Meeting.sentences M →
        (∀ speaker, speaker ∈ Meeting.speakers M →
                    Speaker.id speaker ≠ Sentence.speaker_id s) →
        s ∈ get_lead_statements M H) ∧
  (Meeting.speakers M = [] → get_lead_statements M H = Meeting.sentences M).
Proof.
  split.
  - intros s Hs Hno. unfold get_lead_statements. apply list_elem_of_filter.
    split; [|done]. rewrite host_speaker_ids_spec.
    intros (sp & Hin & Hid & _). by apply (Hno sp).
  - intros Hnil. unfold get_lead_statements. apply filter_all. intros s _.
    rewrite host_speaker_ids_spec, Hnil. intros (sp & Hin & _).
    by apply elem_of_nil in Hin.
Qed.

Lemma unlisted_speakers_are_leads_witness :
  Ex.hm ∈ get_lead_statements (Ex.meeting [Ex.alice_host] [Ex.welcome; Ex.hm]) None ∧
  get_lead_statements (Ex.meeting [] [Ex.welcome; Ex.hm]) (Some [u "alice"])
    = [Ex.welcome; Ex.hm].
Proof.
  split.
  - apply (unlisted_speakers_are_leads (Ex.meeting [Ex.alice_host] [Ex.welcome; Ex.hm])).
    + right. left.
    + intros speaker Hin. apply list_elem_of_singleton in Hin as ->.
      vm_compute. discriminate.
  - apply (unlisted_speakers_are_leads (Ex.meeting [] [Ex.welcome; Ex.hm])). reflexivity.
Defined.

Lemma lower_nil_inv (s : str) : lower s = [] → s = [].
Proof. by destruct s. Qed.

(** X4.  The meeting's own addresses are compared without regard to case:
    a speaker whose email equals the meeting's [host_email] or
    [organizer_email] up to letter case has no sentence among the lead
    statements, whatever identifiers the caller passes. *)
Theorem meeting_email_excludes_speaker
    (M : Meeting.t) (H : option (list str)) (speaker : Speaker.t) (e e' : str) :
  speaker ∈ Meeting.speakers M →
  Speaker.email speaker = Some e' →
  Meeting.host_email M = Some e ∨ Meeting.organizer_email M = Some e →
  e ≠ [] → lower e' = lower e →
  Forall (λ s, Sentence.speaker_id s ≠ Speaker.id speaker) (get_lead_statements M H).
Proof.
  intros Hsp He' He Hne Hlow. apply Forall_forall. intros s Hs Hid.
  unfold get_lead_statements in Hs. apply list_elem_of_filter in Hs as [Hs _].
  apply Hs. rewrite host_speaker_ids_spec. exists speaker.
  split; [done|]. split; [done|]. right. exists (lower e).
  assert (lower e ≠ []) as Hlne by (intros Hl; by apply lower_nil_inv in Hl).
  split; [|split; [done|]].
  - destruct H as [H|]; apply host_markers_spec; right; (split; [done|]);
      destruct He as [-> | ->]; simpl; auto.
  - right. rewrite He', lower_or_empty_lower. simpl. rewrite Hlow.
    exists [], []. by rewrite app_nil_r.
Qed.

Lemma meeting_email_excludes_speaker_witness :
  Forall (λ s, Sentence.speaker_id s ≠ u "s1")
    (get_lead_statements Ex.transcript_meeting None).
Proof.
  apply (meeting_email_excludes_speaker Ex.transcript_meeting None
           (Speaker.mk (u "s1") (Some (u "Ann")) (Some (u "ann@example.com"))
              (PInt 0) (PInt 0) false)
           (u "Ann@Example.com") (u "ann@example.com")).
  - left.
  - reflexivity.
  - left. reflexivity.
  - discriminate.
  - vm_compute. reflexivity.
Defined.

(** ** Analysis runs *)

Lemma build_result_empty `{PyLib} (ms : list Meeting.t) (ss : list Sentence.t) :
  _build_result (PDict []) ms ss =
  Ok (new_result (Z.of_nat (length ms)) (Z.of_nat (length ss))).
Proof. reflexivity. Qed.

Lemma all_lead_statements_sublist (ms : list Meeting.t) (ids : option (list str)) :
  all_lead_statements ms ids `sublist_of` flat_map Meeting.sentences ms.
Proof.
  unfold all_lead_statements. induction ms as [|m ms IH]; simpl; [done|].
  apply sublist_app; [|done]. unfold get_lead_statements. apply sublist_filter.
Qed.

(** X5.  Every result [analyze_meetings] returns counts the meetings it was
    given and the lead statements of all of them together; this count is at
    most the number of sentences of the meetings. *)
Theorem analyze_meetings_counts `{PyLib} (reply : result str)
    (ms : list Meeting.t) (ids : option (list str)) (r : AnalysisResult.t) :
  analyze_meetings reply ms ids = Ok r →
  AnalysisResult.meetings_analyzed r = Z.of_nat (length ms) ∧
  AnalysisResult.total_lead_statements r
    = Z.of_nat (length (all_lead_statements ms ids)) ∧
  (AnalysisResult.total_lead_statements r
     ≤ Z.of_nat (length (flat_map Meeting.sentences ms)))%Z.
Proof.
  intros Ha.
  assert (AnalysisResult.meetings_analyzed r = Z.of_nat (length ms) ∧
          AnalysisResult.total_lead_statements r
            = Z.of_nat (length (all_lead_statements ms ids))) as [Hm Hl].
  { unfold analyze_meetings in Ha. destruct ms as [|m ms].
    - injection Ha as <-. done.
    - destruct (all_lead_statements (m :: ms) ids) as [|s ss] eqn:E.
      + injection Ha as <-. done.
      + apply build_result_Ok in Ha.
        destruct Ha as (_ & _ & _ & _ & _ & _ & _ & _ & _ & _ & _ & -> & ->). done. }
  split; [done|]. split; [done|]. rewrite Hl.
  apply inj_le, sublist_length, all_lead_statements_sublist.
Qed.

Lemma analyze_meetings_counts_witness :
  ∃ r, analyze_meetings (Returned Ex.reply) [Ex.call] None = Ok r ∧
       AnalysisResult.meetings_analyzed r = 1%Z ∧
       AnalysisResult.total_lead_statements r = 2%Z.
Proof.
  destruct (analyze_meetings (Returned Ex.reply) [Ex.call] None) as [r| |] eqn:E;
    [|vm_compute in E; discriminate..].
  exists r. split; [reflexivity|].
  destruct (analyze_meetings_counts (Returned Ex.reply) [Ex.call] None r E)
    as (Hm & Hl & _).
  split; [exact Hm | exact Hl].
Defined.

Lemma all_lead_statements_nil (ms : list Meeting.t) (ids : option (list str)) :
  Forall (λ m, Forall (λ s, Sentence.speaker_id s ∈ host_speaker_ids m ids)
                 (Meeting.sentences m)) ms →
  all_lead_statements ms ids = [].
Proof.
  unfold all_lead_statements. induction 1 as [|m ms Hm _ IH]; simpl; [done|].
  rewrite IH, app_nil_r. unfold get_lead_statements.
  induction Hm as [|s ss Hs _ IHs]; [done|].
  rewrite filter_cons, decide_False; [done|]. by intros Hn.
Qed.

(** X6.  When every sentence of every meeting is spoken by a host, the
    result has no records, whatever the provider answered: it is the result
    with the number of meetings, zero lead statements and defaults
    elsewhere. *)
Theorem analyze_meetings_hosts_only `{PyLib} (reply : result str)
    (ms : list Meeting.t) (ids : option (list str)) :
  Forall (λ m, Forall (λ s, Sentence.speaker_id s ∈ host_speaker_ids m ids)
                 (Meeting.sentences m)) ms →
  analyze_meetings reply ms ids = Ok (new_result (Z.of_nat (length ms)) 0).
Proof.
  intros Hall. unfold analyze_meetings. rewrite (all_lead_statements_nil ms ids Hall).
  by destruct ms.
Qed.

Lemma analyze_meetings_hosts_only_witness :
  analyze_meetings (Returned Ex.reply) [Ex.meeting [Ex.alice_host] [Ex.welcome]] None
  = Ok (new_result 1 0).
Proof.
  apply (analyze_meetings_hosts_only (Returned Ex.reply)
           [Ex.meeting [Ex.alice_host] [Ex.welcome]] None).
  apply (bool_decide_unpack _). vm_compute. exact I.
Defined.

(** X7.  An exception of the provider call, an exception of the decoder
    and a reply from which no JSON can be read all end in the same way:
    [analyze_meetings] returns a result that counts the meetings and the
    lead statements and has no records. *)
Theorem analyze_meetings_survives_provider `{PyLib}
    (ms : list Meeting.t) (ids : option (list str)) :
  let fallback :=
    Ok (new_result (Z.of_nat (length ms))
          (Z.of_nat (length (all_lead_statements ms ids)))) in
  (∀ e, analyze_meetings (Raised e) ms ids = fallback) ∧
  (∀ response e, _parse_response response = Raised e →
                 analyze_meetings (Returned response) ms ids = fallback) ∧
  (∀ response, json_loads response = Raised JSONDecodeError →
               (∀ span, re_search_braces response = Some span →
                        json_loads span = Raised JSONDecodeError) →
               analyze_meetings (Returned response) ms ids = fallback).
Proof.
  intros fallback. subst fallback.
  assert (∀ reply,
            match reply with
            | Returned response =>
                match _parse_response response with
                | Returned v => v
                | Raised _ => PDict []
                end
            | Raised _ => PDict []
            end = PDict [] →
            analyze_meetings reply ms ids
            = Ok (new_result (Z.of_nat (length ms))
                    (Z.of_nat (length (all_lead_statements ms ids))))) as Hgen.
  { intros reply Hd. unfold analyze_meetings. rewrite Hd.
    destruct ms as [|m ms]; [done|].
    destruct (all_lead_statements (m :: ms) ids) as [|s ss] eqn:E; [done|].
    apply build_result_empty. }
  split; [|split].
  - intros e. by apply Hgen.
  - intros response e Hp. apply Hgen. by rewrite Hp.
  - intros response Hw Hs. apply Hgen.
    destruct (re_search_braces response) as [span|] eqn:E.
    + rewrite (parse_response_span response span Hw E), (Hs span eq_refl). done.
    + by rewrite (parse_response_no_span response Hw E).
Qed.

Lemma analyze_meetings_survives_provider_witness :
  json_loads (u "I cannot help with that.") = Raised JSONDecodeError ∧
  analyze_meetings (Returned (u "I cannot help with that.")) [Ex.call] None
  = Ok (new_result 1 2) ∧
  analyze_meetings (Raised OSError) [Ex.call] None = Ok (new_result 1 2).
Proof.
  assert (json_loads (u "I cannot help with that.") = Raised JSONDecodeError) as Hw
    by (vm_compute; reflexivity).
  split; [exact Hw|].
  destruct (analyze_meetings_survives_provider [Ex.call] None) as (Hr & _ & Hn).
  split.
  - apply Hn; [exact Hw|]. intros span Hs. vm_compute in Hs. discriminate.
  - apply Hr.
Defined.

(** ** The statements put into the prompt *)

Lemma format_loop_all (max_chars total_chars : Z) (statements : list Sentence.t) :
  (total_chars + total_length (map statement_line statements) ≤ max_chars)%Z →
  format_loop max_chars total_chars statements = map statement_line statements.
Proof.
  revert total_chars. induction statements as [|stmt rest IH]; intros t Hfit; [done|].
  rewrite format_loop_cons. change (map statement_line (stmt :: rest))
    with (statement_line stmt :: map statement_line rest) in *.
  rewrite total_length_cons in Hfit.
  assert (0 ≤ total_length (map statement_line rest))%Z as Hpos.
  { clear. induction (map statement_line rest) as [|l ls IHl]; [done|].
    rewrite total_length_cons. lia. }
  destruct (Z.gtb_spec (t + Z.of_nat (length (statement_line stmt))) max_chars) as [Hgt|Hle];
    [lia|].
  f_equal. apply IH. lia.
Qed.

Lemma total_length_app (l l' : list str) :
  total_length (l ++ l') = (total_length l + total_length l')%Z.
Proof.
  induction l as [|x l IH]; [done|].
  change ((x :: l) ++ l') with (x :: (l ++ l')). rewrite !total_length_cons, IH. lia.
Qed.

Lemma total_length_nonneg (l : list str) : (0 ≤ total_length l)%Z.
Proof. induction l as [|x l IH]; [done|]. rewrite total_length_cons. lia. Qed.

(** X8.  Nothing is cut when the lines fit: if the lengths of all lines add
    up to at most [max_chars], the prompt holds every statement.  If they add
    up to more (and the budget is not negative) at least one statement is
    left out, and the lines kept are strictly fewer than the statements. *)
Theorem format_statements_complete_iff_fits
    (statements : list Sentence.t) (max_chars : Z) :
  ((total_length (map statement_line statements) ≤ max_chars)%Z →
   _format_statements statements max_chars
   = join nl (map statement_line statements)) ∧
  ((0 ≤ max_chars < total_length (map statement_line statements))%Z →
   ∃ kept next dropped,
     map statement_line statements = kept ++ next :: dropped ∧
     _format_statements statements max_chars = join nl kept ∧
     (max_chars < total_length kept + Z.of_nat (length next))%Z).
Proof.
  split.
  - intros Hfit. unfold _format_statements. by rewrite format_loop_all.
  - intros Hover. unfold _format_statements.
    destruct (format_loop_prefix max_chars 0 statements) as [rest Hrest].
    destruct rest as [|next dropped].
    + exfalso. rewrite app_nil_r in Hrest.
      pose proof (format_loop_total max_chars 0 statements (proj1 Hover)) as Ht.
      rewrite <- Hrest in Ht. lia.
    + exists (format_loop max_chars 0 statements), next, dropped.
      split; [done|]. split; [done|].
      pose proof (format_loop_stops max_chars 0 statements next) as Hs.
      rewrite Z.add_0_l in Hs. apply Hs.
      exists dropped. rewrite <- app_assoc. exact Hrest.
Qed.

Lemma format_statements_complete_iff_fits_witness :
  (total_length (map statement_line [Ex.welcome; Ex.cost]) ≤ 50)%Z ∧
  _format_statements [Ex.welcome; Ex.cost] 50
  = join nl (map statement_line [Ex.welcome; Ex.cost]) ∧
  (0 ≤ 20 < total_length (map statement_line [Ex.welcome; Ex.cost]))%Z ∧
  ∃ kept next dropped,
    map statement_line [Ex.welcome; Ex.cost] = kept ++ next :: dropped ∧
    _format_statements [Ex.welcome; Ex.cost] 20 = join nl kept ∧
    (20 < total_length kept + Z.of_nat (length next))%Z.
Proof.
  assert (total_length (map statement_line [Ex.welcome; Ex.cost]) ≤ 50)%Z as Hfit
    by (vm_compute; discriminate).
  assert (0 ≤ 20 < total_length (map statement_line [Ex.welcome; Ex.cost]))%Z as Hover
    by (split; [discriminate | vm_compute; reflexivity]).
  split; [exact Hfit|]. split; [|split; [exact Hover|]].
  - apply (format_statements_complete_iff_fits [Ex.welcome; Ex.cost] 50). exact Hfit.
  - apply (format_statements_complete_iff_fits [Ex.welcome; Ex.cost] 20). exact Hover.
Defined.

(** ** Reading the reply *)

(** X9.  [_parse_response] never raises [JSONDecodeError].  When the whole
    text is no JSON, what is decoded is the text from its first opening
    brace to its last closing brace: the words before and after are not
    read, and if that span is no JSON either the result is the empty
    dict. *)
Theorem parse_response_reads_outermost_braces `{PyLib} (pre body post : str) :
  (∀ response, _parse_response response ≠ Raised JSONDecodeError) ∧
  (json_loads (pre ++ [123%N] ++ body ++ [125%N] ++ post) = Raised JSONDecodeError →
   123%N ∉ pre → 125%N ∉ post →
   _parse_response (pre ++ [123%N] ++ body ++ [125%N] ++ post) =
     match json_loads ([123%N] ++ body ++ [125%N]) with
     | Raised JSONDecodeError => Returned (PDict [])
     | r => r
     end).
Proof.
  split.
  - intros response. unfold _parse_response.
    destruct (json_loads response) as [v|[]]; try done.
    destruct (re_search_braces response) as [span|]; [|done].
    by destruct (json_loads span) as [v|[]].
  - intros Hw Hpre Hpost. apply parse_response_span; [done|].
    apply re_search_braces_spec. by exists pre, body, post.
Qed.

Lemma parse_response_reads_outermost_braces_witness :
  json_loads (u "some preamble... " ++ [123%N] ++ Ex.js "'pain_points': []"
                ++ [125%N] ++ u " trailing notes") = Raised JSONDecodeError ∧
  (123%N ∉ u "some preamble... ") ∧ (125%N ∉ u " trailing notes") ∧
  _parse_response (u "some preamble... " ++ [123%N] ++ Ex.js "'pain_points': []"
                     ++ [125%N] ++ u " trailing notes")
  = Returned (PDict [(u "pain_points", PList [])]).
Proof.
  assert (json_loads (u "some preamble... " ++ [123%N] ++ Ex.js "'pain_points': []"
                        ++ [125%N] ++ u " trailing notes") = Raised JSONDecodeError)
    as Hw by (vm_compute; reflexivity).
  assert (123%N ∉ u "some preamble... ") as Hpre
    by (apply (bool_decide_unpack _); vm_compute; exact I).
  assert (125%N ∉ u " trailing notes") as Hpost
    by (apply (bool_decide_unpack _); vm_compute; exact I).
  split; [exact Hw|]. split; [exact Hpre|]. split; [exact Hpost|].
  destruct (parse_response_reads_outermost_braces
              (u "some preamble... ") (Ex.js "'pain_points': []") (u " trailing notes"))
    as [_ Hspan].
  rewrite (Hspan Hw Hpre Hpost). vm_compute. reflexivity.
Defined.

(** ** Building the result *)

(** X10.  [_build_result] reads nine keys of the response object and no
    other: two objects that agree on these keys (whatever else they hold, in
    whatever order) give the same outcome. *)
Theorem build_result_reads_nine_keys `{PyLib} (d d' : list (str * pyval))
    (ms : list Meeting.t) (ss : list Sentence.t) :
  (∀ k, k ∈ record_keys ++ copied_keys → dict_get d (u k) = dict_get d' (u k)) →
  _build_result (PDict d) ms ss = _build_result (PDict d') ms ss.
Proof.
  intros Hk. unfold _build_result, records, passthrough, py_get.
  rewrite (Hk "customer_profiles"%string), (Hk "pain_points"%string),
    (Hk "questions"%string), (Hk "objections"%string),
    (Hk "language_patterns"%string), (Hk "value_propositions"%string),
    (Hk "marketing_recommendations"%string), (Hk "messaging_guidelines"%string),
    (Hk "conversion_triggers"%string); [done|..];
    apply (bool_decide_unpack _); vm_compute; exact I.
Qed.

Lemma build_result_reads_nine_keys_witness :
  _build_result (PDict Ex.reply_object) [] []
  = _build_result (PDict ((u "note", PNone) :: reverse Ex.reply_object)) [] [].
Proof.
  apply (build_result_reads_nine_keys Ex.reply_object
           ((u "note", PNone) :: reverse Ex.reply_object) [] []).
  intros k Hk.
  repeat (apply elem_of_cons in Hk as [-> | Hk]; [vm_compute; reflexivity|]).
  by apply elem_of_nil in Hk.
Defined.

Lemma total_count_insert (top : gmap str Z) (c : str) (n : Z) :
  total_count (<[c := n]> top) = (total_count top - default 0 (top !! c) + n)%Z.
Proof.
  unfold total_count.
  assert (∀ (m : gmap str Z) (j1 j2 : str) (z1 z2 y : Z),
            j1 ≠ j2 → m !! j1 = Some z1 → m !! j2 = Some z2 →
            (z1 + (z2 + y) = z2 + (z1 + y))%Z) as Hcomm by (intros; lia).
  destruct (top !! c) as [w|] eqn:E; simpl.
  - rewrite <- (insert_delete_eq top).
    rewrite (map_fold_insert_L _ _ c n (delete c top));
      [|apply Hcomm | apply lookup_delete_eq].
    rewrite (map_fold_delete_L _ _ c w top); [lia | apply Hcomm | done].
  - rewrite (map_fold_insert_L _ _ c n top); [lia | apply Hcomm | done].
Qed.

Lemma total_count_foldl (l : list PainPoint.t) (top : gmap str Z) :
  total_count (foldl count_category top l) = (total_count top + Z.of_nat (length l))%Z.
Proof.
  revert top. induction l as [|pp l IH]; intros top; simpl; [lia|].
  rewrite IH. unfold count_category. rewrite total_count_insert. lia.
Qed.

(** X11.  In every result [_build_result] returns the counts of
    [top_pain_categories] add up to the number of pain points: each pain
    point is counted once, under one category. *)
Theorem category_counts_add_up `{PyLib} (data : pyval)
    (ms : list Meeting.t) (ss : list Sentence.t) (r : AnalysisResult.t) :
  _build_result data ms ss = Ok r →
  total_count (AnalysisResult.top_pain_categories r)
  = Z.of_nat (length (AnalysisResult.pain_points r)).
Proof.
  intros Hb. apply build_result_Ok in Hb.
  destruct Hb as (_ & _ & _ & _ & _ & _ & _ & _ & _ & -> & _).
  unfold count_categories. rewrite total_count_foldl. done.
Qed.

Lemma category_counts_add_up_witness :
  _build_result Ex.three_pains [] [] = Ok Ex.three_pains_result ∧
  total_count (AnalysisResult.top_pain_categories Ex.three_pains_result) = 3%Z.
Proof.
  assert (_build_result Ex.three_pains [] [] = Ok Ex.three_pains_result) as Hb
    by (vm_compute; reflexivity).
  split; [exact Hb|].
  exact (category_counts_add_up Ex.three_pains [] [] Ex.three_pains_result Hb).
Defined.

Lemma records_elements_built {A} (f : pyval → outcome A) d (k : string)
    (l : list pyval) (ys : list A) (x : pyval) :
  dict_get d (u k) = Some (PList l) → records f (PDict d) k = Ok ys → x ∈ l →
  ∃ y, f x = Ok y.
Proof.
  intros Hd Hr Hx. unfold records, py_get in Hr. rewrite Hd in Hr. simpl in Hr.
  apply for_each_Forall2 in Hr.
  apply list_elem_of_lookup in Hx as [i Hi].
  destruct (Forall2_lookup_l _ _ _ i x Hr Hi) as (y & _ & Hy). eauto.
Qed.

Lemma built_record_is_object (k : string) (x : pyval) :
  k ∈ record_keys →
  match k with
  | "customer_profiles" => ∃ y, build_customer_profile x = Ok y
  | "pain_points" => ∃ y, build_pain_point x = Ok y
  | "questions" => ∃ y, build_question x = Ok y
  | "objections" => ∃ y, build_objection x = Ok y
  | _ => ∃ y, build_language_pattern x = Ok y
  end%string →
  ∃ o, x = PDict o.
Proof.
  intros Hk.
  repeat (apply elem_of_cons in Hk as [-> | Hk];
          [intros [y Hy]; destruct x; try discriminate Hy; eauto|]).
  by apply elem_of_nil in Hk.
Qed.

(** X12.  One element that is not an object is enough to lose the whole
    result: if the array of one of the five record categories holds an
    element that is not a JSON object (a string, a number, [null], a nested
    array), [_build_result] returns no result. *)
Theorem non_object_record_yields_no_result `{PyLib} (d : list (str * pyval))
    (ms : list Meeting.t) (ss : list Sentence.t)
    (k : string) (l : list pyval) (x : pyval) (r : AnalysisResult.t) :
  k ∈ record_keys → dict_get d (u k) = Some (PList l) →
  x ∈ l → (∀ o, x ≠ PDict o) →
  _build_result (PDict d) ms ss ≠ Ok r.
Proof.
  intros Hk Hd Hx Hno Hb. apply build_result_Ok in Hb.
  destruct Hb as (H1 & H2 & H3 & H4 & H5 & _).
  destruct (built_record_is_object k x Hk) as [o ->]; [|by apply (Hno o)].
  repeat (apply elem_of_cons in Hk as [-> | Hk];
          [eapply records_elements_built; eassumption|]).
  by apply elem_of_nil in Hk.
Qed.

Lemma non_object_record_yields_no_result_witness :
  ("questions"%string ∈ record_keys) ∧
  ∀ r, _build_result
         (PDict [(u "questions",
                  PList [PDict [(u "text", PStr (u "Why?"))]; PStr (u "Why?")])])
         [] [] ≠ Ok r.
Proof.
  assert ("questions"%string ∈ record_keys) as Hk by (do 2 right; left).
  split; [exact Hk|]. intros r.
  apply (non_object_record_yields_no_result
           [(u "questions", PList [PDict [(u "text", PStr (u "Why?"))]; PStr (u "Why?")])]
           [] [] "questions"
           [PDict [(u "text", PStr (u "Why?"))]; PStr (u "Why?")]
           (PStr (u "Why?")) r Hk).
  - reflexivity.
  - right. left.
  - intros o. discriminate.
Defined.

(** ** Grouping by category in the report *)

Lemma dict_get_group_add {A} (cat c : str) (x : A) (g : list (str * list A)) :
  dict_get (group_add cat x g) c =
  if decide (c = cat) then Some (default [] (dict_get g c) ++ [x]) else dict_get g c.
Proof.
  induction g as [|[c' xs] g IH]; simpl.
  - destruct (decide (cat = c)) as [->|Hne].
    + by rewrite decide_True.
    + by rewrite decide_False.
  - destruct (decide (c' = cat)) as [->|Hne]; simpl.
    + destruct (decide (cat = c)) as [->|Hne'].
      * by rewrite decide_True.
      * by rewrite decide_False.
    + destruct (decide (c' = c)) as [->|Hne'].
      * by rewrite decide_False.
      * exact IH.
Qed.

Lemma dict_get_foldl_group_add {A} (key : A → str) (l : list A)
    (g : list (str * list A)) (c : str) :
  dict_get (foldl (λ by_category x, group_add (key x) x by_category) g l) c =
  match filter (λ x, key x = c) l with
  | [] => dict_get g c
  | items => Some (default [] (dict_get g c) ++ items)
  end.
Proof.
  revert g. induction l as [|x l IH]; intros g; [done|].
  simpl. rewrite IH, dict_get_group_add, filter_cons.
  destruct (decide (key x = c)) as [<-|Hne].
  - rewrite decide_True by done. simpl.
    destruct (filter _ l) as [|y ys]; [done|]. by rewrite <- app_assoc.
  - by rewrite decide_False by done.
Qed.

Lemma group_add_keys {A} (cat : str) (x : A) (g : list (str * list A)) (k : str) :
  k ∈ (group_add cat x g).*1 ↔ k = cat ∨ k ∈ g.*1.
Proof.
  induction g as [|[c xs] g IH]; simpl.
  - rewrite list_elem_of_singleton. pose proof (not_elem_of_nil k). tauto.
  - destruct (decide (c = cat)) as [->|Hne]; simpl; rewrite !elem_of_cons; [tauto|].
    rewrite IH. tauto.
Qed.

Lemma group_add_NoDup {A} (cat : str) (x : A) (g : list (str * list A)) :
  NoDup g.*1 → NoDup (group_add cat x g).*1.
Proof.
  induction g as [|[c xs] g IH]; simpl; intros Hnd.
  - apply NoDup_singleton.
  - apply NoDup_cons in Hnd as [Hc Hnd].
    destruct (decide (c = cat)) as [->|Hne]; simpl.
    + by apply NoDup_cons.
    + apply NoDup_cons. split; [|by apply IH].
      rewrite group_add_keys. intros [-> | Hin]; done.
Qed.

Lemma group_by_NoDup {A} (key : A → str) (l : list A) : NoDup (group_by key l).*1.
Proof.
  unfold group_by. generalize (NoDup_nil_2 (A := str)).
  change (@nil str) with ((@nil (str * list A)).*1).
  generalize (@nil (str * list A)). induction l as [|x l IH]; intros g Hg; [done|].
  simpl. apply IH. by apply group_add_NoDup.
Qed.

Lemma dict_get_elem_of {V} (d : list (str * V)) (k : str) (v : V) :
  NoDup d.*1 → (k, v) ∈ d ↔ dict_get d k = Some v.
Proof.
  induction d as [|[k' v'] d IH]; simpl; intros Hnd.
  - split; [intros Hin; by apply elem_of_nil in Hin | done].
  - apply NoDup_cons in Hnd as [Hk Hnd]. rewrite elem_of_cons.
    destruct (decide (k' = k)) as [->|Hne].
    + split.
      * intros [[= ->] | Hin]; [done|]. exfalso. apply Hk.
        apply list_elem_of_fmap. by exists (k, v).
      * intros [= ->]. by left.
    + rewrite <- (IH Hnd). split; [|by right].
      intros [[= <- <-] | Hin]; done.
Qed.

Lemma group_by_spec {A} (key : A → str) (l : list A) (c : str) (items : list A) :
  (c, items) ∈ group_by key l ↔ items ≠ [] ∧ items = filter (λ x, key x = c) l.
Proof.
  rewrite (dict_get_elem_of _ _ _ (group_by_NoDup key l)).
  unfold group_by. rewrite dict_get_foldl_group_add. simpl.
  destruct (filter (λ x, key x = c) l) as [|y ys]; split.
  - done.
  - intros [Hne ->]. done.
  - intros [= <-]. done.
  - intros [_ ->]. done.
Qed.

(** X13.  Grouping by category in the report loses nothing and repeats
    nothing: no category heads two groups, and the groups are exactly the
    non-empty selections of the records by category, each in the order of
    the records. *)
Theorem grouping_partitions_records {A} (key : A → str) (l : list A) :
  NoDup (group_by key l).*1 ∧
  ∀ c items, (c, items) ∈ group_by key l ↔
             items ≠ [] ∧ items = filter (λ x, key x = c) l.
Proof. split; [apply group_by_NoDup | apply group_by_spec]. Qed.

Lemma group_by_elem {A} (key : A → str) (l : list A) (x : A) :
  x ∈ l → ∃ items, (key x, items) ∈ group_by key l ∧ x ∈ items.
Proof.
  intros Hx. exists (filter (λ y, key y = key x) l).
  assert (x ∈ filter (λ y, key y = key x) l) as Hin by (by apply list_elem_of_filter).
  split; [|done]. apply group_by_spec. split; [|done].
  intros Hnil. rewrite Hnil in Hin. by apply elem_of_nil in Hin.
Qed.

Lemma grouped_lines_elem {A} (item_lines : A → list str) (key : A → str)
    (l : list A) (x : A) (line : str) :
  x ∈ l → line ∈ item_lines x ∨ line = u "### " ++ key x →
  line ∈ grouped_lines item_lines (group_by key l).
Proof.
  intros Hx Hline. destruct (group_by_elem key l x Hx) as (items & Hg & Hin).
  unfold grouped_lines. apply elem_of_flat_map. exists (key x, items).
  split; [done|]. simpl. destruct Hline as [Hline | ->].
  - do 2 apply list_elem_of_further. apply elem_of_flat_map. eauto.
  - apply list_elem_of_here.
Qed.

(** The texts of every pain point and every question are among the texts
    [_build_markdown] joins. *)
Lemma grouped_records_in_markdown_lines `{PyLib} (r : AnalysisResult.t) :
  (∀ pp, pp ∈ AnalysisResult.pain_points r →
     (u "### " ++ str_or (PainPoint.category pp) (u "Sonstiges")) ∈ markdown_lines r ∧
     (u "> " ++ dq ++ PainPoint.direct_quote pp ++ dq) ∈ markdown_lines r) ∧
  (∀ q, q ∈ AnalysisResult.questions r →
     (u "### " ++ str_or (Question.category q) (u "Allgemein")) ∈ markdown_lines r ∧
     (u "**Frage:** " ++ dq ++ Question.text q ++ dq) ∈ markdown_lines r).
Proof.
  split.
  - intros pp Hin.
    assert (∀ line,
              line ∈ pain_point_lines pp ∨
              line = u "### " ++ str_or (PainPoint.category pp) (u "Sonstiges") →
              line ∈ markdown_lines r) as Hline.
    { intros line Hl. unfold markdown_lines, markdown_sections. cbn [concat].
      apply elem_of_app. right. apply elem_of_app. right. apply elem_of_app. left.
      destruct (AnalysisResult.pain_points r) as [|p pps] eqn:Hp;
        [by apply elem_of_nil in Hin|].
      unfold section. do 2 apply list_elem_of_further.
      by apply (grouped_lines_elem _ _ _ pp). }
    split; apply Hline; [by right | left].
    unfold pain_point_lines. apply elem_of_app. left.
    do 2 apply list_elem_of_further. apply list_elem_of_here.
  - intros q Hin.
    assert (∀ line,
              line ∈ question_lines q ∨
              line = u "### " ++ str_or (Question.category q) (u "Allgemein") →
              line ∈ markdown_lines r) as Hline.
    { intros line Hl. unfold markdown_lines, markdown_sections. cbn [concat].
      apply elem_of_app. right. do 2 (apply elem_of_app; right). apply elem_of_app. left.
      destruct (AnalysisResult.questions r) as [|q' qs] eqn:Hq;
        [by apply elem_of_nil in Hin|].
      unfold section. do 2 apply list_elem_of_further.
      by apply (grouped_lines_elem _ _ _ q). }
    split; apply Hline; [by right | left].
    unfold question_lines. apply elem_of_app. left. apply list_elem_of_here.
Qed.

(** ** Language patterns in the report *)

Lemma filter_filter_impl {A} (P Q : A → Prop)
    `{!∀ x, Decision (P x)} `{!∀ x, Decision (Q x)} (l : list A) :
  (∀ x, P x → Q x) → filter P (filter Q l) = filter P l.
Proof.
  intros Himp. induction l as [|x l IH]; [done|].
  rewrite !filter_cons. destruct (decide (Q x)) as [HQ|HQ].
  - rewrite filter_cons. destruct (decide (P x)); by rewrite IH.
  - rewrite decide_False by (intros HP; by apply HQ, Himp). done.
Qed.

Lemma language_lines_known_only (patterns : list LanguagePattern.t) :
  flat_map (language_category_lines patterns) language_categories
  = flat_map (language_category_lines (filter known_category patterns))
      language_categories.
Proof.
  assert (∀ cat, cat ∈ language_categories →
            language_category_lines patterns cat
            = language_category_lines (filter known_category patterns) cat) as Hcat.
  { intros cat Hcat. unfold language_category_lines.
    rewrite (filter_filter_impl _ known_category); [done|].
    intros lp Hlp. unfold known_category. rewrite Hlp.
    apply list_elem_of_fmap. by exists cat. }
  clear -Hcat. induction language_categories as [|cat cats IH]; [done|].
  simpl. rewrite Hcat by left. f_equal. apply IH. intros c Hc. apply Hcat. by right.
Qed.

(** X15.  The report shows the language patterns of the four named
    categories only.  Of the language patterns of a result it depends on two
    things: whether there is any, and which of them have one of the four
    categories; patterns of another category leave no line in it. *)
Theorem unknown_language_categories_not_rendered `{PyLib}
    (r : AnalysisResult.t) (patterns : list LanguagePattern.t) :
  filter known_category patterns
    = filter known_category (AnalysisResult.language_patterns r) →
  (patterns = [] ↔ AnalysisResult.language_patterns r = []) →
  _build_markdown (with_language_patterns r patterns) = _build_markdown r.
Proof.
  intros Hknown Hnil. unfold _build_markdown, markdown_lines. f_equal. f_equal.
  unfold markdown_sections. cbn [with_language_patterns AnalysisResult.customer_profiles
    AnalysisResult.pain_points AnalysisResult.questions AnalysisResult.objections
    AnalysisResult.language_patterns AnalysisResult.value_propositions
    AnalysisResult.marketing_recommendations AnalysisResult.messaging_guidelines
    AnalysisResult.conversion_triggers].
  do 4 f_equal.
  rewrite (language_lines_known_only patterns), Hknown, <- language_lines_known_only.
  destruct patterns as [|lp lps], (AnalysisResult.language_patterns r) as [|lp' lps'];
    try done.
  - destruct Hnil as [Hnil _]. by specialize (Hnil eq_refl).
  - destruct Hnil as [_ Hnil]. by specialize (Hnil eq_refl).
Qed.

Lemma unknown_language_categories_not_rendered_witness :
  _build_markdown
    (with_language_patterns Ex.slang_pattern_result
       [LanguagePattern.mk (u "jargon") (u "ROI") [] (u "Bob") 1;
        LanguagePattern.mk [] (u "churn") [] (u "Bob") 1])
  = _build_markdown Ex.slang_pattern_result.
Proof.
  apply (unknown_language_categories_not_rendered Ex.slang_pattern_result
           [LanguagePattern.mk (u "jargon") (u "ROI") [] (u "Bob") 1;
            LanguagePattern.mk [] (u "churn") [] (u "Bob") 1]).
  - vm_compute. reflexivity.
  - split; discriminate.
Defined.

(** ** Transcripts with missing parts *)

Lemma dict_get_cons {V} (k k' : str) (v : V) (d : list (str * V)) :
  dict_get ((k, v) :: d) k' = if decide (k = k') then Some v else dict_get d k'.
Proof. reflexivity. Qed.

Lemma parse_transcript_falsy_key `{PyLib} (d : list (str * pyval))
    (k : string) (v : pyval) :
  k ∈ ["summary"; "ai_filters"; "participants"]%string →
  dict_get d (u k) = None → truthy v = false →
  _parse_transcript (PDict ((u k, v) :: d)) = _parse_transcript (PDict d).
Proof.
  intros Hk Hnone Hv.
  unfold _parse_transcript, records, get_or_default, get_str, get_opt_str,
    get_number, py_get.
  repeat (apply elem_of_cons in Hk as [-> | Hk];
          [rewrite !dict_get_cons;
           repeat (rewrite decide_False by (vm_compute; discriminate));
           rewrite decide_True by reflexivity; rewrite Hnone;
           simpl; unfold py_or; rewrite Hv; reflexivity|]).
  by apply elem_of_nil in Hk.
Qed.

(** X16.  [_parse_transcript] tolerates a missing part and a [null] part
    differently.  [speakers] or [sentences] present with [null] (or another
    value that cannot be iterated) raises [TypeError]; [summary],
    [ai_filters] and [participants] present with [null] or another falsy
    value are read as if the key were absent. *)
Theorem parse_transcript_null_parts `{PyLib} (d : list (str * pyval)) :
  (∀ v, dict_get d (u "speakers") = Some v → not_iterable v = true →
        _parse_transcript (PDict d) = Raise TypeError) ∧
  (∀ v speakers, records parse_speaker (PDict d) "speakers" = Ok speakers →
        dict_get d (u "sentences") = Some v → not_iterable v = true →
        _parse_transcript (PDict d) = Raise TypeError) ∧
  (∀ k v, k ∈ ["summary"; "ai_filters"; "participants"]%string →
        dict_get d (u k) = None → truthy v = false →
        _parse_transcript (PDict ((u k, v) :: d)) = _parse_transcript (PDict d)).
Proof.
  split; [|split].
  - intros v Hd Hv. unfold _parse_transcript.
    by rewrite (records_not_iterable parse_speaker d "speakers" v Hd Hv).
  - intros v speakers Hs Hd Hv. unfold _parse_transcript. rewrite Hs. simpl.
    by rewrite (records_not_iterable parse_sentence d "sentences" v Hd Hv).
  - intros k v. apply parse_transcript_falsy_key.
Qed.

Lemma parse_transcript_null_parts_witness :
  _parse_transcript (PDict [(u "id", PStr (u "t1")); (u "speakers", PNone)])
    = Raise TypeError ∧
  _parse_transcript (PDict [(u "id", PStr (u "t1")); (u "sentences", PNone)])
    = Raise TypeError ∧
  _parse_transcript (PDict [(u "summary", PNone); (u "id", PStr (u "t1"))])
    = _parse_transcript (PDict [(u "id", PStr (u "t1"))]).
Proof.
  split; [|split].
  - apply (parse_transcript_null_parts [(u "id", PStr (u "t1")); (u "speakers", PNone)])
      with (v := PNone); reflexivity.
  - apply (parse_transcript_null_parts [(u "id", PStr (u "t1")); (u "sentences", PNone)])
      with (v := PNone) (speakers := []); reflexivity.
  - apply (parse_transcript_null_parts [(u "id", PStr (u "t1"))]).
    + left.
    + reflexivity.
    + reflexivity.
Defined.

(** ** Identifiers with capital letters *)

Lemma lower_cp_not_capital (c : N) : ¬ (65 ≤ lower_cp c ≤ 90)%N.
Proof.
  unfold lower_cp.
  destruct ((65 <=? c)%N && (c <=? 90)%N || (192 <=? c)%N && (c <=? 222)%N && negb (c =? 215)%N)
    eqn:E; [|].
  - apply orb_true_iff in E as [E | E].
    + apply andb_true_iff in E as [E1 E2]. apply N.leb_le in E1, E2. lia.
    + apply andb_true_iff in E as [E _]. apply andb_true_iff in E as [E1 E2].
      apply N.leb_le in E1, E2. lia.
  - apply orb_false_iff in E as [E _]. apply andb_false_iff in E as [E | E];
      apply N.leb_gt in E; lia.
Qed.

Lemma capital_never_occurs_lowered (marker s : str) (c : N) :
  c ∈ marker → (65 ≤ c ≤ 90)%N → ¬ occurs_in marker (lower s).
Proof.
  intros Hc Hcap (pre & post & Hs).
  assert (c ∈ lower s) as Hin.
  { rewrite Hs. apply elem_of_app. right. apply elem_of_app. by left. }
  unfold lower in Hin. apply list_elem_of_fmap in Hin as (c' & -> & _).
  by apply (lower_cp_not_capital c').
Qed.

(** X17.  An identifier of the caller that holds a capital letter A to Z
    marks nobody: names and emails are lowered before the comparison and the
    identifier is not.  With only such identifiers the lead statements are
    those computed without identifiers. *)
Theorem capital_identifiers_mark_nobody (M : Meeting.t) (ids : list str) :
  Forall has_capital ids →
  get_lead_statements M (Some ids) = get_lead_statements M None.
Proof.
  intros Hcap. unfold get_lead_statements. apply list_filter_iff. intros s.
  assert (∀ x, x ∈ host_speaker_ids M (Some ids) ↔ x ∈ host_speaker_ids M None) as Hsame.
  { intros x. rewrite !host_speaker_ids_spec.
    assert (∀ speaker, marker_matches (host_markers M (Some ids)) speaker ↔
                       marker_matches (host_markers M None) speaker) as Hm.
    { intros speaker. split.
      - intros (m & Hin & Hne & Ho). exists m. split; [|done].
        apply host_markers_spec in Hin as [Hin | Hin];
          [|apply host_markers_spec; by right].
        exfalso. simpl in Hin. rewrite Forall_forall in Hcap.
        destruct (Hcap m Hin) as (c & Hc & Hrange).
        rewrite !lower_or_empty_lower in Ho.
        destruct Ho as [Ho | Ho]; by apply (capital_never_occurs_lowered m _ c) in Ho.
      - intros (m & Hin & Hne & Ho). exists m. split; [|done].
        apply host_markers_spec in Hin as [Hin | Hin];
          [by apply elem_of_nil in Hin | apply host_markers_spec; by right]. }
    unfold classified_host. split; intros (sp & Hin & Hid & Hc); exists sp;
      (split; [done|]); (split; [done|]); rewrite Hm in *; done. }
  by rewrite Hsame.
Qed.

Lemma capital_identifiers_mark_nobody_witness :
  Forall has_capital [u "Alice"; u "BOB"] ∧
  get_lead_statements Ex.alice_bob (Some [u "Alice"; u "BOB"])
  = get_lead_statements Ex.alice_bob None.
Proof.
  assert (Forall has_capital [u "Alice"; u "BOB"]) as Hcap.
  { repeat constructor.
    - exists 65%N. split; [left | lia].
    - exists 66%N. split; [left | lia]. }
  split; [exact Hcap|].
  exact (capital_identifiers_mark_nobody Ex.alice_bob [u "Alice"; u "BOB"] Hcap).
Defined.

(** ** Host identifiers from the configuration and the front ends *)

Lemma lstrip_head (s : str) (c : N) : head (lstrip s) = Some c → is_space c = false.
Proof.
  induction s as [|x s IH]; simpl; [done|].
  destruct (is_space x) eqn:E; [done|]. simpl. by intros [= <-].
Qed.

Lemma lstrip_suffix (s : str) : lstrip s `suffix_of` s.
Proof.
  induction s as [|x s IH]; simpl; [done|].
  destruct (is_space x); [by apply suffix_cons_r | done].
Qed.

Lemma lstrip_id (s : str) :
  (∀ c, head s = Some c → is_space c = false) → lstrip s = s.
Proof. destruct s as [|x s]; simpl; [done|]. intros Hh. by rewrite (Hh x). Qed.

Lemma suffix_last (l1 l2 : str) (c : N) :
  l1 `suffix_of` l2 → last l1 = Some c → last l2 = Some c.
Proof. intros [k ->] Hl. rewrite last_app, Hl. done. Qed.

Lemma strip_no_outer_space (s : str) : no_outer_space (strip s).
Proof.
  unfold strip, rstrip. split; intros c.
  - rewrite head_reverse. intros Hl.
    apply (suffix_last _ _ _ (lstrip_suffix (reverse (lstrip s)))) in Hl.
    rewrite last_reverse in Hl. by apply lstrip_head in Hl.
  - rewrite last_reverse. apply lstrip_head.
Qed.

Lemma strip_id (e : str) : no_outer_space e → strip e = e.
Proof.
  intros [Hh Hl]. unfold strip, rstrip. rewrite (lstrip_id e Hh).
  rewrite lstrip_id; [apply reverse_involutive|].
  intros c. rewrite head_reverse. apply Hl.
Qed.

Lemma strip_elem (s : str) (c : N) : c ∈ strip s → c ∈ s.
Proof.
  unfold strip, rstrip. rewrite elem_of_reverse. intros Hc.
  pose proof (elem_of_suffix _ _ _ Hc (lstrip_suffix (reverse (lstrip s)))) as Hc'.
  rewrite elem_of_reverse in Hc'. exact (elem_of_suffix _ _ _ Hc' (lstrip_suffix s)).
Qed.

Lemma split_no_sep (sep : N) (s : str) : Forall (λ piece, sep ∉ piece) (split sep s).
Proof.
  induction s as [|c s IH]; simpl.
  - repeat constructor. apply not_elem_of_nil.
  - destruct (N.eqb_spec c sep) as [->|Hne].
    + constructor; [apply not_elem_of_nil | done].
    + destruct (split sep s) as [|piece pieces].
      * repeat constructor. rewrite list_elem_of_singleton. by intros ->.
      * apply Forall_cons in IH as [Hp Hps]. constructor; [|done].
        rewrite elem_of_cons. intros [-> | Hin]; done.
Qed.

Lemma split_cons (sep : N) (piece rest : str) :
  sep ∉ piece → split sep (piece ++ sep :: rest) = piece :: split sep rest.
Proof.
  induction piece as [|c piece IH]; intros Hp; simpl.
  - by rewrite N.eqb_refl.
  - destruct (N.eqb_spec c sep) as [->|Hne]; [exfalso; apply Hp; left|].
    rewrite IH; [done|]. intros Hin. apply Hp. by right.
Qed.

Lemma split_single (sep : N) (piece : str) : sep ∉ piece → split sep piece = [piece].
Proof.
  induction piece as [|c piece IH]; intros Hp; simpl; [done|].
  destruct (N.eqb_spec c sep) as [->|Hne]; [exfalso; apply Hp; left|].
  rewrite IH; [done|]. intros Hin. apply Hp. by right.
Qed.

Lemma stripped_clean (sep : N) (parts : list str) :
  Forall (λ piece, sep ∉ piece) parts → Forall (clean sep) (stripped parts).
Proof.
  unfold stripped. induction 1 as [|piece parts Hp _ IH]; simpl; [constructor|].
  apply Forall_app. split; [|done].
  destruct (strip piece) as [|c e] eqn:E; constructor; [|constructor].
  rewrite <- E. split; [by rewrite E|]. split.
  - intros Hin. by apply Hp, strip_elem.
  - apply strip_no_outer_space.
Qed.

Lemma stripped_id (sep : N) (es : list str) :
  Forall (clean sep) es → stripped es = es.
Proof.
  unfold stripped. induction 1 as [|e es (Hne & _ & Hs) _ IH]; simpl; [done|].
  rewrite (strip_id e Hs), IH. by destruct e.
Qed.

Lemma host_emails_unfold (self : Settings.t) :
  host_emails self = stripped (split 44 (Settings.host_emails_raw self)).
Proof. unfold host_emails. by destruct (Settings.host_emails_raw self). Qed.

(** X18.  The identifiers read from the configuration and from the front
    ends are never empty and have no blank at either end; those of
    [HOST_EMAILS] and of the command line hold no comma, those of the text
    area no line break.  An unset [HOST_EMAILS] gives no identifier. *)
Theorem host_identifiers_are_clean (settings : Settings.t) (text : str) :
  Forall (clean 44) (host_emails settings) ∧
  Forall (clean 44) (cli_host_identifiers text settings) ∧
  Forall (clean 10) (host_id_list text) ∧
  (Settings.host_emails_raw settings = [] → host_emails settings = []).
Proof.
  assert (Forall (clean 44) (host_emails settings)) as Hh
    by (rewrite host_emails_unfold; apply stripped_clean, split_no_sep).
  split; [done|]. split; [|split].
  - unfold cli_host_identifiers. apply Forall_app. split; [|done].
    apply stripped_clean, split_no_sep.
  - apply stripped_clean, split_no_sep.
  - unfold host_emails. by intros ->.
Qed.

Lemma split_join_comma_blank (e : str) (es : list str) :
  Forall (λ e, 44%N ∉ e) (e :: es) →
  split 44 (join (u ", ") (e :: es)) = e :: map (cons 32%N) es.
Proof.
  revert e. induction es as [|e' es IH]; intros e Hall.
  - apply Forall_cons in Hall as [He _]. by apply split_single.
  - apply Forall_cons in Hall as [He Hall].
    change (join (u ", ") (e :: e' :: es))
      with (e ++ 44%N :: 32%N :: join (u ", ") (e' :: es)).
    rewrite (split_cons 44 e _ He). f_equal.
    change (32%N :: join (u ", ") (e' :: es)) with ([32%N] ++ join (u ", ") (e' :: es)).
    specialize (IH e' Hall).
    assert (∀ s, split 44 ([32%N] ++ s) =
                 match split 44 s with
                 | piece :: pieces => (32%N :: piece) :: pieces
                 | [] => [[32%N]]
                 end) as Hs by done.
    rewrite Hs, IH. done.
Qed.

Lemma split_join_char (sep : N) (es : list str) :
  es ≠ [] → Forall (λ e, sep ∉ e) es → split sep (join [sep] es) = es.
Proof.
  intros Hne Hall. induction Hall as [|e es He Hall IH]; [done|].
  destruct es as [|e' es]; [by apply split_single|].
  change (join [sep] (e :: e' :: es)) with (e ++ sep :: join [sep] (e' :: es)).
  rewrite (split_cons sep e _ He), IH; done.
Qed.

Lemma stripped_blank_prefixed (sep : N) (es : list str) :
  Forall (clean sep) es → stripped (map (cons 32%N) es) = es.
Proof.
  unfold stripped. induction 1 as [|e es (Hne & _ & Hs) _ IH]; simpl; [done|].
  rewrite IH. change (strip (32%N :: e)) with (strip e).
  rewrite (strip_id e Hs). by destruct e.
Qed.

(** X19.  Written out and read again the identifiers come back: a list
    of clean entries joined with a comma and a blank is read from
    [HOST_EMAILS] as that list; and the text area of the dashboard, left
    with its default text, gives the configured identifiers as long as none
    of them holds a line break. *)
Theorem host_identifiers_round_trip (settings : Settings.t) (es : list str) :
  (Forall (clean 44) es →
   host_emails (with_host_emails_raw settings (join (u ", ") es)) = es) ∧
  (Forall (λ e, 10%N ∉ e) (host_emails settings) →
   host_id_list (sidebar_default settings) = host_emails settings).
Proof.
  split.
  - intros Hall. rewrite host_emails_unfold. simpl.
    destruct es as [|e es]; [done|].
    rewrite split_join_comma_blank
      by (eapply Forall_impl; [exact Hall | by intros x (_ & Hx & _)]).
    apply Forall_cons in Hall as [(Hne & _ & Hs) Hall].
    unfold stripped. simpl. rewrite (strip_id e Hs).
    fold (stripped (map (cons 32%N) es)). rewrite (stripped_blank_prefixed 44 es Hall).
    by destruct e.
  - intros Hnl. unfold host_id_list, sidebar_default.
    assert (Forall (clean 44) (host_emails settings)) as Hc
      by (rewrite host_emails_unfold; apply stripped_clean, split_no_sep).
    destruct (host_emails settings) as [|e0 es0] eqn:E; [done|].
    rewrite (split_join_char 10) by done.
    apply (stripped_id 44). done.
Qed.

Lemma host_identifiers_round_trip_witness :
  Forall (clean 44) [u "ann@example.com"; u "John Host"] ∧
  host_emails (with_host_emails_raw ExClient.settings
                 (join (u ", ") [u "ann@example.com"; u "John Host"]))
  = [u "ann@example.com"; u "John Host"] ∧
  Forall (λ e, 10%N ∉ e)
    (host_emails (with_host_emails_raw ExClient.settings
                    (u " ann@example.com ,John Host,, "))) ∧
  host_id_list (sidebar_default (with_host_emails_raw ExClient.settings
                                   (u " ann@example.com ,John Host,, ")))
  = host_emails (with_host_emails_raw ExClient.settings
                   (u " ann@example.com ,John Host,, ")).
Proof.
  assert (Forall (clean 44) [u "ann@example.com"; u "John Host"]) as Hall.
  { repeat constructor; try discriminate;
      try (apply (bool_decide_unpack _); vm_compute; exact I);
      intros c [= <-]; reflexivity. }
  assert (Forall (λ e, 10%N ∉ e)
            (host_emails (with_host_emails_raw ExClient.settings
                            (u " ann@example.com ,John Host,, ")))) as Hnl
    by (apply (bool_decide_unpack _); vm_compute; exact I).
  split; [exact Hall|]. split; [|split; [exact Hnl|]].
  - apply (host_identifiers_round_trip ExClient.settings
             [u "ann@example.com"; u "John Host"]).
    exact Hall.
  - apply (host_identifiers_round_trip
             (with_host_emails_raw ExClient.settings (u " ann@example.com ,John Host,, "))
             []).
    exact Hnl.
Defined.

(** X20.  [validate_config] reports ready exactly when it has no message,
    and that is when the Fireflies key is set, the provider is one of the
    two known ones and the key of that provider is set. *)
Theorem validate_config_ready_iff (settings : Settings.t) :
  let status := validate_config settings in
  (Status.ready status = true ↔ Status.messages status = []) ∧
  (Status.ready status = true ↔
   Settings.fireflies_api_key settings ≠ [] ∧
   ((Settings.ai_provider settings = u "anthropic" ∧
     Settings.anthropic_api_key settings ≠ []) ∨
    (Settings.ai_provider settings = u "openai" ∧
     Settings.openai_api_key settings ≠ []))).
Proof.
  unfold validate_config, missing.
  destruct (Settings.fireflies_api_key settings) as [|c1 k1],
    (Settings.anthropic_api_key settings) as [|c2 k2],
    (Settings.openai_api_key settings) as [|c3 k3];
    destruct (decide (Settings.ai_provider settings = u "anthropic")) as [Ha|Ha];
    try destruct (decide (Settings.ai_provider settings = u "openai")) as [Ho|Ho];
    simpl; try rewrite Ha; try rewrite Ho;
    (split; split; try done; try (intros [? [[? ?]|[? ?]]]; done);
     try (intros _; split; [done|]; first [by left | by right])).
Qed.

(** ** Requests of the client *)

(** X21.  [_make_request] returns only for a reply with status 200 whose
    body decodes to an object without an [errors] key, and then returns the
    value under [data] (the empty dict when there is none).  A body with an
    [errors] key is an error whatever it holds besides: data that came with
    it is dropped, also when the errors are [null] or an empty list. *)
Theorem make_request_returns_iff (post : option Response.t) :
  (∀ v, _make_request post = Fetched v ↔
        ∃ response d, post = Some response ∧
          Response.status_code response = 200%Z ∧
          Response.json response = Returned (PDict d) ∧
          dict_get d (u "errors") = None ∧
          v = default (PDict []) (dict_get d (u "data"))) ∧
  (∀ response d errors, post = Some response →
        Response.status_code response = 200%Z →
        Response.json response = Returned (PDict d) →
        dict_get d (u "errors") = Some errors →
        _make_request post = Failed (FirefliesAPIError (GraphQLErrors errors))).
Proof.
  split.
  - intros v. unfold _make_request. split.
    + destruct post as [response|]; [|done].
      destruct (Z.eqb_spec (Response.status_code response) 200) as [Hs|Hs]; [|done].
      simpl. destruct (Response.json response) as [data|e] eqn:Hj; [|done]. simpl.
      destruct data as [| | | | s|l|d]; try done.
      * by destruct (str_in _ s).
      * by destruct (existsb _ l).
      * destruct (dict_get d (u "errors")) as [errors|] eqn:He; [done|].
        intros [= <-]. by exists response, d.
    + intros (response & d & -> & Hs & Hj & He & ->).
      rewrite Hs, Hj. simpl. by rewrite He.
  - intros response d errors -> Hs Hj He. unfold _make_request.
    rewrite Hs, Hj. simpl. by rewrite He.
Qed.

Lemma make_request_returns_iff_witness :
  Response.status_code ExClient.partial_reply = 200%Z ∧
  _make_request (Some ExClient.partial_reply)
  = Failed (FirefliesAPIError (GraphQLErrors (PList []))).
Proof.
  split; [reflexivity|].
  destruct (make_request_returns_iff (Some ExClient.partial_reply)) as [_ Herr].
  eapply Herr; reflexivity.
Defined.

Lemma transcripts_loop_serves (fuel : nat) (post : Variables.t → option Response.t)
    (limit : Z) (date : option Z) (hostEmail : option str)
    (L : list pyval) (skip : nat) :
  serves post L → (1 ≤ limit)%Z → skip ≤ length L → length L - skip < fuel →
  transcripts_loop fuel post limit date hostEmail (Z.of_nat skip) (take skip L)
  = Some (Fetched L).
Proof.
  intros Hserves Hlimit. revert skip.
  induction fuel as [|fuel IH]; intros skip Hskip Hfuel; [lia|].
  simpl. destruct (Hserves (Variables.mk limit date hostEmail (Z.of_nat skip)))
    as (d & -> & Hd).
  simpl. rewrite Hd. simpl. unfold page_of. simpl. rewrite Nat2Z.id.
  set (page := take (Z.to_nat limit) (drop skip L)).
  assert (length page = Z.to_nat limit `min` (length L - skip)) as Hlen
    by (unfold page; by rewrite length_take, length_drop).
  destruct (decide (length page = 0)) as [Hz|Hnz].
  - rewrite bool_decide_eq_true_2 by done. simpl.
    rewrite take_ge by lia. done.
  - rewrite bool_decide_eq_false_2 by done. simpl.
    destruct (Z.ltb_spec (Z.of_nat (length page)) limit) as [Hlt|Hge].
    + assert (page = drop skip L) as -> by (unfold page; apply take_ge; rewrite length_drop; lia).
      by rewrite take_drop.
    + assert (length page = Z.to_nat limit) as Hfull by lia.
      rewrite <- Nat2Z.inj_add. unfold page at 2.
      rewrite take_take_drop, <- Hfull. apply IH; lia.
Qed.

(** X22.  Against a source that answers every request with the page asked
    for, [get_transcripts] returns all the transcripts the source holds, in
    their order, however many pages that takes: the [limit] is the size of a
    page, not a bound on the result.  One request more than there are
    transcripts always suffices. *)
Theorem get_transcripts_reads_all_pages `{PyLib} `{Calendar}
    (fuel : nat) (settings : Settings.t) (post : Variables.t → option Response.t)
    (time_period host_email : option str) (from_date : option datetime)
    (limit : option Z) (date : option Z) (L : list pyval) :
  serves post L →
  transcripts_date time_period from_date = Fetched date →
  (1 ≤ Settings.max_meetings_per_request settings)%Z →
  (∀ l, limit = Some l → 0 ≤ l)%Z →
  length L < fuel →
  get_transcripts fuel settings post time_period host_email from_date limit
  = Some (Fetched L).
Proof.
  intros Hserves Hdate Hmax Hlimit Hfuel. unfold get_transcripts. rewrite Hdate.
  apply (transcripts_loop_serves fuel post _ date _ L 0 Hserves); [|lia|lia].
  destruct limit as [l|]; [|done]. specialize (Hlimit l eq_refl).
  destruct (Z.eqb_spec l 0); lia.
Qed.

Lemma exclient_server_serves : serves ExClient.server ExClient.listing.
Proof. intros v. eexists. split; reflexivity. Qed.

Lemma get_transcripts_reads_all_pages_witness :
  serves ExClient.server ExClient.listing ∧
  get_transcripts 4 ExClient.settings ExClient.server (Some (u "letzte_woche")) None
    None None
  = Some (Fetched ExClient.listing).
Proof.
  split; [exact exclient_server_serves|].
  apply (get_transcripts_reads_all_pages 4 ExClient.settings ExClient.server
           (Some (u "letzte_woche")) None None None (Some 0%Z) ExClient.listing).
  - exact exclient_server_serves.
  - reflexivity.
  - vm_compute. discriminate.
  - intros l Hl. discriminate.
  - vm_compute. lia.
Defined.

Lemma lift_not_api_error {A} (o : outcome A) (e : api_error) :
  lift o ≠ Failed (FirefliesAPIError e).
Proof. by destruct o. Qed.

(** X23.  [get_transcript_detail] ends with a [FirefliesAPIError] in three
    cases and no other: the status is not 200; the body has an [errors] key;
    or the reply holds no transcript ([transcript] is missing, [null] or
    empty).  A transcript that cannot be parsed never ends as a
    [FirefliesAPIError]. *)
Theorem transcript_detail_api_errors `{PyLib} (post : option Response.t)
    (transcript_id : str) (e : api_error) :
  get_transcript_detail post transcript_id = Failed (FirefliesAPIError e) ↔
  ∃ response, post = Some response ∧
    ((Response.status_code response ≠ 200%Z ∧
      e = HTTPStatus (Response.status_code response) (Response.text response)) ∨
     (Response.status_code response = 200%Z ∧
      ∃ d, Response.json response = Returned (PDict d) ∧
        ((∃ errors, dict_get d (u "errors") = Some errors ∧ e = GraphQLErrors errors) ∨
         (dict_get d (u "errors") = None ∧
          ∃ data, default (PDict []) (dict_get d (u "data")) = PDict data ∧
                  truthy (default (PDict []) (dict_get data (u "transcript"))) = false ∧
                  e = NotFound transcript_id)))).
Proof.
  unfold get_transcript_detail, _make_request. split.
  - destruct post as [response|]; [|done]. intros Hg. exists response. split; [done|].
    destruct (Z.eqb_spec (Response.status_code response) 200) as [Hs|Hs]; simpl in Hg.
    + right. split; [done|].
      destruct (Response.json response) as [body|x]; [|done]. simpl in Hg.
      destruct body as [| | | | s|l|d]; try done.
      * by destruct (str_in _ s).
      * by destruct (existsb _ l).
      * exists d. split; [done|].
        destruct (dict_get d (u "errors")) as [errors|] eqn:He; simpl in Hg.
        { injection Hg as <-. left. by exists errors. }
        right. split; [done|].
        destruct (default (PDict []) (dict_get d (u "data"))) as [| | | | |?|data];
          try done.
        exists data. split; [done|]. simpl in Hg.
        destruct (truthy (default (PDict []) (dict_get data (u "transcript")))).
        { simpl in Hg. by apply lift_not_api_error in Hg. }
        simpl in Hg. by injection Hg as <-.
    + left. split; [done|]. by injection Hg as <-.
  - intros (response & -> & [[Hs ->] | (Hs & d & Hj & Hd)]).
    + destruct (Z.eqb_spec (Response.status_code response) 200); done.
    + rewrite Hs, Hj. simpl.
      destruct Hd as [(errors & -> & ->) | (-> & data & -> & Ht & ->)]; [done|].
      simpl. by rewrite Ht.
Qed.

Lemma transcript_detail_api_errors_witness :
  get_transcript_detail
    (Some (ExClient.reply (PDict [(u "transcript", PNone)]))) (u "t9")
  = Failed (FirefliesAPIError (NotFound (u "t9"))).
Proof.
  apply (transcript_detail_api_errors
           (Some (ExClient.reply (PDict [(u "transcript", PNone)]))) (u "t9")
           (NotFound (u "t9"))).
  eexists. split; [reflexivity|]. right. split; [reflexivity|].
  eexists. split; [reflexivity|]. right. split; [reflexivity|].
  eexists. split; [reflexivity|]. split; reflexivity.
Defined.

(** ** The hosts of a period *)

Lemma str_le_total (a b : str) : str_le a b ∨ str_le b a.
Proof.
  unfold str_le. revert b. induction a as [|x a IH]; intros [|y b]; simpl; auto.
  destruct (N.ltb_spec x y), (N.ltb_spec y x), (N.eqb_spec x y), (N.eqb_spec y x);
    simpl; auto; try lia.
Qed.

Lemma str_le_trans (a b c : str) : str_le a b → str_le b c → str_le a c.
Proof.
  unfold str_le. revert b c.
  induction a as [|x a IH]; intros [|y b] [|z c]; simpl; try done.
  destruct (N.ltb_spec x y), (N.ltb_spec y z), (N.ltb_spec x z),
    (N.eqb_spec x y), (N.eqb_spec y z), (N.eqb_spec x z);
    simpl; try done; try lia. apply IH.
Qed.

Lemma str_le_antisym (a b : str) : str_le a b → str_le b a → a = b.
Proof.
  unfold str_le. revert b. induction a as [|x a IH]; intros [|y b]; simpl; try done.
  destruct (N.ltb_spec x y), (N.ltb_spec y x), (N.eqb_spec x y), (N.eqb_spec y x);
    simpl; try done; try lia.
  intros Hab Hba. subst. f_equal. by apply IH.
Qed.

Lemma strictly_sorted (l : list str) :
  StronglySorted str_le l → NoDup l → StronglySorted str_lt l.
Proof.
  induction 1 as [|x l Hl IH Hx]; intros Hnd; [constructor|].
  apply NoDup_cons in Hnd as [Hnin Hnd]. constructor; [by apply IH|].
  rewrite Forall_forall in Hx. apply Forall_forall. intros y Hy.
  split; [by apply Hx|]. by intros ->.
Qed.

Lemma sorted_spec (hosts : gset str) :
  StronglySorted str_lt (sorted hosts) ∧ ∀ e, e ∈ sorted hosts ↔ e ∈ hosts.
Proof.
  unfold sorted.
  pose proof (merge_sort_Permutation str_le (elements hosts)) as Hp.
  split.
  - apply strictly_sorted;
      [apply (@StronglySorted_merge_sort _ str_le _ str_le_trans str_le_total)|].
    apply (NoDup_Permutation_proper _ _ Hp), NoDup_elements.
  - intros e. by rewrite Hp, elem_of_elements.
Qed.

Lemma add_host_spec (t : pyval) (k : string) (hosts hosts' : gset str) :
  add_host t k hosts = Ok hosts' →
  ∃ d, t = PDict d ∧
       ∀ e, e ∈ hosts' ↔ e ∈ hosts ∨ (e ≠ [] ∧ dict_get d (u k) = Some (PStr e)).
Proof.
  unfold add_host, py_get. destruct t as [| | | | | |d]; try done. simpl.
  intros Ha. exists d. split; [done|].
  destruct (dict_get d (u k)) as [v|]; simpl in Ha.
  - destruct (truthy v) eqn:Ht.
    + destruct v as [| | | |s| |]; try done. injection Ha as <-. intros e.
      rewrite elem_of_union, elem_of_singleton. split.
      * intros [-> | He]; [|by left]. right. split; [|done].
        intros ->. done.
      * intros [He | [_ [= ->]]]; [by right | by left].
    + injection Ha as <-. intros e. split; [by left|].
      intros [He | [Hne [= ->]]]; [done|]. simpl in Ht.
      by rewrite bool_decide_eq_false_2 in Ht.
  - injection Ha as <-. intros e. split; [by left|]. by intros [He | [_ ?]].
Qed.

Lemma collect_hosts_spec (transcripts : list pyval) (hosts hosts' : gset str) :
  collect_hosts transcripts hosts = Ok hosts' →
  ∀ e, e ∈ hosts' ↔
       e ∈ hosts ∨ (e ≠ [] ∧ ∃ t, t ∈ transcripts ∧ names_host t e).
Proof.
  revert hosts. induction transcripts as [|t rest IH]; intros hosts Hc e.
  - injection Hc as <-. split; [by left|].
    intros [He | (_ & t & Ht & _)]; [done | by apply elem_of_nil in Ht].
  - simpl in Hc. apply bind_Ok in Hc as (h1 & H1 & Hc).
    apply bind_Ok in Hc as (h2 & H2 & Hc).
    apply add_host_spec in H1 as (d & -> & H1).
    apply add_host_spec in H2 as (d' & [= <-] & H2).
    rewrite (IH h2 Hc e), H2, H1. unfold names_host. split.
    + intros [[[He | [Hne Hh]] | [Hne Ho]] | (Hne & t & Ht & Hn)].
      * by left.
      * right. split; [done|]. exists (PDict d). split; [left|]. exists d. auto.
      * right. split; [done|]. exists (PDict d). split; [left|]. exists d. auto.
      * right. split; [done|]. exists t. split; [by right | done].
    + intros [He | (Hne & t & Ht & Hn)]; [by do 3 left|].
      apply elem_of_cons in Ht as [-> | Ht].
      * destruct Hn as (d0 & [= <-] & [Hh | Ho]); [left; left; by right | left; by right].
      * right. split; [done|]. by exists t.
Qed.

(** X24.  The list [get_all_hosts] returns is in strictly ascending order
    of code points, so no email is in it twice; it holds exactly the
    non-empty [host_email] and [organizer_email] strings of the transcripts
    of the period. *)
Theorem all_hosts_sorted_and_unique `{PyLib} `{Calendar}
    (fuel : nat) (settings : Settings.t) (post : Variables.t → option Response.t)
    (time_period : str) (hosts : list str) :
  get_all_hosts fuel settings post time_period = Some (Fetched hosts) →
  ∃ transcripts,
    get_transcripts fuel settings post (Some time_period) None None None
      = Some (Fetched transcripts) ∧
    StronglySorted str_lt hosts ∧
    ∀ e, e ∈ hosts ↔ e ≠ [] ∧ ∃ t, t ∈ transcripts ∧ names_host t e.
Proof.
  unfold get_all_hosts. intros Hg.
  destruct (get_transcripts fuel settings post (Some time_period) None None None)
    as [[transcripts|f]|]; [|done|done].
  exists transcripts. split; [done|].
  destruct (collect_hosts transcripts ∅) as [set| |] eqn:Hc; [|done|done].
  simpl in Hg. injection Hg as <-.
  destruct (sorted_spec set) as [Hs Hm]. split; [done|].
  intros e. rewrite Hm, (collect_hosts_spec transcripts ∅ set Hc e).
  split; [|by right]. intros [He | He]; [|done]. by apply not_elem_of_empty in He.
Qed.

Lemma all_hosts_sorted_and_unique_witness :
  get_all_hosts 4 ExClient.settings ExClient.server (u "letzte_3_monate")
    = Some (Fetched [u "ann@example.com"; u "zoe@example.com"]) ∧
  StronglySorted str_lt [u "ann@example.com"; u "zoe@example.com"].
Proof.
  assert (get_all_hosts 4 ExClient.settings ExClient.server (u "letzte_3_monate")
          = Some (Fetched [u "ann@example.com"; u "zoe@example.com"])) as Hg
    by (vm_compute; reflexivity).
  split; [exact Hg|].
  destruct (all_hosts_sorted_and_unique 4 ExClient.settings ExClient.server
              (u "letzte_3_monate") _ Hg) as (transcripts & _ & Hs & _).
  exact Hs.
Defined.

(** ** The rendered document *)

Lemma one_line_app (a b : str) : one_line a → one_line b → one_line (a ++ b).
Proof. unfold one_line. rewrite elem_of_app. tauto. Qed.

Lemma one_line_cons (c : N) (s : str) : c ≠ 10%N → one_line s → one_line (c :: s).
Proof. unfold one_line. rewrite elem_of_cons. intros Hc Hs [Hx | Hin]; auto. Qed.

Lemma one_line_digits (d : Decimal.uint) : one_line (u (NilEmpty.string_of_uint d)).
Proof.
  induction d; [apply not_elem_of_nil|..];
    (apply (one_line_cons _ (u (NilEmpty.string_of_uint d))); [discriminate | done]).
Qed.

Lemma one_line_str_of_Z (z : Z) : one_line (str_of_Z z).
Proof.
  unfold str_of_Z, NilZero.string_of_int.
  assert (∀ d, one_line (u (NilZero.string_of_uint d))) as Hd.
  { intros d. destruct d; try apply (one_line_digits (_ d)).
    apply (one_line_cons 48 []); [discriminate | apply not_elem_of_nil]. }
  destruct (Z.to_int z) as [d|d]; [apply Hd|].
  apply (one_line_cons 45 (u (NilZero.string_of_uint d))); [discriminate | apply Hd].
Qed.

Lemma one_line_str_or (x dflt : str) :
  one_line x → one_line dflt → one_line (str_or x dflt).
Proof. by destruct x. Qed.

Lemma one_line_get_or (d : list (str * str)) (k dflt : string) :
  one_line_at d k → one_line (u dflt) → one_line (get_or d k dflt).
Proof.
  intros Hk Hd. unfold get_or. destruct (dict_get d (u k)) as [v|] eqn:E; [|done].
  by apply Hk.
Qed.

(** A text made of literals and of texts of one line. *)
Ltac one_line_tac :=
  repeat first
    [ assumption
    | apply one_line_str_of_Z
    | apply one_line_str_or
    | apply one_line_get_or
    | apply one_line_app
    | solve [unfold one_line; apply (bool_decide_unpack _); vm_compute; exact I] ].

Lemma one_line_opt_line (label value : str) :
  one_line label → one_line value → Forall one_line (opt_line label value).
Proof.
  intros Hl Hv. destruct value as [|c v]; [constructor|].
  constructor; [by apply one_line_app | constructor].
Qed.

Lemma one_line_flat_map {A} (f : A → list str) (l : list A) :
  Forall (λ x, Forall one_line (f x)) l → Forall one_line (flat_map f l).
Proof.
  induction 1 as [|x l Hx _ IH]; simpl; [constructor|]. by apply Forall_app_2.
Qed.

Lemma one_line_quote_lines (quote : list (str * str)) :
  one_line_at quote "quote" ∧ one_line_at quote "context" →
  Forall one_line (quote_lines quote).
Proof.
  intros [Hq Hc]. unfold quote_lines. constructor; [one_line_tac|].
  destruct (dict_get quote (u "context")) as [[|c s]|] eqn:E; try constructor;
    [|constructor].
  specialize (Hc _ E). one_line_tac.
Qed.

Lemma one_line_profile_lines (i : Z) (p : CustomerProfile.t) :
  profile_one_line p → Forall one_line (profile_lines i p).
Proof.
  intros (H1 & H2 & H3 & H4 & H5 & H6). unfold profile_lines.
  apply Forall_app_2; [constructor; [one_line_tac | constructor]|].
  apply Forall_app_2; [apply one_line_opt_line; one_line_tac|].
  apply Forall_app_2; [apply one_line_opt_line; one_line_tac|].
  apply Forall_app_2; [apply one_line_opt_line; one_line_tac|].
  apply Forall_app_2; [apply one_line_opt_line; one_line_tac|].
  apply Forall_app_2; [apply one_line_opt_line; one_line_tac|].
  apply Forall_app_2; [|constructor; [apply not_elem_of_nil | constructor]].
  destruct (CustomerProfile.supporting_quotes p) as [|quote quotes]; [constructor|].
  apply Forall_app_2.
  - constructor; [apply not_elem_of_nil|]. constructor; [one_line_tac | constructor].
  - apply one_line_flat_map. eapply Forall_impl; [exact H6|].
    intros quote'. apply one_line_quote_lines.
Qed.

Lemma enumerate_Forall {A} (P : A → Prop) (i : Z) (l : list A) :
  Forall P l → Forall (λ ip, P ip.2) (enumerate i l).
Proof.
  intros Hl. revert i. induction Hl as [|x l Hx _ IH]; intros i; simpl; constructor;
    [done | apply IH].
Qed.

Lemma one_line_pain_point_lines (pp : PainPoint.t) :
  pain_point_one_line pp → Forall one_line (pain_point_lines pp).
Proof.
  intros (H1 & H2 & H3 & H4 & H5 & H6 & H7 & H8). unfold pain_point_lines.
  apply Forall_app_2.
  { repeat (constructor; [first [apply not_elem_of_nil | one_line_tac]|]). constructor. }
  apply Forall_app_2; [apply one_line_opt_line; one_line_tac|].
  apply Forall_app_2; [apply one_line_opt_line; one_line_tac|].
  apply Forall_app_2; [apply one_line_opt_line; one_line_tac|].
  constructor; [apply not_elem_of_nil | constructor].
Qed.

Lemma one_line_question_lines (q : Question.t) :
  question_one_line q → Forall one_line (question_lines q).
Proof.
  intros (H1 & H2 & H3 & H4). unfold question_lines.
  apply Forall_app_2.
  { repeat (constructor; [one_line_tac|]). constructor. }
  apply Forall_app_2; [apply one_line_opt_line; one_line_tac|].
  constructor; [apply not_elem_of_nil | constructor].
Qed.

Lemma one_line_objection_lines (obj : Objection.t) :
  objection_one_line obj → Forall one_line (objection_lines obj).
Proof.
  intros (H1 & H2 & H3 & H4 & H5 & H6 & H7). unfold objection_lines.
  apply Forall_app_2.
  { repeat (constructor; [first [apply not_elem_of_nil | one_line_tac]|]). constructor. }
  apply Forall_app_2; [apply one_line_opt_line; one_line_tac|].
  apply Forall_app_2; [apply one_line_opt_line; one_line_tac|].
  apply Forall_app_2; [apply one_line_opt_line; one_line_tac|].
  apply Forall_app_2; [apply one_line_opt_line; one_line_tac|].
  constructor; [apply not_elem_of_nil | constructor].
Qed.

Lemma one_line_pattern_lines (lp : LanguagePattern.t) :
  pattern_one_line lp → Forall one_line (pattern_lines lp).
Proof.
  intros (H1 & H2 & H3). unfold pattern_lines.
  constructor; [one_line_tac | apply one_line_opt_line; one_line_tac].
Qed.

Lemma one_line_language_category_lines (patterns : list LanguagePattern.t)
    (cat : str * str) :
  one_line cat.2 → Forall pattern_one_line patterns →
  Forall one_line (language_category_lines patterns cat).
Proof.
  intros Hc Hp. unfold language_category_lines.
  assert (Forall pattern_one_line
            (filter (λ lp, LanguagePattern.category lp = cat.1) patterns)) as Hf.
  { apply Forall_forall. intros lp [_ Hin]%list_elem_of_filter.
    rewrite Forall_forall in Hp. by apply Hp. }
  destruct (filter _ patterns) as [|lp lps]; [constructor|].
  apply Forall_app_2.
  - constructor; [one_line_tac|]. constructor; [apply not_elem_of_nil | constructor].
  - apply Forall_app_2; [|constructor; [apply not_elem_of_nil | constructor]].
    apply one_line_flat_map. eapply Forall_impl; [exact Hf|].
    intros lp'. apply one_line_pattern_lines.
Qed.

Lemma one_line_customer_quote_line (d : list (str * str)) :
  one_line_at d "customer_quote" → Forall one_line (customer_quote_line d).
Proof.
  intros Hq. unfold customer_quote_line.
  destruct (dict_get d (u "customer_quote")) as [[|c s]|] eqn:E; try constructor;
    [|constructor].
  specialize (Hq _ E). one_line_tac.
Qed.

Lemma one_line_grouped_lines {A} (item_lines : A → list str) (key : A → str)
    (l : list A) :
  Forall (λ x, one_line (key x) ∧ Forall one_line (item_lines x)) l →
  Forall one_line (grouped_lines item_lines (group_by key l)).
Proof.
  intros Hl. rewrite Forall_forall in Hl. unfold grouped_lines.
  apply one_line_flat_map, Forall_forall. intros [c items] Hg.
  apply group_by_spec in Hg as [Hne ->]. cbn [fst snd].
  destruct (filter (λ x, key x = c) l) as [|x xs] eqn:E; [done|].
  assert (x ∈ filter (λ x, key x = c) l) as Hx by (rewrite E; left).
  apply list_elem_of_filter in Hx as [Hk Hx]. rewrite <- E.
  apply Forall_app_2.
  - constructor; [rewrite <- Hk; apply one_line_app; [one_line_tac | by apply Hl]|].
    constructor; [apply not_elem_of_nil | constructor].
  - apply one_line_flat_map, Forall_forall. intros y [_ Hy]%list_elem_of_filter.
    by apply Hl.
Qed.

Lemma one_line_section {A} (records : list A) (header : str) (body : list str) :
  one_line header → Forall one_line body →
  Forall one_line (section records header body).
Proof.
  intros Hh Hb. destruct records; [constructor|]. simpl.
  constructor; [done|]. constructor; [apply not_elem_of_nil | done].
Qed.

(** When the texts of the result are of one line, so is every text
    [_build_markdown] joins. *)
Lemma one_line_markdown_lines `{PyLib} (r : AnalysisResult.t) :
  no_line_breaks r → Forall one_line (markdown_lines r).
Proof.
  intros (Ht & Hcp & Hpp & Hq & Ho & Hlp & Hvp & Hmr & Hmg & Hct).
  unfold markdown_lines. apply Forall_app_2.
  { unfold report_header.
    repeat (constructor; [first [apply not_elem_of_nil | one_line_tac]|]). constructor. }
  unfold markdown_sections. cbn [concat]. rewrite app_nil_r.
  repeat apply Forall_app_2; apply one_line_section;
    try (unfold one_line; apply (bool_decide_unpack _); vm_compute; exact I).
  - apply one_line_flat_map.
    eapply Forall_impl; [apply (enumerate_Forall _ 1 _ Hcp)|].
    intros ip. apply one_line_profile_lines.
  - apply one_line_grouped_lines. eapply Forall_impl; [exact Hpp|].
    intros pp Hx. split; [|by apply one_line_pain_point_lines].
    destruct Hx as (H1 & _). one_line_tac.
  - apply one_line_grouped_lines. eapply Forall_impl; [exact Hq|].
    intros q Hx. split; [|by apply one_line_question_lines].
    destruct Hx as (_ & _ & H3 & _). one_line_tac.
  - apply one_line_flat_map. eapply Forall_impl; [exact Ho|].
    intros obj. apply one_line_objection_lines.
  - apply one_line_flat_map. unfold language_categories.
    repeat (constructor;
            [apply one_line_language_category_lines; [one_line_tac | done]|]).
    constructor.
  - apply one_line_flat_map. eapply Forall_impl; [exact Hvp|].
    intros vp (H1 & H2 & H3). unfold value_proposition_lines.
    repeat (constructor; [first [apply not_elem_of_nil | one_line_tac]|]). constructor.
  - apply one_line_flat_map. eapply Forall_impl; [exact Hmr|].
    intros rec (H1 & H2 & H3). unfold recommendation_lines.
    apply Forall_app_2; [constructor; [one_line_tac | constructor]|].
    apply Forall_app_2; [by apply one_line_customer_quote_line|].
    repeat (constructor; [first [apply not_elem_of_nil | one_line_tac]|]). constructor.
  - apply one_line_flat_map. eapply Forall_impl; [exact Hmg|].
    intros msg (H1 & H2 & H3). unfold guideline_lines.
    apply Forall_app_2; [constructor; [one_line_tac | constructor]|].
    apply Forall_app_2; [by apply one_line_customer_quote_line|].
    repeat (constructor; [first [apply not_elem_of_nil | one_line_tac]|]). constructor.
  - apply Forall_app_2; [|constructor; [apply not_elem_of_nil | constructor]].
    apply Forall_fmap. eapply Forall_impl; [exact Hct|].
    intros trigger Ht'. apply (one_line_app (u "- ") trigger); one_line_tac.
Qed.

Lemma split_lines_nonempty (s : str) : split_lines s ≠ [].
Proof.
  induction s as [|c s IH]; simpl; [done|].
  destruct (c =? 10)%N; [done|]. by destruct (split_lines s).
Qed.

Lemma split_lines_app (a b : str) :
  split_lines (a ++ 10%N :: b) = split_lines a ++ split_lines b.
Proof.
  induction a as [|c a IH]; simpl; [done|].
  destruct (c =? 10)%N; [by rewrite IH|]. rewrite IH.
  pose proof (split_lines_nonempty a). by destruct (split_lines a).
Qed.

Lemma split_lines_join_flat_map (lines : list str) :
  lines ≠ [] → split_lines (join nl lines) = flat_map split_lines lines.
Proof.
  induction lines as [|line lines IH]; intros Hne; [done|].
  destruct lines as [|line' lines]; [simpl; by rewrite app_nil_r|].
  change (join nl (line :: line' :: lines))
    with (line ++ 10%N :: join nl (line' :: lines)).
  rewrite split_lines_app, IH by done. done.
Qed.

(** A text of one line among the joined texts is a line of the document. *)
Lemma one_line_in_document (lines : list str) (line : str) :
  line ∈ lines → one_line line → line ∈ split_lines (join nl lines).
Proof.
  intros Hin Hl. rewrite split_lines_join_flat_map
    by (intros ->; by apply elem_of_nil in Hin).
  apply elem_of_flat_map. exists line. split; [done|].
  rewrite (split_lines_single line Hl). left.
Qed.

Lemma document_lines `{PyLib} (r : AnalysisResult.t) :
  no_line_breaks r → split_lines (_build_markdown r) = markdown_lines r.
Proof.
  intros Hr. apply split_lines_join; [done|]. by apply one_line_markdown_lines.
Qed.

(** C8, as the specification states it, fails: the response has one pain
    point and no objection; the pain point's context holds a line break
    followed by the text of the objections header.  The result has no
    objections, and the header of the objections section is a line of the
    rendered document. *)
Lemma header_without_records :
  _build_result ExText.two_line_context [] [] = Ok ExText.two_line_result ∧
  AnalysisResult.objections ExText.two_line_result = [] ∧
  h_objections ∈ split_lines (_build_markdown ExText.two_line_result).
Proof.
  split; [vm_compute; reflexivity|]. split; [reflexivity|].
  apply (bool_decide_unpack _). vm_compute. exact I.
Qed.

(** C8, amended.  The header of every section whose list is not empty is
    a line of the rendered document, and every objection whose
    [direct_quote] holds no line break has it on a line of its own that opens
    a blockquote.  When no text of the result that the report prints holds a
    line break, a header is a line of the document only if the list of its
    section is not empty: then the header is there iff the list is not
    empty, for each of the nine sections, and a result without objections
    has no objections header. *)
Theorem markdown_headers_iff_records `{PyLib} (r : AnalysisResult.t) :
  let document := split_lines (_build_markdown r) in
  ((AnalysisResult.customer_profiles r ≠ [] → h_profiles ∈ document) ∧
   (AnalysisResult.pain_points r ≠ [] → h_pain_points ∈ document) ∧
   (AnalysisResult.questions r ≠ [] → h_questions ∈ document) ∧
   (AnalysisResult.objections r ≠ [] → h_objections ∈ document) ∧
   (AnalysisResult.language_patterns r ≠ [] → h_language ∈ document) ∧
   (AnalysisResult.value_propositions r ≠ [] → h_value_propositions ∈ document) ∧
   (AnalysisResult.marketing_recommendations r ≠ [] → h_marketing ∈ document) ∧
   (AnalysisResult.messaging_guidelines r ≠ [] → h_messaging ∈ document) ∧
   (AnalysisResult.conversion_triggers r ≠ [] → h_triggers ∈ document)) ∧
  (∀ obj, obj ∈ AnalysisResult.objections r →
          one_line (Objection.direct_quote obj) →
          (u "> " ++ dq ++ Objection.direct_quote obj ++ dq) ∈ document) ∧
  (no_line_breaks r →
   (h_profiles ∈ document ↔ AnalysisResult.customer_profiles r ≠ []) ∧
   (h_pain_points ∈ document ↔ AnalysisResult.pain_points r ≠ []) ∧
   (h_questions ∈ document ↔ AnalysisResult.questions r ≠ []) ∧
   (h_objections ∈ document ↔ AnalysisResult.objections r ≠ []) ∧
   (h_language ∈ document ↔ AnalysisResult.language_patterns r ≠ []) ∧
   (h_value_propositions ∈ document ↔ AnalysisResult.value_propositions r ≠ []) ∧
   (h_marketing ∈ document ↔ AnalysisResult.marketing_recommendations r ≠ []) ∧
   (h_messaging ∈ document ↔ AnalysisResult.messaging_guidelines r ≠ []) ∧
   (h_triggers ∈ document ↔ AnalysisResult.conversion_triggers r ≠ [])).
Proof.
  intros document. subst document.
  destruct (markdown_lines_headers r)
    as (_ & _ & H1 & H2 & H3 & H4 & H5 & H6 & H7 & H8 & H9 & Hq).
  assert (∀ line, line ∈ markdown_lines r → one_line line →
                  line ∈ split_lines (_build_markdown r)) as Hdoc
    by (intros line; apply one_line_in_document).
  split; [|split].
  - split; [intros Hne; apply Hdoc; [by apply H1 | one_line_tac]|].
    split; [intros Hne; apply Hdoc; [by apply H2 | one_line_tac]|].
    split; [intros Hne; apply Hdoc; [by apply H3 | one_line_tac]|].
    split; [intros Hne; apply Hdoc; [by apply H4 | one_line_tac]|].
    split; [intros Hne; apply Hdoc; [by apply H5 | one_line_tac]|].
    split; [intros Hne; apply Hdoc; [by apply H6 | one_line_tac]|].
    split; [intros Hne; apply Hdoc; [by apply H7 | one_line_tac]|].
    split; [intros Hne; apply Hdoc; [by apply H8 | one_line_tac]|].
    intros Hne; apply Hdoc; [by apply H9 | one_line_tac].
  - intros obj Hin Hone. apply Hdoc; [by apply Hq | one_line_tac].
  - intros Hr. rewrite (document_lines r Hr).
    exact (conj H1 (conj H2 (conj H3 (conj H4 (conj H5
             (conj H6 (conj H7 (conj H8 H9)))))))).
Qed.

Lemma markdown_headers_iff_records_witness :
  no_line_breaks Ex.one_objection ∧
  (h_objections ∈ split_lines (_build_markdown Ex.one_objection)) ∧
  (h_pain_points ∉ split_lines (_build_markdown Ex.one_objection)) ∧
  (u "> " ++ dq ++ u "That is a lot of money." ++ dq)
    ∈ split_lines (_build_markdown Ex.one_objection).
Proof.
  assert (no_line_breaks Ex.one_objection) as Hr.
  { unfold no_line_breaks. repeat split; repeat constructor;
      unfold one_line; apply (bool_decide_unpack _); vm_compute; exact I. }
  split; [exact Hr|].
  destruct (markdown_headers_iff_records Ex.one_objection) as (_ & Hq & Hiff).
  destruct (Hiff Hr) as (_ & Hp & _ & Ho & _).
  split; [|split].
  - apply Ho. discriminate.
  - intros Hin. apply Hp in Hin. by apply Hin.
  - apply (Hq Ex.price_objection); [left|].
    unfold one_line. apply (bool_decide_unpack _). vm_compute. exact I.
Defined.

(** X14.  Every pain point and every question of a result is in the
    rendered document: when its category holds no line break, the category
    (["Sonstiges"] or ["Allgemein"] when it is empty) is the text of a
    third-level heading line, and when the pain point's quote or the
    question's text holds no line break, it is on a line of its own. *)
Theorem grouped_records_in_markdown `{PyLib} (r : AnalysisResult.t) :
  let document := split_lines (_build_markdown r) in
  (∀ pp, pp ∈ AnalysisResult.pain_points r →
     (one_line (PainPoint.category pp) →
      (u "### " ++ str_or (PainPoint.category pp) (u "Sonstiges")) ∈ document) ∧
     (one_line (PainPoint.direct_quote pp) →
      (u "> " ++ dq ++ PainPoint.direct_quote pp ++ dq) ∈ document)) ∧
  (∀ q, q ∈ AnalysisResult.questions r →
     (one_line (Question.category q) →
      (u "### " ++ str_or (Question.category q) (u "Allgemein")) ∈ document) ∧
     (one_line (Question.text q) →
      (u "**Frage:** " ++ dq ++ Question.text q ++ dq) ∈ document)).
Proof.
  intros document. subst document.
  destruct (grouped_records_in_markdown_lines r) as [Hpp Hq].
  split.
  - intros pp Hin. destruct (Hpp pp Hin) as [Hh Hl].
    split; intros Hone; (apply one_line_in_document; [done | one_line_tac]).
  - intros q Hin. destruct (Hq q Hin) as [Hh Hl].
    split; intros Hone; (apply one_line_in_document; [done | one_line_tac]).
Qed.

Lemma grouped_records_in_markdown_witness :
  (Ex.pain "Cost" ∈ AnalysisResult.pain_points Ex.three_pains_result) ∧
  one_line (PainPoint.category (Ex.pain "Cost")) ∧
  (u "### Cost") ∈ split_lines (_build_markdown Ex.three_pains_result).
Proof.
  assert (Ex.pain "Cost" ∈ AnalysisResult.pain_points Ex.three_pains_result) as Hin
    by (do 2 right; left).
  assert (one_line (PainPoint.category (Ex.pain "Cost"))) as Hone
    by (unfold one_line; apply (bool_decide_unpack _); vm_compute; exact I).
  split; [exact Hin|]. split; [exact Hone|].
  destruct (grouped_records_in_markdown Ex.three_pains_result) as [Hpp _].
  destruct (Hpp (Ex.pain "Cost") Hin) as [Hh _].
  exact (Hh Hone).
Defined.
